(** * Stock dashboard (app.py): a shallow embedding and its properties

    The program is one Streamlit script.  It reads four sidebar inputs,
    calls the yfinance download once, and then draws either the
    single-symbol view or the multi-symbol view, each ending in a CSV
    download button.

    Modelling choices, all visible in the definitions below:
    - text is [string], the UTF-8 bytes of the Python [str]; line 15
      works on the characters of the text, with the white space and the
      upper case of Python 3.11 (Unicode 14.0);
    - a pandas [DataFrame] is an ordered list of column labels, an index
      name, and rows that pair an index label with one cell per column;
    - a float is a binary64 float with the processor's arithmetic, and
      the rolling mean is the running sum pandas keeps;
    - the script is a computation in a small monad that records every
      Streamlit call and the fetch call in order, and ends by running to
      completion, by [st.stop()], or by an uncaught exception. *)

From Stdlib Require Import String Ascii List ZArith QArith Lia Bool DecimalString.
From Stdlib Require Import PrimFloat.
From Stdlib Require SpecFloat FloatOps.
From stdpp Require Import base gmap strings.
Import ListNotations.

Open Scope string_scope.
Open Scope list_scope.

(** ** Text as bytes *)

Module Text.

Definition newline : ascii := "010"%char.
Definition comma : ascii := ","%char.
Definition dquote : ascii := ascii_of_nat 34.

(** Truth value of a Python [str]: non-empty. *)
Definition truthy (s : string) : bool :=
  match s with EmptyString => false | _ => true end.

(** [sep.join(parts)] *)
Fixpoint join (sep : string) (parts : list string) : string :=
  match parts with
  | [] => EmptyString
  | [p] => p
  | p :: ps => p ++ sep ++ join sep ps
  end.

End Text.

(** ** Python's [str]

    A [str] is a sequence of characters (code points).  A character is
    held here as the bytes of its UTF-8 encoding, so that a text of the
    model, which is the UTF-8 encoding of a [str], is the concatenation
    of its characters. *)

Module PyStr.

Definition str : Type := list string.

Definition is_ascii (c : ascii) : bool := (nat_of_ascii c <? 128)%nat.

Definition is_continuation (c : ascii) : bool :=
  (128 <=? nat_of_ascii c)%nat && (nat_of_ascii c <? 192)%nat.

(** The characters of a text: a byte below 128 is a character, any
    other byte is one together with the continuation bytes that follow
    it. *)
Definition continues (s : string) : bool :=
  match s with
  | String d _ => is_continuation d
  | EmptyString => false
  end.

Fixpoint chars (s : string) : str :=
  match s with
  | EmptyString => []
  | String c s' =>
      match chars s' with
      | ch :: rest =>
          if continues s' && negb (is_ascii c)
          then String c ch :: rest
          else String c EmptyString :: ch :: rest
      | [] => [String c EmptyString]
      end
  end.

(** The text of a [str]. *)
Definition encode (s : str) : string := fold_right String.append EmptyString s.

(** The UTF-8 encoding of a code point. *)
Definition lead_byte (n : N) : ascii := ascii_of_N n.

Definition continuation_byte (n : N) : ascii := ascii_of_N (0x80 + n mod 0x40)%N.

Definition utf8 (code : N) : string :=
  if (code <? 0x80)%N then String (lead_byte code) EmptyString
  else if (code <? 0x800)%N then
    String (lead_byte (0xC0 + code / 0x40)%N)
      (String (continuation_byte code) EmptyString)
  else if (code <? 0x10000)%N then
    String (lead_byte (0xE0 + code / 0x1000)%N)
      (String (continuation_byte (code / 0x40)%N)
         (String (continuation_byte code) EmptyString))
  else
    String (lead_byte (0xF0 + code / 0x40000)%N)
      (String (continuation_byte (code / 0x1000)%N)
         (String (continuation_byte (code / 0x40)%N)
            (String (continuation_byte code) EmptyString))).

(** The code points for which [str.isspace] holds; [str.strip] removes
    these. *)
Definition whitespace_codes : list N :=
  [0x9; 0xA; 0xB; 0xC; 0xD; 0x1C; 0x1D; 0x1E; 0x1F; 0x20; 0x85; 0xA0; 0x1680; 0x2000; 0x2001; 0x2002; 0x2003; 0x2004; 0x2005; 0x2006; 0x2007; 0x2008; 0x2009; 0x200A; 0x2028; 0x2029; 0x202F; 0x205F; 0x3000]%N.

Definition whitespace : list string :=
  Eval vm_compute in List.map utf8 whitespace_codes.

Definition isspace (ch : string) : bool := existsb (String.eqb ch) whitespace.

(** The code points that [str.upper] changes, each with the code points
    it becomes (Python 3.11, Unicode 14.0). *)
Definition upper_codes : list (N * list N) :=
  [(0x61, [0x41]); (0x62, [0x42]); (0x63, [0x43]); (0x64, [0x44]);
   (0x65, [0x45]); (0x66, [0x46]); (0x67, [0x47]); (0x68, [0x48]);
   (0x69, [0x49]); (0x6A, [0x4A]); (0x6B, [0x4B]); (0x6C, [0x4C]);
   (0x6D, [0x4D]); (0x6E, [0x4E]); (0x6F, [0x4F]); (0x70, [0x50]);
   (0x71, [0x51]); (0x72, [0x52]); (0x73, [0x53]); (0x74, [0x54]);
   (0x75, [0x55]); (0x76, [0x56]); (0x77, [0x57]); (0x78, [0x58]);
   (0x79, [0x59]); (0x7A, [0x5A]); (0xB5, [0x39C]); (0xDF, [0x53; 0x53]);
   (0xE0, [0xC0]); (0xE1, [0xC1]); (0xE2, [0xC2]); (0xE3, [0xC3]);
   (0xE4, [0xC4]); (0xE5, [0xC5]); (0xE6, [0xC6]); (0xE7, [0xC7]);
   (0xE8, [0xC8]); (0xE9, [0xC9]); (0xEA, [0xCA]); (0xEB, [0xCB]);
   (0xEC, [0xCC]); (0xED, [0xCD]); (0xEE, [0xCE]); (0xEF, [0xCF]);
   (0xF0, [0xD0]); (0xF1, [0xD1]); (0xF2, [0xD2]); (0xF3, [0xD3]);
   (0xF4, [0xD4]); (0xF5, [0xD5]); (0xF6, [0xD6]); (0xF8, [0xD8]);
   (0xF9, [0xD9]); (0xFA, [0xDA]); (0xFB, [0xDB]); (0xFC, [0xDC]);
   (0xFD, [0xDD]); (0xFE, [0xDE]); (0xFF, [0x178]); (0x101, [0x100]);
   (0x103, [0x102]); (0x105, [0x104]); (0x107, [0x106]); (0x109, [0x108]);
   (0x10B, [0x10A]); (0x10D, [0x10C]); (0x10F, [0x10E]); (0x111, [0x110]);
   (0x113, [0x112]); (0x115, [0x114]); (0x117, [0x116]); (0x119, [0x118]);
   (0x11B, [0x11A]); (0x11D, [0x11C]); (0x11F, [0x11E]); (0x121, [0x120]);
   (0x123, [0x122]); (0x125, [0x124]); (0x127, [0x126]); (0x129, [0x128]);
   (0x12B, [0x12A]); (0x12D, [0x12C]); (0x12F, [0x12E]); (0x131, [0x49]);
   (0x133, [0x132]); (0x135, [0x134]); (0x137, [0x136]); (0x13A, [0x139]);
   (0x13C, [0x13B]); (0x13E, [0x13D]); (0x140, [0x13F]); (0x142, [0x141]);
   (0x144, [0x143]); (0x146, [0x145]); (0x148, [0x147]);
   (0x149, [0x2BC; 0x4E]); (0x14B, [0x14A]); (0x14D, [0x14C]);
   (0x14F, [0x14E]); (0x151, [0x150]); (0x153, [0x152]); (0x155, [0x154]);
   (0x157, [0x156]); (0x159, [0x158]); (0x15B, [0x15A]); (0x15D, [0x15C]);
   (0x15F, [0x15E]); (0x161, [0x160]); (0x163, [0x162]); (0x165, [0x164]);
   (0x167, [0x166]); (0x169, [0x168]); (0x16B, [0x16A]); (0x16D, [0x16C]);
   (0x16F, [0x16E]); (0x171, [0x170]); (0x173, [0x172]); (0x175, [0x174]);
   (0x177, [0x176]); (0x17A, [0x179]); (0x17C, [0x17B]); (0x17E, [0x17D]);
   (0x17F, [0x53]); (0x180, [0x243]); (0x183, [0x182]); (0x185, [0x184]);
   (0x188, [0x187]); (0x18C, [0x18B]); (0x192, [0x191]); (0x195, [0x1F6]);
   (0x199, [0x198]); (0x19A, [0x23D]); (0x19E, [0x220]); (0x1A1, [0x1A0]);
   (0x1A3, [0x1A2]); (0x1A5, [0x1A4]); (0x1A8, [0x1A7]); (0x1AD, [0x1AC]);
   (0x1B0, [0x1AF]); (0x1B4, [0x1B3]); (0x1B6, [0x1B5]); (0x1B9, [0x1B8]);
   (0x1BD, [0x1BC]); (0x1BF, [0x1F7]); (0x1C5, [0x1C4]); (0x1C6, [0x1C4]);
   (0x1C8, [0x1C7]); (0x1C9, [0x1C7]); (0x1CB, [0x1CA]); (0x1CC, [0x1CA]);
   (0x1CE, [0x1CD]); (0x1D0, [0x1CF]); (0x1D2, [0x1D1]); (0x1D4, [0x1D3]);
   (0x1D6, [0x1D5]); (0x1D8, [0x1D7]); (0x1DA, [0x1D9]); (0x1DC, [0x1DB]);
   (0x1DD, [0x18E]); (0x1DF, [0x1DE]); (0x1E1, [0x1E0]); (0x1E3, [0x1E2]);
   (0x1E5, [0x1E4]); (0x1E7, [0x1E6]); (0x1E9, [0x1E8]); (0x1EB, [0x1EA]);
   (0x1ED, [0x1EC]); (0x1EF, [0x1EE]); (0x1F0, [0x4A; 0x30C]);
   (0x1F2, [0x1F1]); (0x1F3, [0x1F1]); (0x1F5, [0x1F4]); (0x1F9, [0x1F8]);
   (0x1FB, [0x1FA]); (0x1FD, [0x1FC]); (0x1FF, [0x1FE]); (0x201, [0x200]);
   (0x203, [0x202]); (0x205, [0x204]); (0x207, [0x206]); (0x209, [0x208]);
   (0x20B, [0x20A]); (0x20D, [0x20C]); (0x20F, [0x20E]); (0x211, [0x210]);
   (0x213, [0x212]); (0x215, [0x214]); (0x217, [0x216]); (0x219, [0x218]);
   (0x21B, [0x21A]); (0x21D, [0x21C]); (0x21F, [0x21E]); (0x223, [0x222]);
   (0x225, [0x224]); (0x227, [0x226]); (0x229, [0x228]); (0x22B, [0x22A]);
   (0x22D, [0x22C]); (0x22F, [0x22E]); (0x231, [0x230]); (0x233, [0x232]);
   (0x23C, [0x23B]); (0x23F, [0x2C7E]); (0x240, [0x2C7F]);
   (0x242, [0x241]); (0x247, [0x246]); (0x249, [0x248]); (0x24B, [0x24A]);
   (0x24D, [0x24C]); (0x24F, [0x24E]); (0x250, [0x2C6F]);
   (0x251, [0x2C6D]); (0x252, [0x2C70]); (0x253, [0x181]);
   (0x254, [0x186]); (0x256, [0x189]); (0x257, [0x18A]); (0x259, [0x18F]);
   (0x25B, [0x190]); (0x25C, [0xA7AB]); (0x260, [0x193]);
   (0x261, [0xA7AC]); (0x263, [0x194]); (0x265, [0xA78D]);
   (0x266, [0xA7AA]); (0x268, [0x197]); (0x269, [0x196]);
   (0x26A, [0xA7AE]); (0x26B, [0x2C62]); (0x26C, [0xA7AD]);
   (0x26F, [0x19C]); (0x271, [0x2C6E]); (0x272, [0x19D]); (0x275, [0x19F]);
   (0x27D, [0x2C64]); (0x280, [0x1A6]); (0x282, [0xA7C5]);
   (0x283, [0x1A9]); (0x287, [0xA7B1]); (0x288, [0x1AE]); (0x289, [0x244]);
   (0x28A, [0x1B1]); (0x28B, [0x1B2]); (0x28C, [0x245]); (0x292, [0x1B7]);
   (0x29D, [0xA7B2]); (0x29E, [0xA7B0]); (0x345, [0x399]);
   (0x371, [0x370]); (0x373, [0x372]); (0x377, [0x376]); (0x37B, [0x3FD]);
   (0x37C, [0x3FE]); (0x37D, [0x3FF]); (0x390, [0x399; 0x308; 0x301]);
   (0x3AC, [0x386]); (0x3AD, [0x388]); (0x3AE, [0x389]); (0x3AF, [0x38A]);
   (0x3B0, [0x3A5; 0x308; 0x301]); (0x3B1, [0x391]); (0x3B2, [0x392]);
   (0x3B3, [0x393]); (0x3B4, [0x394]); (0x3B5, [0x395]); (0x3B6, [0x396]);
   (0x3B7, [0x397]); (0x3B8, [0x398]); (0x3B9, [0x399]); (0x3BA, [0x39A]);
   (0x3BB, [0x39B]); (0x3BC, [0x39C]); (0x3BD, [0x39D]); (0x3BE, [0x39E]);
   (0x3BF, [0x39F]); (0x3C0, [0x3A0]); (0x3C1, [0x3A1]); (0x3C2, [0x3A3]);
   (0x3C3, [0x3A3]); (0x3C4, [0x3A4]); (0x3C5, [0x3A5]); (0x3C6, [0x3A6]);
   (0x3C7, [0x3A7]); (0x3C8, [0x3A8]); (0x3C9, [0x3A9]); (0x3CA, [0x3AA]);
   (0x3CB, [0x3AB]); (0x3CC, [0x38C]); (0x3CD, [0x38E]); (0x3CE, [0x38F]);
   (0x3D0, [0x392]); (0x3D1, [0x398]); (0x3D5, [0x3A6]); (0x3D6, [0x3A0]);
   (0x3D7, [0x3CF]); (0x3D9, [0x3D8]); (0x3DB, [0x3DA]); (0x3DD, [0x3DC]);
   (0x3DF, [0x3DE]); (0x3E1, [0x3E0]); (0x3E3, [0x3E2]); (0x3E5, [0x3E4]);
   (0x3E7, [0x3E6]); (0x3E9, [0x3E8]); (0x3EB, [0x3EA]); (0x3ED, [0x3EC]);
   (0x3EF, [0x3EE]); (0x3F0, [0x39A]); (0x3F1, [0x3A1]); (0x3F2, [0x3F9]);
   (0x3F3, [0x37F]); (0x3F5, [0x395]); (0x3F8, [0x3F7]); (0x3FB, [0x3FA]);
   (0x430, [0x410]); (0x431, [0x411]); (0x432, [0x412]); (0x433, [0x413]);
   (0x434, [0x414]); (0x435, [0x415]); (0x436, [0x416]); (0x437, [0x417]);
   (0x438, [0x418]); (0x439, [0x419]); (0x43A, [0x41A]); (0x43B, [0x41B]);
   (0x43C, [0x41C]); (0x43D, [0x41D]); (0x43E, [0x41E]); (0x43F, [0x41F]);
   (0x440, [0x420]); (0x441, [0x421]); (0x442, [0x422]); (0x443, [0x423]);
   (0x444, [0x424]); (0x445, [0x425]); (0x446, [0x426]); (0x447, [0x427]);
   (0x448, [0x428]); (0x449, [0x429]); (0x44A, [0x42A]); (0x44B, [0x42B]);
   (0x44C, [0x42C]); (0x44D, [0x42D]); (0x44E, [0x42E]); (0x44F, [0x42F]);
   (0x450, [0x400]); (0x451, [0x401]); (0x452, [0x402]); (0x453, [0x403]);
   (0x454, [0x404]); (0x455, [0x405]); (0x456, [0x406]); (0x457, [0x407]);
   (0x458, [0x408]); (0x459, [0x409]); (0x45A, [0x40A]); (0x45B, [0x40B]);
   (0x45C, [0x40C]); (0x45D, [0x40D]); (0x45E, [0x40E]); (0x45F, [0x40F]);
   (0x461, [0x460]); (0x463, [0x462]); (0x465, [0x464]); (0x467, [0x466]);
   (0x469, [0x468]); (0x46B, [0x46A]); (0x46D, [0x46C]); (0x46F, [0x46E]);
   (0x471, [0x470]); (0x473, [0x472]); (0x475, [0x474]); (0x477, [0x476]);
   (0x479, [0x478]); (0x47B, [0x47A]); (0x47D, [0x47C]); (0x47F, [0x47E]);
   (0x481, [0x480]); (0x48B, [0x48A]); (0x48D, [0x48C]); (0x48F, [0x48E]);
   (0x491, [0x490]); (0x493, [0x492]); (0x495, [0x494]); (0x497, [0x496]);
   (0x499, [0x498]); (0x49B, [0x49A]); (0x49D, [0x49C]); (0x49F, [0x49E]);
   (0x4A1, [0x4A0]); (0x4A3, [0x4A2]); (0x4A5, [0x4A4]); (0x4A7, [0x4A6]);
   (0x4A9, [0x4A8]); (0x4AB, [0x4AA]); (0x4AD, [0x4AC]); (0x4AF, [0x4AE]);
   (0x4B1, [0x4B0]); (0x4B3, [0x4B2]); (0x4B5, [0x4B4]); (0x4B7, [0x4B6]);
   (0x4B9, [0x4B8]); (0x4BB, [0x4BA]); (0x4BD, [0x4BC]); (0x4BF, [0x4BE]);
   (0x4C2, [0x4C1]); (0x4C4, [0x4C3]); (0x4C6, [0x4C5]); (0x4C8, [0x4C7]);
   (0x4CA, [0x4C9]); (0x4CC, [0x4CB]); (0x4CE, [0x4CD]); (0x4CF, [0x4C0]);
   (0x4D1, [0x4D0]); (0x4D3, [0x4D2]); (0x4D5, [0x4D4]); (0x4D7, [0x4D6]);
   (0x4D9, [0x4D8]); (0x4DB, [0x4DA]); (0x4DD, [0x4DC]); (0x4DF, [0x4DE]);
   (0x4E1, [0x4E0]); (0x4E3, [0x4E2]); (0x4E5, [0x4E4]); (0x4E7, [0x4E6]);
   (0x4E9, [0x4E8]); (0x4EB, [0x4EA]); (0x4ED, [0x4EC]); (0x4EF, [0x4EE]);
   (0x4F1, [0x4F0]); (0x4F3, [0x4F2]); (0x4F5, [0x4F4]); (0x4F7, [0x4F6]);
   (0x4F9, [0x4F8]); (0x4FB, [0x4FA]); (0x4FD, [0x4FC]); (0x4FF, [0x4FE]);
   (0x501, [0x500]); (0x503, [0x502]); (0x505, [0x504]); (0x507, [0x506]);
   (0x509, [0x508]); (0x50B, [0x50A]); (0x50D, [0x50C]); (0x50F, [0x50E]);
   (0x511, [0x510]); (0x513, [0x512]); (0x515, [0x514]); (0x517, [0x516]);
   (0x519, [0x518]); (0x51B, [0x51A]); (0x51D, [0x51C]); (0x51F, [0x51E]);
   (0x521, [0x520]); (0x523, [0x522]); (0x525, [0x524]); (0x527, [0x526]);
   (0x529, [0x528]); (0x52B, [0x52A]); (0x52D, [0x52C]); (0x52F, [0x52E]);
   (0x561, [0x531]); (0x562, [0x532]); (0x563, [0x533]); (0x564, [0x534]);
   (0x565, [0x535]); (0x566, [0x536]); (0x567, [0x537]); (0x568, [0x538]);
   (0x569, [0x539]); (0x56A, [0x53A]); (0x56B, [0x53B]); (0x56C, [0x53C]);
   (0x56D, [0x53D]); (0x56E, [0x53E]); (0x56F, [0x53F]); (0x570, [0x540]);
   (0x571, [0x541]); (0x572, [0x542]); (0x573, [0x543]); (0x574, [0x544]);
   (0x575, [0x545]); (0x576, [0x546]); (0x577, [0x547]); (0x578, [0x548]);
   (0x579, [0x549]); (0x57A, [0x54A]); (0x57B, [0x54B]); (0x57C, [0x54C]);
   (0x57D, [0x54D]); (0x57E, [0x54E]); (0x57F, [0x54F]); (0x580, [0x550]);
   (0x581, [0x551]); (0x582, [0x552]); (0x583, [0x553]); (0x584, [0x554]);
   (0x585, [0x555]); (0x586, [0x556]); (0x587, [0x535; 0x552]);
   (0x10D0, [0x1C90]); (0x10D1, [0x1C91]); (0x10D2, [0x1C92]);
   (0x10D3, [0x1C93]); (0x10D4, [0x1C94]); (0x10D5, [0x1C95]);
   (0x10D6, [0x1C96]); (0x10D7, [0x1C97]); (0x10D8, [0x1C98]);
   (0x10D9, [0x1C99]); (0x10DA, [0x1C9A]); (0x10DB, [0x1C9B]);
   (0x10DC, [0x1C9C]); (0x10DD, [0x1C9D]); (0x10DE, [0x1C9E]);
   (0x10DF, [0x1C9F]); (0x10E0, [0x1CA0]); (0x10E1, [0x1CA1]);
   (0x10E2, [0x1CA2]); (0x10E3, [0x1CA3]); (0x10E4, [0x1CA4]);
   (0x10E5, [0x1CA5]); (0x10E6, [0x1CA6]); (0x10E7, [0x1CA7]);
   (0x10E8, [0x1CA8]); (0x10E9, [0x1CA9]); (0x10EA, [0x1CAA]);
   (0x10EB, [0x1CAB]); (0x10EC, [0x1CAC]); (0x10ED, [0x1CAD]);
   (0x10EE, [0x1CAE]); (0x10EF, [0x1CAF]); (0x10F0, [0x1CB0]);
   (0x10F1, [0x1CB1]); (0x10F2, [0x1CB2]); (0x10F3, [0x1CB3]);
   (0x10F4, [0x1CB4]); (0x10F5, [0x1CB5]); (0x10F6, [0x1CB6]);
   (0x10F7, [0x1CB7]); (0x10F8, [0x1CB8]); (0x10F9, [0x1CB9]);
   (0x10FA, [0x1CBA]); (0x10FD, [0x1CBD]); (0x10FE, [0x1CBE]);
   (0x10FF, [0x1CBF]); (0x13F8, [0x13F0]); (0x13F9, [0x13F1]);
   (0x13FA, [0x13F2]); (0x13FB, [0x13F3]); (0x13FC, [0x13F4]);
   (0x13FD, [0x13F5]); (0x1C80, [0x412]); (0x1C81, [0x414]);
   (0x1C82, [0x41E]); (0x1C83, [0x421]); (0x1C84, [0x422]);
   (0x1C85, [0x422]); (0x1C86, [0x42A]); (0x1C87, [0x462]);
   (0x1C88, [0xA64A]); (0x1D79, [0xA77D]); (0x1D7D, [0x2C63]);
   (0x1D8E, [0xA7C6]); (0x1E01, [0x1E00]); (0x1E03, [0x1E02]);
   (0x1E05, [0x1E04]); (0x1E07, [0x1E06]); (0x1E09, [0x1E08]);
   (0x1E0B, [0x1E0A]); (0x1E0D, [0x1E0C]); (0x1E0F, [0x1E0E]);
   (0x1E11, [0x1E10]); (0x1E13, [0x1E12]); (0x1E15, [0x1E14]);
   (0x1E17, [0x1E16]); (0x1E19, [0x1E18]); (0x1E1B, [0x1E1A]);
   (0x1E1D, [0x1E1C]); (0x1E1F, [0x1E1E]); (0x1E21, [0x1E20]);
   (0x1E23, [0x1E22]); (0x1E25, [0x1E24]); (0x1E27, [0x1E26]);
   (0x1E29, [0x1E28]); (0x1E2B, [0x1E2A]); (0x1E2D, [0x1E2C]);
   (0x1E2F, [0x1E2E]); (0x1E31, [0x1E30]); (0x1E33, [0x1E32]);
   (0x1E35, [0x1E34]); (0x1E37, [0x1E36]); (0x1E39, [0x1E38]);
   (0x1E3B, [0x1E3A]); (0x1E3D, [0x1E3C]); (0x1E3F, [0x1E3E]);
   (0x1E41, [0x1E40]); (0x1E43, [0x1E42]); (0x1E45, [0x1E44]);
   (0x1E47, [0x1E46]); (0x1E49, [0x1E48]); (0x1E4B, [0x1E4A]);
   (0x1E4D, [0x1E4C]); (0x1E4F, [0x1E4E]); (0x1E51, [0x1E50]);
   (0x1E53, [0x1E52]); (0x1E55, [0x1E54]); (0x1E57, [0x1E56]);
   (0x1E59, [0x1E58]); (0x1E5B, [0x1E5A]); (0x1E5D, [0x1E5C]);
   (0x1E5F, [0x1E5E]); (0x1E61, [0x1E60]); (0x1E63, [0x1E62]);
   (0x1E65, [0x1E64]); (0x1E67, [0x1E66]); (0x1E69, [0x1E68]);
   (0x1E6B, [0x1E6A]); (0x1E6D, [0x1E6C]); (0x1E6F, [0x1E6E]);
   (0x1E71, [0x1E70]); (0x1E73, [0x1E72]); (0x1E75, [0x1E74]);
   (0x1E77, [0x1E76]); (0x1E79, [0x1E78]); (0x1E7B, [0x1E7A]);
   (0x1E7D, [0x1E7C]); (0x1E7F, [0x1E7E]); (0x1E81, [0x1E80]);
   (0x1E83, [0x1E82]); (0x1E85, [0x1E84]); (0x1E87, [0x1E86]);
   (0x1E89, [0x1E88]); (0x1E8B, [0x1E8A]); (0x1E8D, [0x1E8C]);
   (0x1E8F, [0x1E8E]); (0x1E91, [0x1E90]); (0x1E93, [0x1E92]);
   (0x1E95, [0x1E94]); (0x1E96, [0x48; 0x331]); (0x1E97, [0x54; 0x308]);
   (0x1E98, [0x57; 0x30A]); (0x1E99, [0x59; 0x30A]);
   (0x1E9A, [0x41; 0x2BE]); (0x1E9B, [0x1E60]); (0x1EA1, [0x1EA0]);
   (0x1EA3, [0x1EA2]); (0x1EA5, [0x1EA4]); (0x1EA7, [0x1EA6]);
   (0x1EA9, [0x1EA8]); (0x1EAB, [0x1EAA]); (0x1EAD, [0x1EAC]);
   (0x1EAF, [0x1EAE]); (0x1EB1, [0x1EB0]); (0x1EB3, [0x1EB2]);
   (0x1EB5, [0x1EB4]); (0x1EB7, [0x1EB6]); (0x1EB9, [0x1EB8]);
   (0x1EBB, [0x1EBA]); (0x1EBD, [0x1EBC]); (0x1EBF, [0x1EBE]);
   (0x1EC1, [0x1EC0]); (0x1EC3, [0x1EC2]); (0x1EC5, [0x1EC4]);
   (0x1EC7, [0x1EC6]); (0x1EC9, [0x1EC8]); (0x1ECB, [0x1ECA]);
   (0x1ECD, [0x1ECC]); (0x1ECF, [0x1ECE]); (0x1ED1, [0x1ED0]);
   (0x1ED3, [0x1ED2]); (0x1ED5, [0x1ED4]); (0x1ED7, [0x1ED6]);
   (0x1ED9, [0x1ED8]); (0x1EDB, [0x1EDA]); (0x1EDD, [0x1EDC]);
   (0x1EDF, [0x1EDE]); (0x1EE1, [0x1EE0]); (0x1EE3, [0x1EE2]);
   (0x1EE5, [0x1EE4]); (0x1EE7, [0x1EE6]); (0x1EE9, [0x1EE8]);
   (0x1EEB, [0x1EEA]); (0x1EED, [0x1EEC]); (0x1EEF, [0x1EEE]);
   (0x1EF1, [0x1EF0]); (0x1EF3, [0x1EF2]); (0x1EF5, [0x1EF4]);
   (0x1EF7, [0x1EF6]); (0x1EF9, [0x1EF8]); (0x1EFB, [0x1EFA]);
   (0x1EFD, [0x1EFC]); (0x1EFF, [0x1EFE]); (0x1F00, [0x1F08]);
   (0x1F01, [0x1F09]); (0x1F02, [0x1F0A]); (0x1F03, [0x1F0B]);
   (0x1F04, [0x1F0C]); (0x1F05, [0x1F0D]); (0x1F06, [0x1F0E]);
   (0x1F07, [0x1F0F]); (0x1F10, [0x1F18]); (0x1F11, [0x1F19]);
   (0x1F12, [0x1F1A]); (0x1F13, [0x1F1B]); (0x1F14, [0x1F1C]);
   (0x1F15, [0x1F1D]); (0x1F20, [0x1F28]); (0x1F21, [0x1F29]);
   (0x1F22, [0x1F2A]); (0x1F23, [0x1F2B]); (0x1F24, [0x1F2C]);
   (0x1F25, [0x1F2D]); (0x1F26, [0x1F2E]); (0x1F27, [0x1F2F]);
   (0x1F30, [0x1F38]); (0x1F31, [0x1F39]); (0x1F32, [0x1F3A]);
   (0x1F33, [0x1F3B]); (0x1F34, [0x1F3C]); (0x1F35, [0x1F3D]);
   (0x1F36, [0x1F3E]); (0x1F37, [0x1F3F]); (0x1F40, [0x1F48]);
   (0x1F41, [0x1F49]); (0x1F42, [0x1F4A]); (0x1F43, [0x1F4B]);
   (0x1F44, [0x1F4C]); (0x1F45, [0x1F4D]); (0x1F50, [0x3A5; 0x313]);
   (0x1F51, [0x1F59]); (0x1F52, [0x3A5; 0x313; 0x300]); (0x1F53, [0x1F5B]);
   (0x1F54, [0x3A5; 0x313; 0x301]); (0x1F55, [0x1F5D]);
   (0x1F56, [0x3A5; 0x313; 0x342]); (0x1F57, [0x1F5F]); (0x1F60, [0x1F68]);
   (0x1F61, [0x1F69]); (0x1F62, [0x1F6A]); (0x1F63, [0x1F6B]);
   (0x1F64, [0x1F6C]); (0x1F65, [0x1F6D]); (0x1F66, [0x1F6E]);
   (0x1F67, [0x1F6F]); (0x1F70, [0x1FBA]); (0x1F71, [0x1FBB]);
   (0x1F72, [0x1FC8]); (0x1F73, [0x1FC9]); (0x1F74, [0x1FCA]);
   (0x1F75, [0x1FCB]); (0x1F76, [0x1FDA]); (0x1F77, [0x1FDB]);
   (0x1F78, [0x1FF8]); (0x1F79, [0x1FF9]); (0x1F7A, [0x1FEA]);
   (0x1F7B, [0x1FEB]); (0x1F7C, [0x1FFA]); (0x1F7D, [0x1FFB]);
   (0x1F80, [0x1F08; 0x399]); (0x1F81, [0x1F09; 0x399]);
   (0x1F82, [0x1F0A; 0x399]); (0x1F83, [0x1F0B; 0x399]);
   (0x1F84, [0x1F0C; 0x399]); (0x1F85, [0x1F0D; 0x399]);
   (0x1F86, [0x1F0E; 0x399]); (0x1F87, [0x1F0F; 0x399]);
   (0x1F88, [0x1F08; 0x399]); (0x1F89, [0x1F09; 0x399]);
   (0x1F8A, [0x1F0A; 0x399]); (0x1F8B, [0x1F0B; 0x399]);
   (0x1F8C, [0x1F0C; 0x399]); (0x1F8D, [0x1F0D; 0x399]);
   (0x1F8E, [0x1F0E; 0x399]); (0x1F8F, [0x1F0F; 0x399]);
   (0x1F90, [0x1F28; 0x399]); (0x1F91, [0x1F29; 0x399]);
   (0x1F92, [0x1F2A; 0x399]); (0x1F93, [0x1F2B; 0x399]);
   (0x1F94, [0x1F2C; 0x399]); (0x1F95, [0x1F2D; 0x399]);
   (0x1F96, [0x1F2E; 0x399]); (0x1F97, [0x1F2F; 0x399]);
   (0x1F98, [0x1F28; 0x399]); (0x1F99, [0x1F29; 0x399]);
   (0x1F9A, [0x1F2A; 0x399]); (0x1F9B, [0x1F2B; 0x399]);
   (0x1F9C, [0x1F2C; 0x399]); (0x1F9D, [0x1F2D; 0x399]);
   (0x1F9E, [0x1F2E; 0x399]); (0x1F9F, [0x1F2F; 0x399]);
   (0x1FA0, [0x1F68; 0x399]); (0x1FA1, [0x1F69; 0x399]);
   (0x1FA2, [0x1F6A; 0x399]); (0x1FA3, [0x1F6B; 0x399]);
   (0x1FA4, [0x1F6C; 0x399]); (0x1FA5, [0x1F6D; 0x399]);
   (0x1FA6, [0x1F6E; 0x399]); (0x1FA7, [0x1F6F; 0x399]);
   (0x1FA8, [0x1F68; 0x399]); (0x1FA9, [0x1F69; 0x399]);
   (0x1FAA, [0x1F6A; 0x399]); (0x1FAB, [0x1F6B; 0x399]);
   (0x1FAC, [0x1F6C; 0x399]); (0x1FAD, [0x1F6D; 0x399]);
   (0x1FAE, [0x1F6E; 0x399]); (0x1FAF, [0x1F6F; 0x399]);
   (0x1FB0, [0x1FB8]); (0x1FB1, [0x1FB9]); (0x1FB2, [0x1FBA; 0x399]);
   (0x1FB3, [0x391; 0x399]); (0x1FB4, [0x386; 0x399]);
   (0x1FB6, [0x391; 0x342]); (0x1FB7, [0x391; 0x342; 0x399]);
   (0x1FBC, [0x391; 0x399]); (0x1FBE, [0x399]); (0x1FC2, [0x1FCA; 0x399]);
   (0x1FC3, [0x397; 0x399]); (0x1FC4, [0x389; 0x399]);
   (0x1FC6, [0x397; 0x342]); (0x1FC7, [0x397; 0x342; 0x399]);
   (0x1FCC, [0x397; 0x399]); (0x1FD0, [0x1FD8]); (0x1FD1, [0x1FD9]);
   (0x1FD2, [0x399; 0x308; 0x300]); (0x1FD3, [0x399; 0x308; 0x301]);
   (0x1FD6, [0x399; 0x342]); (0x1FD7, [0x399; 0x308; 0x342]);
   (0x1FE0, [0x1FE8]); (0x1FE1, [0x1FE9]); (0x1FE2, [0x3A5; 0x308; 0x300]);
   (0x1FE3, [0x3A5; 0x308; 0x301]); (0x1FE4, [0x3A1; 0x313]);
   (0x1FE5, [0x1FEC]); (0x1FE6, [0x3A5; 0x342]);
   (0x1FE7, [0x3A5; 0x308; 0x342]); (0x1FF2, [0x1FFA; 0x399]);
   (0x1FF3, [0x3A9; 0x399]); (0x1FF4, [0x38F; 0x399]);
   (0x1FF6, [0x3A9; 0x342]); (0x1FF7, [0x3A9; 0x342; 0x399]);
   (0x1FFC, [0x3A9; 0x399]); (0x214E, [0x2132]); (0x2170, [0x2160]);
   (0x2171, [0x2161]); (0x2172, [0x2162]); (0x2173, [0x2163]);
   (0x2174, [0x2164]); (0x2175, [0x2165]); (0x2176, [0x2166]);
   (0x2177, [0x2167]); (0x2178, [0x2168]); (0x2179, [0x2169]);
   (0x217A, [0x216A]); (0x217B, [0x216B]); (0x217C, [0x216C]);
   (0x217D, [0x216D]); (0x217E, [0x216E]); (0x217F, [0x216F]);
   (0x2184, [0x2183]); (0x24D0, [0x24B6]); (0x24D1, [0x24B7]);
   (0x24D2, [0x24B8]); (0x24D3, [0x24B9]); (0x24D4, [0x24BA]);
   (0x24D5, [0x24BB]); (0x24D6, [0x24BC]); (0x24D7, [0x24BD]);
   (0x24D8, [0x24BE]); (0x24D9, [0x24BF]); (0x24DA, [0x24C0]);
   (0x24DB, [0x24C1]); (0x24DC, [0x24C2]); (0x24DD, [0x24C3]);
   (0x24DE, [0x24C4]); (0x24DF, [0x24C5]); (0x24E0, [0x24C6]);
   (0x24E1, [0x24C7]); (0x24E2, [0x24C8]); (0x24E3, [0x24C9]);
   (0x24E4, [0x24CA]); (0x24E5, [0x24CB]); (0x24E6, [0x24CC]);
   (0x24E7, [0x24CD]); (0x24E8, [0x24CE]); (0x24E9, [0x24CF]);
   (0x2C30, [0x2C00]); (0x2C31, [0x2C01]); (0x2C32, [0x2C02]);
   (0x2C33, [0x2C03]); (0x2C34, [0x2C04]); (0x2C35, [0x2C05]);
   (0x2C36, [0x2C06]); (0x2C37, [0x2C07]); (0x2C38, [0x2C08]);
   (0x2C39, [0x2C09]); (0x2C3A, [0x2C0A]); (0x2C3B, [0x2C0B]);
   (0x2C3C, [0x2C0C]); (0x2C3D, [0x2C0D]); (0x2C3E, [0x2C0E]);
   (0x2C3F, [0x2C0F]); (0x2C40, [0x2C10]); (0x2C41, [0x2C11]);
   (0x2C42, [0x2C12]); (0x2C43, [0x2C13]); (0x2C44, [0x2C14]);
   (0x2C45, [0x2C15]); (0x2C46, [0x2C16]); (0x2C47, [0x2C17]);
   (0x2C48, [0x2C18]); (0x2C49, [0x2C19]); (0x2C4A, [0x2C1A]);
   (0x2C4B, [0x2C1B]); (0x2C4C, [0x2C1C]); (0x2C4D, [0x2C1D]);
   (0x2C4E, [0x2C1E]); (0x2C4F, [0x2C1F]); (0x2C50, [0x2C20]);
   (0x2C51, [0x2C21]); (0x2C52, [0x2C22]); (0x2C53, [0x2C23]);
   (0x2C54, [0x2C24]); (0x2C55, [0x2C25]); (0x2C56, [0x2C26]);
   (0x2C57, [0x2C27]); (0x2C58, [0x2C28]); (0x2C59, [0x2C29]);
   (0x2C5A, [0x2C2A]); (0x2C5B, [0x2C2B]); (0x2C5C, [0x2C2C]);
   (0x2C5D, [0x2C2D]); (0x2C5E, [0x2C2E]); (0x2C5F, [0x2C2F]);
   (0x2C61, [0x2C60]); (0x2C65, [0x23A]); (0x2C66, [0x23E]);
   (0x2C68, [0x2C67]); (0x2C6A, [0x2C69]); (0x2C6C, [0x2C6B]);
   (0x2C73, [0x2C72]); (0x2C76, [0x2C75]); (0x2C81, [0x2C80]);
   (0x2C83, [0x2C82]); (0x2C85, [0x2C84]); (0x2C87, [0x2C86]);
   (0x2C89, [0x2C88]); (0x2C8B, [0x2C8A]); (0x2C8D, [0x2C8C]);
   (0x2C8F, [0x2C8E]); (0x2C91, [0x2C90]); (0x2C93, [0x2C92]);
   (0x2C95, [0x2C94]); (0x2C97, [0x2C96]); (0x2C99, [0x2C98]);
   (0x2C9B, [0x2C9A]); (0x2C9D, [0x2C9C]); (0x2C9F, [0x2C9E]);
   (0x2CA1, [0x2CA0]); (0x2CA3, [0x2CA2]); (0x2CA5, [0x2CA4]);
   (0x2CA7, [0x2CA6]); (0x2CA9, [0x2CA8]); (0x2CAB, [0x2CAA]);
   (0x2CAD, [0x2CAC]); (0x2CAF, [0x2CAE]); (0x2CB1, [0x2CB0]);
   (0x2CB3, [0x2CB2]); (0x2CB5, [0x2CB4]); (0x2CB7, [0x2CB6]);
   (0x2CB9, [0x2CB8]); (0x2CBB, [0x2CBA]); (0x2CBD, [0x2CBC]);
   (0x2CBF, [0x2CBE]); (0x2CC1, [0x2CC0]); (0x2CC3, [0x2CC2]);
   (0x2CC5, [0x2CC4]); (0x2CC7, [0x2CC6]); (0x2CC9, [0x2CC8]);
   (0x2CCB, [0x2CCA]); (0x2CCD, [0x2CCC]); (0x2CCF, [0x2CCE]);
   (0x2CD1, [0x2CD0]); (0x2CD3, [0x2CD2]); (0x2CD5, [0x2CD4]);
   (0x2CD7, [0x2CD6]); (0x2CD9, [0x2CD8]); (0x2CDB, [0x2CDA]);
   (0x2CDD, [0x2CDC]); (0x2CDF, [0x2CDE]); (0x2CE1, [0x2CE0]);
   (0x2CE3, [0x2CE2]); (0x2CEC, [0x2CEB]); (0x2CEE, [0x2CED]);
   (0x2CF3, [0x2CF2]); (0x2D00, [0x10A0]); (0x2D01, [0x10A1]);
   (0x2D02, [0x10A2]); (0x2D03, [0x10A3]); (0x2D04, [0x10A4]);
   (0x2D05, [0x10A5]); (0x2D06, [0x10A6]); (0x2D07, [0x10A7]);
   (0x2D08, [0x10A8]); (0x2D09, [0x10A9]); (0x2D0A, [0x10AA]);
   (0x2D0B, [0x10AB]); (0x2D0C, [0x10AC]); (0x2D0D, [0x10AD]);
   (0x2D0E, [0x10AE]); (0x2D0F, [0x10AF]); (0x2D10, [0x10B0]);
   (0x2D11, [0x10B1]); (0x2D12, [0x10B2]); (0x2D13, [0x10B3]);
   (0x2D14, [0x10B4]); (0x2D15, [0x10B5]); (0x2D16, [0x10B6]);
   (0x2D17, [0x10B7]); (0x2D18, [0x10B8]); (0x2D19, [0x10B9]);
   (0x2D1A, [0x10BA]); (0x2D1B, [0x10BB]); (0x2D1C, [0x10BC]);
   (0x2D1D, [0x10BD]); (0x2D1E, [0x10BE]); (0x2D1F, [0x10BF]);
   (0x2D20, [0x10C0]); (0x2D21, [0x10C1]); (0x2D22, [0x10C2]);
   (0x2D23, [0x10C3]); (0x2D24, [0x10C4]); (0x2D25, [0x10C5]);
   (0x2D27, [0x10C7]); (0x2D2D, [0x10CD]); (0xA641, [0xA640]);
   (0xA643, [0xA642]); (0xA645, [0xA644]); (0xA647, [0xA646]);
   (0xA649, [0xA648]); (0xA64B, [0xA64A]); (0xA64D, [0xA64C]);
   (0xA64F, [0xA64E]); (0xA651, [0xA650]); (0xA653, [0xA652]);
   (0xA655, [0xA654]); (0xA657, [0xA656]); (0xA659, [0xA658]);
   (0xA65B, [0xA65A]); (0xA65D, [0xA65C]); (0xA65F, [0xA65E]);
   (0xA661, [0xA660]); (0xA663, [0xA662]); (0xA665, [0xA664]);
   (0xA667, [0xA666]); (0xA669, [0xA668]); (0xA66B, [0xA66A]);
   (0xA66D, [0xA66C]); (0xA681, [0xA680]); (0xA683, [0xA682]);
   (0xA685, [0xA684]); (0xA687, [0xA686]); (0xA689, [0xA688]);
   (0xA68B, [0xA68A]); (0xA68D, [0xA68C]); (0xA68F, [0xA68E]);
   (0xA691, [0xA690]); (0xA693, [0xA692]); (0xA695, [0xA694]);
   (0xA697, [0xA696]); (0xA699, [0xA698]); (0xA69B, [0xA69A]);
   (0xA723, [0xA722]); (0xA725, [0xA724]); (0xA727, [0xA726]);
   (0xA729, [0xA728]); (0xA72B, [0xA72A]); (0xA72D, [0xA72C]);
   (0xA72F, [0xA72E]); (0xA733, [0xA732]); (0xA735, [0xA734]);
   (0xA737, [0xA736]); (0xA739, [0xA738]); (0xA73B, [0xA73A]);
   (0xA73D, [0xA73C]); (0xA73F, [0xA73E]); (0xA741, [0xA740]);
   (0xA743, [0xA742]); (0xA745, [0xA744]); (0xA747, [0xA746]);
   (0xA749, [0xA748]); (0xA74B, [0xA74A]); (0xA74D, [0xA74C]);
   (0xA74F, [0xA74E]); (0xA751, [0xA750]); (0xA753, [0xA752]);
   (0xA755, [0xA754]); (0xA757, [0xA756]); (0xA759, [0xA758]);
   (0xA75B, [0xA75A]); (0xA75D, [0xA75C]); (0xA75F, [0xA75E]);
   (0xA761, [0xA760]); (0xA763, [0xA762]); (0xA765, [0xA764]);
   (0xA767, [0xA766]); (0xA769, [0xA768]); (0xA76B, [0xA76A]);
   (0xA76D, [0xA76C]); (0xA76F, [0xA76E]); (0xA77A, [0xA779]);
   (0xA77C, [0xA77B]); (0xA77F, [0xA77E]); (0xA781, [0xA780]);
   (0xA783, [0xA782]); (0xA785, [0xA784]); (0xA787, [0xA786]);
   (0xA78C, [0xA78B]); (0xA791, [0xA790]); (0xA793, [0xA792]);
   (0xA794, [0xA7C4]); (0xA797, [0xA796]); (0xA799, [0xA798]);
   (0xA79B, [0xA79A]); (0xA79D, [0xA79C]); (0xA79F, [0xA79E]);
   (0xA7A1, [0xA7A0]); (0xA7A3, [0xA7A2]); (0xA7A5, [0xA7A4]);
   (0xA7A7, [0xA7A6]); (0xA7A9, [0xA7A8]); (0xA7B5, [0xA7B4]);
   (0xA7B7, [0xA7B6]); (0xA7B9, [0xA7B8]); (0xA7BB, [0xA7BA]);
   (0xA7BD, [0xA7BC]); (0xA7BF, [0xA7BE]); (0xA7C1, [0xA7C0]);
   (0xA7C3, [0xA7C2]); (0xA7C8, [0xA7C7]); (0xA7CA, [0xA7C9]);
   (0xA7D1, [0xA7D0]); (0xA7D7, [0xA7D6]); (0xA7D9, [0xA7D8]);
   (0xA7F6, [0xA7F5]); (0xAB53, [0xA7B3]); (0xAB70, [0x13A0]);
   (0xAB71, [0x13A1]); (0xAB72, [0x13A2]); (0xAB73, [0x13A3]);
   (0xAB74, [0x13A4]); (0xAB75, [0x13A5]); (0xAB76, [0x13A6]);
   (0xAB77, [0x13A7]); (0xAB78, [0x13A8]); (0xAB79, [0x13A9]);
   (0xAB7A, [0x13AA]); (0xAB7B, [0x13AB]); (0xAB7C, [0x13AC]);
   (0xAB7D, [0x13AD]); (0xAB7E, [0x13AE]); (0xAB7F, [0x13AF]);
   (0xAB80, [0x13B0]); (0xAB81, [0x13B1]); (0xAB82, [0x13B2]);
   (0xAB83, [0x13B3]); (0xAB84, [0x13B4]); (0xAB85, [0x13B5]);
   (0xAB86, [0x13B6]); (0xAB87, [0x13B7]); (0xAB88, [0x13B8]);
   (0xAB89, [0x13B9]); (0xAB8A, [0x13BA]); (0xAB8B, [0x13BB]);
   (0xAB8C, [0x13BC]); (0xAB8D, [0x13BD]); (0xAB8E, [0x13BE]);
   (0xAB8F, [0x13BF]); (0xAB90, [0x13C0]); (0xAB91, [0x13C1]);
   (0xAB92, [0x13C2]); (0xAB93, [0x13C3]); (0xAB94, [0x13C4]);
   (0xAB95, [0x13C5]); (0xAB96, [0x13C6]); (0xAB97, [0x13C7]);
   (0xAB98, [0x13C8]); (0xAB99, [0x13C9]); (0xAB9A, [0x13CA]);
   (0xAB9B, [0x13CB]); (0xAB9C, [0x13CC]); (0xAB9D, [0x13CD]);
   (0xAB9E, [0x13CE]); (0xAB9F, [0x13CF]); (0xABA0, [0x13D0]);
   (0xABA1, [0x13D1]); (0xABA2, [0x13D2]); (0xABA3, [0x13D3]);
   (0xABA4, [0x13D4]); (0xABA5, [0x13D5]); (0xABA6, [0x13D6]);
   (0xABA7, [0x13D7]); (0xABA8, [0x13D8]); (0xABA9, [0x13D9]);
   (0xABAA, [0x13DA]); (0xABAB, [0x13DB]); (0xABAC, [0x13DC]);
   (0xABAD, [0x13DD]); (0xABAE, [0x13DE]); (0xABAF, [0x13DF]);
   (0xABB0, [0x13E0]); (0xABB1, [0x13E1]); (0xABB2, [0x13E2]);
   (0xABB3, [0x13E3]); (0xABB4, [0x13E4]); (0xABB5, [0x13E5]);
   (0xABB6, [0x13E6]); (0xABB7, [0x13E7]); (0xABB8, [0x13E8]);
   (0xABB9, [0x13E9]); (0xABBA, [0x13EA]); (0xABBB, [0x13EB]);
   (0xABBC, [0x13EC]); (0xABBD, [0x13ED]); (0xABBE, [0x13EE]);
   (0xABBF, [0x13EF]); (0xFB00, [0x46; 0x46]); (0xFB01, [0x46; 0x49]);
   (0xFB02, [0x46; 0x4C]); (0xFB03, [0x46; 0x46; 0x49]);
   (0xFB04, [0x46; 0x46; 0x4C]); (0xFB05, [0x53; 0x54]);
   (0xFB06, [0x53; 0x54]); (0xFB13, [0x544; 0x546]);
   (0xFB14, [0x544; 0x535]); (0xFB15, [0x544; 0x53B]);
   (0xFB16, [0x54E; 0x546]); (0xFB17, [0x544; 0x53D]); (0xFF41, [0xFF21]);
   (0xFF42, [0xFF22]); (0xFF43, [0xFF23]); (0xFF44, [0xFF24]);
   (0xFF45, [0xFF25]); (0xFF46, [0xFF26]); (0xFF47, [0xFF27]);
   (0xFF48, [0xFF28]); (0xFF49, [0xFF29]); (0xFF4A, [0xFF2A]);
   (0xFF4B, [0xFF2B]); (0xFF4C, [0xFF2C]); (0xFF4D, [0xFF2D]);
   (0xFF4E, [0xFF2E]); (0xFF4F, [0xFF2F]); (0xFF50, [0xFF30]);
   (0xFF51, [0xFF31]); (0xFF52, [0xFF32]); (0xFF53, [0xFF33]);
   (0xFF54, [0xFF34]); (0xFF55, [0xFF35]); (0xFF56, [0xFF36]);
   (0xFF57, [0xFF37]); (0xFF58, [0xFF38]); (0xFF59, [0xFF39]);
   (0xFF5A, [0xFF3A]); (0x10428, [0x10400]); (0x10429, [0x10401]);
   (0x1042A, [0x10402]); (0x1042B, [0x10403]); (0x1042C, [0x10404]);
   (0x1042D, [0x10405]); (0x1042E, [0x10406]); (0x1042F, [0x10407]);
   (0x10430, [0x10408]); (0x10431, [0x10409]); (0x10432, [0x1040A]);
   (0x10433, [0x1040B]); (0x10434, [0x1040C]); (0x10435, [0x1040D]);
   (0x10436, [0x1040E]); (0x10437, [0x1040F]); (0x10438, [0x10410]);
   (0x10439, [0x10411]); (0x1043A, [0x10412]); (0x1043B, [0x10413]);
   (0x1043C, [0x10414]); (0x1043D, [0x10415]); (0x1043E, [0x10416]);
   (0x1043F, [0x10417]); (0x10440, [0x10418]); (0x10441, [0x10419]);
   (0x10442, [0x1041A]); (0x10443, [0x1041B]); (0x10444, [0x1041C]);
   (0x10445, [0x1041D]); (0x10446, [0x1041E]); (0x10447, [0x1041F]);
   (0x10448, [0x10420]); (0x10449, [0x10421]); (0x1044A, [0x10422]);
   (0x1044B, [0x10423]); (0x1044C, [0x10424]); (0x1044D, [0x10425]);
   (0x1044E, [0x10426]); (0x1044F, [0x10427]); (0x104D8, [0x104B0]);
   (0x104D9, [0x104B1]); (0x104DA, [0x104B2]); (0x104DB, [0x104B3]);
   (0x104DC, [0x104B4]); (0x104DD, [0x104B5]); (0x104DE, [0x104B6]);
   (0x104DF, [0x104B7]); (0x104E0, [0x104B8]); (0x104E1, [0x104B9]);
   (0x104E2, [0x104BA]); (0x104E3, [0x104BB]); (0x104E4, [0x104BC]);
   (0x104E5, [0x104BD]); (0x104E6, [0x104BE]); (0x104E7, [0x104BF]);
   (0x104E8, [0x104C0]); (0x104E9, [0x104C1]); (0x104EA, [0x104C2]);
   (0x104EB, [0x104C3]); (0x104EC, [0x104C4]); (0x104ED, [0x104C5]);
   (0x104EE, [0x104C6]); (0x104EF, [0x104C7]); (0x104F0, [0x104C8]);
   (0x104F1, [0x104C9]); (0x104F2, [0x104CA]); (0x104F3, [0x104CB]);
   (0x104F4, [0x104CC]); (0x104F5, [0x104CD]); (0x104F6, [0x104CE]);
   (0x104F7, [0x104CF]); (0x104F8, [0x104D0]); (0x104F9, [0x104D1]);
   (0x104FA, [0x104D2]); (0x104FB, [0x104D3]); (0x10597, [0x10570]);
   (0x10598, [0x10571]); (0x10599, [0x10572]); (0x1059A, [0x10573]);
   (0x1059B, [0x10574]); (0x1059C, [0x10575]); (0x1059D, [0x10576]);
   (0x1059E, [0x10577]); (0x1059F, [0x10578]); (0x105A0, [0x10579]);
   (0x105A1, [0x1057A]); (0x105A3, [0x1057C]); (0x105A4, [0x1057D]);
   (0x105A5, [0x1057E]); (0x105A6, [0x1057F]); (0x105A7, [0x10580]);
   (0x105A8, [0x10581]); (0x105A9, [0x10582]); (0x105AA, [0x10583]);
   (0x105AB, [0x10584]); (0x105AC, [0x10585]); (0x105AD, [0x10586]);
   (0x105AE, [0x10587]); (0x105AF, [0x10588]); (0x105B0, [0x10589]);
   (0x105B1, [0x1058A]); (0x105B3, [0x1058C]); (0x105B4, [0x1058D]);
   (0x105B5, [0x1058E]); (0x105B6, [0x1058F]); (0x105B7, [0x10590]);
   (0x105B8, [0x10591]); (0x105B9, [0x10592]); (0x105BB, [0x10594]);
   (0x105BC, [0x10595]); (0x10CC0, [0x10C80]); (0x10CC1, [0x10C81]);
   (0x10CC2, [0x10C82]); (0x10CC3, [0x10C83]); (0x10CC4, [0x10C84]);
   (0x10CC5, [0x10C85]); (0x10CC6, [0x10C86]); (0x10CC7, [0x10C87]);
   (0x10CC8, [0x10C88]); (0x10CC9, [0x10C89]); (0x10CCA, [0x10C8A]);
   (0x10CCB, [0x10C8B]); (0x10CCC, [0x10C8C]); (0x10CCD, [0x10C8D]);
   (0x10CCE, [0x10C8E]); (0x10CCF, [0x10C8F]); (0x10CD0, [0x10C90]);
   (0x10CD1, [0x10C91]); (0x10CD2, [0x10C92]); (0x10CD3, [0x10C93]);
   (0x10CD4, [0x10C94]); (0x10CD5, [0x10C95]); (0x10CD6, [0x10C96]);
   (0x10CD7, [0x10C97]); (0x10CD8, [0x10C98]); (0x10CD9, [0x10C99]);
   (0x10CDA, [0x10C9A]); (0x10CDB, [0x10C9B]); (0x10CDC, [0x10C9C]);
   (0x10CDD, [0x10C9D]); (0x10CDE, [0x10C9E]); (0x10CDF, [0x10C9F]);
   (0x10CE0, [0x10CA0]); (0x10CE1, [0x10CA1]); (0x10CE2, [0x10CA2]);
   (0x10CE3, [0x10CA3]); (0x10CE4, [0x10CA4]); (0x10CE5, [0x10CA5]);
   (0x10CE6, [0x10CA6]); (0x10CE7, [0x10CA7]); (0x10CE8, [0x10CA8]);
   (0x10CE9, [0x10CA9]); (0x10CEA, [0x10CAA]); (0x10CEB, [0x10CAB]);
   (0x10CEC, [0x10CAC]); (0x10CED, [0x10CAD]); (0x10CEE, [0x10CAE]);
   (0x10CEF, [0x10CAF]); (0x10CF0, [0x10CB0]); (0x10CF1, [0x10CB1]);
   (0x10CF2, [0x10CB2]); (0x118C0, [0x118A0]); (0x118C1, [0x118A1]);
   (0x118C2, [0x118A2]); (0x118C3, [0x118A3]); (0x118C4, [0x118A4]);
   (0x118C5, [0x118A5]); (0x118C6, [0x118A6]); (0x118C7, [0x118A7]);
   (0x118C8, [0x118A8]); (0x118C9, [0x118A9]); (0x118CA, [0x118AA]);
   (0x118CB, [0x118AB]); (0x118CC, [0x118AC]); (0x118CD, [0x118AD]);
   (0x118CE, [0x118AE]); (0x118CF, [0x118AF]); (0x118D0, [0x118B0]);
   (0x118D1, [0x118B1]); (0x118D2, [0x118B2]); (0x118D3, [0x118B3]);
   (0x118D4, [0x118B4]); (0x118D5, [0x118B5]); (0x118D6, [0x118B6]);
   (0x118D7, [0x118B7]); (0x118D8, [0x118B8]); (0x118D9, [0x118B9]);
   (0x118DA, [0x118BA]); (0x118DB, [0x118BB]); (0x118DC, [0x118BC]);
   (0x118DD, [0x118BD]); (0x118DE, [0x118BE]); (0x118DF, [0x118BF]);
   (0x16E60, [0x16E40]); (0x16E61, [0x16E41]); (0x16E62, [0x16E42]);
   (0x16E63, [0x16E43]); (0x16E64, [0x16E44]); (0x16E65, [0x16E45]);
   (0x16E66, [0x16E46]); (0x16E67, [0x16E47]); (0x16E68, [0x16E48]);
   (0x16E69, [0x16E49]); (0x16E6A, [0x16E4A]); (0x16E6B, [0x16E4B]);
   (0x16E6C, [0x16E4C]); (0x16E6D, [0x16E4D]); (0x16E6E, [0x16E4E]);
   (0x16E6F, [0x16E4F]); (0x16E70, [0x16E50]); (0x16E71, [0x16E51]);
   (0x16E72, [0x16E52]); (0x16E73, [0x16E53]); (0x16E74, [0x16E54]);
   (0x16E75, [0x16E55]); (0x16E76, [0x16E56]); (0x16E77, [0x16E57]);
   (0x16E78, [0x16E58]); (0x16E79, [0x16E59]); (0x16E7A, [0x16E5A]);
   (0x16E7B, [0x16E5B]); (0x16E7C, [0x16E5C]); (0x16E7D, [0x16E5D]);
   (0x16E7E, [0x16E5E]); (0x16E7F, [0x16E5F]); (0x1E922, [0x1E900]);
   (0x1E923, [0x1E901]); (0x1E924, [0x1E902]); (0x1E925, [0x1E903]);
   (0x1E926, [0x1E904]); (0x1E927, [0x1E905]); (0x1E928, [0x1E906]);
   (0x1E929, [0x1E907]); (0x1E92A, [0x1E908]); (0x1E92B, [0x1E909]);
   (0x1E92C, [0x1E90A]); (0x1E92D, [0x1E90B]); (0x1E92E, [0x1E90C]);
   (0x1E92F, [0x1E90D]); (0x1E930, [0x1E90E]); (0x1E931, [0x1E90F]);
   (0x1E932, [0x1E910]); (0x1E933, [0x1E911]); (0x1E934, [0x1E912]);
   (0x1E935, [0x1E913]); (0x1E936, [0x1E914]); (0x1E937, [0x1E915]);
   (0x1E938, [0x1E916]); (0x1E939, [0x1E917]); (0x1E93A, [0x1E918]);
   (0x1E93B, [0x1E919]); (0x1E93C, [0x1E91A]); (0x1E93D, [0x1E91B]);
   (0x1E93E, [0x1E91C]); (0x1E93F, [0x1E91D]); (0x1E940, [0x1E91E]);
   (0x1E941, [0x1E91F]); (0x1E942, [0x1E920]); (0x1E943, [0x1E921])]%N.

Definition upper_table : list (string * str) :=
  Eval vm_compute in
    List.map (fun e => (utf8 (fst e), List.map utf8 (snd e))) upper_codes.

Definition upper_char (ch : string) : str :=
  match List.find (fun e => String.eqb (fst e) ch) upper_table with
  | Some e => snd e
  | None => [ch]
  end.

(** [s.upper()] *)
Fixpoint upper (s : str) : str :=
  match s with
  | [] => []
  | ch :: s' => upper_char ch ++ upper s'
  end.

Fixpoint lstrip (s : str) : str :=
  match s with
  | [] => []
  | ch :: s' => if isspace ch then lstrip s' else s
  end.

Fixpoint rstrip (s : str) : str :=
  match s with
  | [] => []
  | ch :: s' =>
      match rstrip s' with
      | [] => if isspace ch then [] else [ch]
      | r => ch :: r
      end
  end.

(** [s.strip()] *)
Definition strip (s : str) : str := rstrip (lstrip s).

(** [s.split(sep)] for a one-character separator: always at least one
    piece, empty pieces kept. *)
Fixpoint split (sep : string) (s : str) : list str :=
  match s with
  | [] => [[]]
  | ch :: s' =>
      if String.eqb ch sep then [] :: split sep s'
      else match split sep s' with
           | w :: ws => (ch :: w) :: ws
           | [] => [[ch]]
           end
  end.

(** Truth value of a [str]: non-empty. *)
Definition truthy (s : str) : bool :=
  match s with [] => false | _ => true end.

End PyStr.

(** ** Sidebar inputs (lines 13-19) *)

Definition default_symbols : list string := ["AAPL"; "MSFT"; "GOOGL"].

(** Line 15:
    [[sym.strip().upper() for sym in symbol_input.split(",") if sym.strip()]] *)
Definition symbols (symbol_input : PyStr.str) : list PyStr.str :=
  List.map (fun sym => PyStr.upper (PyStr.strip sym))
    (List.filter (fun sym => PyStr.truthy (PyStr.strip sym))
       (PyStr.split "," symbol_input)).

(** The comprehension of line 15 on the pieces of the split. *)
Definition symbols_from (pieces : list PyStr.str) : list PyStr.str :=
  List.map (fun sym => PyStr.upper (PyStr.strip sym))
    (List.filter (fun sym => PyStr.truthy (PyStr.strip sym)) pieces).

(** The symbols as texts, for the text the widget returns. *)
Definition symbols_of (symbol_input : string) : list string :=
  List.map PyStr.encode (symbols (PyStr.chars symbol_input)).

(** The same list the way the specification words it: split on commas,
    trim white space from every entry, upper-case every entry, then drop
    the entries that are empty. *)
Module Spec.

(** The entries between the commas; [entry] is the entry read so far. *)
Fixpoint entries (entry : PyStr.str) (text : PyStr.str) : list PyStr.str :=
  match text with
  | [] => [entry]
  | ch :: text' =>
      if String.eqb ch "," then entry :: entries [] text'
      else entries (entry ++ [ch]) text'
  end.

(** The number of white-space characters a text starts with. *)
Fixpoint leading_whitespace (s : PyStr.str) : nat :=
  match s with
  | [] => 0
  | ch :: s' => if PyStr.isspace ch then S (leading_whitespace s') else 0
  end.

(** The text without the white space it starts with and ends in. *)
Definition trim (s : PyStr.str) : PyStr.str :=
  firstn (length s - leading_whitespace s - leading_whitespace (rev s))
    (skipn (leading_whitespace s) s).

Definition upper_case (s : PyStr.str) : PyStr.str :=
  List.concat (List.map PyStr.upper_char s).

Definition is_empty (s : PyStr.str) : bool := (length s =? 0)%nat.

End Spec.

Definition resolve_symbols_spec (symbol_input : string) : list string :=
  List.map PyStr.encode
    (List.filter (fun entry => negb (Spec.is_empty entry))
       (List.map Spec.upper_case
          (List.map Spec.trim (Spec.entries [] (PyStr.chars symbol_input))))).

(** ** A model of the pandas objects the script handles *)

Module Pandas.

(** One cell of a frame.  [NaN] is the missing value; [Float] a float64
    other than NaN; [Timestamp] a point in time counted in nanoseconds
    since the epoch, as pandas stores it. *)
Inductive cell :=
| NaN
| Float (x : float)
| Int (z : Z)
| Str (s : string)
| Timestamp (ns : Z).

(** The exceptions the modelled operations raise.  [OutOfModel] marks a
    fetch result whose shape does not fit the branch the script takes
    (a grouped frame for one symbol, a flat frame for several): what
    pandas does there is not modelled. *)
Inductive exn :=
| KeyError (key : string)
| ValueError (msg : string)
| DataError (msg : string)
| OutOfModel (what : string).

Definition result (A : Type) : Type := exn + A.
Definition Ok {A} (a : A) : result A := inr a.
Definition Err {A} (e : exn) : result A := inl e.

(** A frame: the name of its index, its column labels in order, and its
    rows in order, each an index label with one cell per column. *)
Record DataFrame := mkDataFrame {
  index_name : option string;
  columns : list string;
  rows : list (cell * list cell)
}.

(** [pd.DataFrame()] *)
Definition empty : DataFrame :=
  {| index_name := None; columns := []; rows := [] |}.

(** [len(df)] *)
Definition nrows (df : DataFrame) : nat := length (rows df).

(** [df.index] *)
Definition index (df : DataFrame) : list cell := List.map fst (rows df).

(** Every row has one cell per column. *)
Definition well_formed (df : DataFrame) : Prop :=
  Forall (fun r => length (snd r) = length (columns df)) (rows df).

(** Position of the first column with a given label. *)
Fixpoint col_pos (name : string) (cols : list string) : option nat :=
  match cols with
  | [] => None
  | c :: cs =>
      if String.eqb c name then Some O
      else match col_pos name cs with
           | Some p => Some (S p)
           | None => None
           end
  end.

Definition has_column (name : string) (cols : list string) : bool :=
  match col_pos name cols with Some _ => true | None => false end.

(** [df.copy()]: frames are values here, so a copy is the frame itself;
    what the copy buys in Python is that the fetched frame is not
    changed by the assignments that follow. *)
Definition copy (df : DataFrame) : DataFrame := df.

(** A fresh [RangeIndex]: labels 0, 1, 2, ... *)
Fixpoint range_index_from (i : nat) (data : list (list cell))
  : list (cell * list cell) :=
  match data with
  | [] => []
  | r :: rs => (Int (Z.of_nat i), r) :: range_index_from (S i) rs
  end.

Definition range_index := range_index_from 0.

(** [df.reset_index(inplace=True)]: the index becomes the first column,
    labelled with the index name ("index", or "level_0" when that is
    taken, for a nameless index); a label already in use is a
    [ValueError]. *)
Definition reset_index (df : DataFrame) : result DataFrame :=
  let name :=
    match index_name df with
    | Some n => n
    | None => if has_column "index" (columns df) then "level_0" else "index"
    end in
  if has_column name (columns df)
  then Err (ValueError ("cannot insert " ++ name ++ ", already exists"))
  else Ok {| index_name := None;
             columns := name :: columns df;
             rows := range_index
                       (List.map (fun r => fst r :: snd r) (rows df)) |}.

(** [df[name]]: the values of a column, top to bottom. *)
Definition getitem (df : DataFrame) (name : string) : result (list cell) :=
  match col_pos name (columns df) with
  | Some p => Ok (List.map (fun r => nth p (snd r) NaN) (rows df))
  | None => Err (KeyError name)
  end.

(** Overwrite position [p] of a row. *)
Fixpoint put (p : nat) (v : cell) (vals : list cell) : list cell :=
  match p, vals with
  | O, _ :: vs => v :: vs
  | O, [] => [v]
  | S p', x :: vs => x :: put p' v vs
  | S p', [] => NaN :: put p' v []
  end.

(** [df[name] = ...]: the new value of each row is computed from the
    row ([g]); an existing column is overwritten in place, a new one is
    appended as the last column. *)
Definition setitem (df : DataFrame) (name : string)
    (g : cell * list cell -> cell) : DataFrame :=
  match col_pos name (columns df) with
  | Some p =>
      {| index_name := index_name df;
         columns := columns df;
         rows := List.map (fun r => (fst r, put p (g r) (snd r))) (rows df) |}
  | None =>
      {| index_name := index_name df;
         columns := columns df ++ [name];
         rows := List.map (fun r => (fst r, snd r ++ [g r])) (rows df) |}
  end.

(** The cells of a row re-laid on another list of columns; a column the
    row does not have is filled with [NaN]. *)
Definition realign (from to_ : list string) (vals : list cell) : list cell :=
  List.map (fun c => match col_pos c from with
                     | Some p => nth p vals NaN
                     | None => NaN
                     end) to_.

(** [pd.concat([a, b], ignore_index=True)]: the columns of [a], then
    those of [b] that [a] lacks; the rows of [a], then those of [b];
    a fresh index. *)
Definition concat (a b : DataFrame) : DataFrame :=
  let cols := columns a ++
              List.filter (fun c => negb (has_column c (columns a))) (columns b) in
  {| index_name := None;
     columns := cols;
     rows := range_index
               (List.map (fun r => realign (columns a) cols (snd r)) (rows a) ++
                List.map (fun r => realign (columns b) cols (snd r)) (rows b)) |}.

(** [df.head()]: the first five rows. *)
Definition head (df : DataFrame) : DataFrame :=
  {| index_name := index_name df; columns := columns df;
     rows := firstn 5 (rows df) |}.

(** [df[[c1, c2, ...]]]: the listed columns in the listed order; the
    first label the frame lacks is reported. *)
Fixpoint first_missing (names cols : list string) : option string :=
  match names with
  | [] => None
  | n :: ns => if has_column n cols then first_missing ns cols else Some n
  end.

Definition select (df : DataFrame) (names : list string) : result DataFrame :=
  match first_missing names (columns df) with
  | Some n => Err (KeyError n)
  | None => Ok {| index_name := index_name df; columns := names;
                  rows := List.map (fun r => (fst r, realign (columns df) names (snd r)))
                            (rows df) |}
  end.

(** *** Rolling mean

    [Series.rolling(window).mean()] as pandas computes it: the column is
    converted to a float64 array, and one pass over the array keeps a
    running sum with Kahan compensation, the number of observations in
    the window, the number of negative ones, and the length of the run
    of equal values that ends at the newest one. *)

(** An int64 as a float64: the nearest float, ties to even. *)
Definition float_of_int (z : Z) : float :=
  FloatOps.SF2Prim
    (SpecFloat.binary_normalize FloatOps.prec FloatOps.emax z 0 false).

(** The float64 reading of a cell; none for a cell that is not a
    number. *)
Definition as_float (c : cell) : option float :=
  match c with
  | NaN => Some nan
  | Float x => Some x
  | Int z => Some (float_of_int z)
  | Str _ | Timestamp _ => None
  end.

(** The array handed to the aggregation: an infinity counts as
    missing. *)
Definition prep_value (x : float) : float :=
  if is_infinity x then nan else x.

Fixpoint to_numeric (vals : list cell) : option (list float) :=
  match vals with
  | [] => Some []
  | c :: cs =>
      match as_float c, to_numeric cs with
      | Some x, Some xs => Some (prep_value x :: xs)
      | _, _ => None
      end
  end.

(** The test [val == val] of the aggregation: true for every float but
    NaN. *)
Definition notnan (x : float) : bool := (x =? x)%float.

Record roll_state := mkRoll {
  nobs : Z;
  sum_x : float;
  neg_ct : Z;
  compensation_add : float;
  compensation_remove : float;
  num_consecutive_same_value : Z;
  prev_value : float
}.

(** The state before the first window; [first] is the first value of
    the array. *)
Definition roll_init (first : float) : roll_state :=
  {| nobs := 0; sum_x := 0; neg_ct := 0;
     compensation_add := 0; compensation_remove := 0;
     num_consecutive_same_value := 0; prev_value := first |}.

(** [add_mean]: a value enters the window. *)
Definition add_mean (val : float) (st : roll_state) : roll_state :=
  if notnan val then
    let y := (val - compensation_add st)%float in
    let t := (sum_x st + y)%float in
    {| nobs := nobs st + 1;
       sum_x := t;
       neg_ct := if get_sign val then neg_ct st + 1 else neg_ct st;
       compensation_add := (t - sum_x st - y)%float;
       compensation_remove := compensation_remove st;
       num_consecutive_same_value :=
         if (val =? prev_value st)%float
         then num_consecutive_same_value st + 1 else 1;
       prev_value := val |}
  else st.

(** [remove_mean]: a value leaves the window. *)
Definition remove_mean (val : float) (st : roll_state) : roll_state :=
  if notnan val then
    let y := (- val - compensation_remove st)%float in
    let t := (sum_x st + y)%float in
    {| nobs := nobs st - 1;
       sum_x := t;
       neg_ct := if get_sign val then neg_ct st - 1 else neg_ct st;
       compensation_add := compensation_add st;
       compensation_remove := (t - sum_x st - y)%float;
       num_consecutive_same_value := num_consecutive_same_value st;
       prev_value := prev_value st |}
  else st.

(** [calc_mean]: the value for the current window, NaN when the window
    has fewer than [minp] observations. *)
Definition calc_mean (minp : Z) (st : roll_state) : float :=
  if (minp <=? nobs st)%Z && (0 <? nobs st)%Z then
    let result := (sum_x st / float_of_int (nobs st))%float in
    if (nobs st <=? num_consecutive_same_value st)%Z then prev_value st
    else if (neg_ct st =? 0)%Z && (result <? 0)%float then 0%float
    else if (neg_ct st =? nobs st)%Z && (0 <? result)%float then 0%float
    else result
  else nan.

(** One turn of the loop of [roll_mean] for the windows
    [max 0 (i + 1 - window) .. i]: the value that left the window since
    the last turn is removed, the value at [i] is added. *)
Definition roll_step (window : nat) (values : list float) (i : nat)
    (val : float) (st : roll_state) : roll_state :=
  let st := if (window <=? i)%nat
            then remove_mean (nth (i - window) values nan) st
            else st in
  add_mean val st.

(** The states after each turn, for the values [todo] from position [i]
    on. *)
Fixpoint roll_scan (window : nat) (values : list float) (i : nat)
    (todo : list float) (st : roll_state) : list roll_state :=
  match todo with
  | [] => []
  | val :: rest =>
      let st := roll_step window values i val st in
      st :: roll_scan window values (S i) rest st
  end.

Definition roll_mean (window : nat) (minp : Z) (values : list float)
  : list float :=
  List.map (calc_mean minp)
    (roll_scan window values 0 values (roll_init (nth 0 values nan))).

(** The state after the turns [0 .. n - 1]. *)
Fixpoint roll_state_at (window : nat) (values : list float) (n : nat)
  : roll_state :=
  match n with
  | O => roll_init (nth 0 values nan)
  | S j => roll_step window values j (nth j values nan)
             (roll_state_at window values j)
  end.

(** The number of observations among the first [n] values. *)
Fixpoint observed (values : list float) (n : nat) : Z :=
  match n with
  | O => 0
  | S j => observed values j + (if notnan (nth j values nan) then 1 else 0)
  end.

(** A float of the result as a cell: NaN is the missing value. *)
Definition cell_of_float (x : float) : cell :=
  if notnan x then Float x else NaN.

(** [series.rolling(window=w).mean()]: [min_periods] defaults to the
    window size; a column that is not numeric is a [DataError]. *)
Definition rolling_mean (window : nat) (vals : list cell) : result (list cell) :=
  match to_numeric vals with
  | Some xs => Ok (List.map cell_of_float
                     (roll_mean window (Z.of_nat window) xs))
  | None => Err (DataError "No numeric types to aggregate")
  end.

End Pandas.

Import Pandas.

(** ** A model of the CSV writer behind [DataFrame.to_csv]

    pandas hands the header and every row, cell by cell as text, to
    Python's [csv.writer] with its defaults: comma delimiter, double
    quote as quote character, minimal quoting with doubled quotes, and
    the line feed as line terminator. *)

Module Csv.

(** A character that forces a field into quotes. *)
Definition special (c : ascii) : bool :=
  Ascii.eqb c Text.comma || Ascii.eqb c Text.dquote || Ascii.eqb c Text.newline.

Fixpoint needs_quote (s : string) : bool :=
  match s with
  | EmptyString => false
  | String c s' => special c || needs_quote s'
  end.

(** Every quote character inside a quoted field is written twice. *)
Fixpoint escape (s : string) : string :=
  match s with
  | EmptyString => EmptyString
  | String c s' =>
      if Ascii.eqb c Text.dquote
      then String Text.dquote (String Text.dquote (escape s'))
      else String c (escape s')
  end.

Definition quoted (s : string) : string :=
  String Text.dquote (escape s ++ String Text.dquote EmptyString).

(** One field.  [lone] says that the field is the only one of its
    record: an empty record would read back as no field at all, so a
    lone empty field is written as a pair of quotes. *)
Definition write_field (lone : bool) (s : string) : string :=
  if needs_quote s || (lone && negb (Text.truthy s)) then quoted s else s.

(** [writer.writerow(fields)] *)
Definition writerow (fields : list string) : string :=
  Text.join "," (List.map (write_field (length fields =? 1)%nat) fields)
  ++ String Text.newline EmptyString.

(** [writer.writerows(records)] *)
Fixpoint writerows (records : list (list string)) : string :=
  match records with
  | [] => EmptyString
  | r :: rs => writerow r ++ writerows rs
  end.

(** *** Reading the text back

    A reader for the text the writer produces, as a state machine over
    the characters: a record ends at a line feed outside quotes, a field
    at a comma outside quotes, and inside quotes a doubled quote stands
    for one quote.  A line without characters is a record without
    fields. *)

Inductive state :=
| StartRecord
| StartField
| InField
| InQuoted
| QuoteInQuoted.

Fixpoint parse (st : state) (field : string) (record : list string)
    (input : string) : list (list string) :=
  match input with
  | EmptyString =>
      match st with
      | StartRecord => []
      | _ => [record ++ [field]]
      end
  | String c rest =>
      let end_record f := (record ++ [f]) :: parse StartRecord EmptyString [] rest in
      let end_field f := parse StartField EmptyString (record ++ [f]) rest in
      let start_field (_ : unit) :=
        if Ascii.eqb c Text.comma then end_field EmptyString
        else if Ascii.eqb c Text.dquote then parse InQuoted EmptyString record rest
        else parse InField (String c EmptyString) record rest in
      match st with
      | StartRecord =>
          if Ascii.eqb c Text.newline
          then [] :: parse StartRecord EmptyString [] rest
          else start_field tt
      | StartField =>
          if Ascii.eqb c Text.newline then end_record EmptyString
          else start_field tt
      | InField =>
          if Ascii.eqb c Text.newline then end_record field
          else if Ascii.eqb c Text.comma then end_field field
          else parse InField (field ++ String c EmptyString) record rest
      | InQuoted =>
          if Ascii.eqb c Text.dquote then parse QuoteInQuoted field record rest
          else parse InQuoted (field ++ String c EmptyString) record rest
      | QuoteInQuoted =>
          if Ascii.eqb c Text.dquote
          then parse InQuoted (field ++ String Text.dquote EmptyString) record rest
          else if Ascii.eqb c Text.newline then end_record field
          else if Ascii.eqb c Text.comma then end_field field
          else parse InField (field ++ String c EmptyString) record rest
      end
  end.

Definition reader (text : string) : list (list string) :=
  parse StartRecord EmptyString [] text.

(** *** Python's [csv.reader]

    The reader of Python's [csv] module with its defaults, fed the text
    with its line ends untouched.  Outside quotes a record ends at a line
    feed, at a carriage return, and at a carriage return followed by a
    line feed; a line without characters is a record without fields; a
    character after a closing quote goes on with the field. *)

Definition carriage_return : ascii := "013"%char.

Inductive reader_state :=
| START_RECORD
| START_FIELD
| IN_FIELD
| IN_QUOTED_FIELD
| QUOTE_IN_QUOTED_FIELD
| EAT_CRNL.

Fixpoint parse_process_char (st : reader_state) (field : string)
    (record : list string) (input : string) : list (list string) :=
  match input with
  | EmptyString =>
      match st with
      | START_RECORD | EAT_CRNL => []
      | _ => [record ++ [field]]
      end
  | String c rest =>
      let line_end := Ascii.eqb c Text.newline || Ascii.eqb c carriage_return in
      let after_line :=
        if Ascii.eqb c carriage_return then EAT_CRNL else START_RECORD in
      let end_record f :=
        (record ++ [f]) :: parse_process_char after_line EmptyString [] rest in
      let end_field f :=
        parse_process_char START_FIELD EmptyString (record ++ [f]) rest in
      let start_field (_ : unit) :=
        if line_end then end_record EmptyString
        else if Ascii.eqb c Text.comma then end_field EmptyString
        else if Ascii.eqb c Text.dquote
             then parse_process_char IN_QUOTED_FIELD EmptyString record rest
        else parse_process_char IN_FIELD (String c EmptyString) record rest in
      let start_record (_ : unit) :=
        if line_end
        then [] :: parse_process_char after_line EmptyString [] rest
        else start_field tt in
      match st with
      | EAT_CRNL =>
          if Ascii.eqb c Text.newline
          then parse_process_char START_RECORD EmptyString [] rest
          else start_record tt
      | START_RECORD => start_record tt
      | START_FIELD => start_field tt
      | IN_FIELD =>
          if line_end then end_record field
          else if Ascii.eqb c Text.comma then end_field field
          else parse_process_char IN_FIELD (field ++ String c EmptyString)
                 record rest
      | IN_QUOTED_FIELD =>
          if Ascii.eqb c Text.dquote
          then parse_process_char QUOTE_IN_QUOTED_FIELD field record rest
          else parse_process_char IN_QUOTED_FIELD
                 (field ++ String c EmptyString) record rest
      | QUOTE_IN_QUOTED_FIELD =>
          if Ascii.eqb c Text.dquote
          then parse_process_char IN_QUOTED_FIELD
                 (field ++ String Text.dquote EmptyString) record rest
          else if Ascii.eqb c Text.comma then end_field field
          else if line_end then end_record field
          else parse_process_char IN_FIELD (field ++ String c EmptyString)
                 record rest
      end
  end.

(** [list(csv.reader(f))] for the text read without newline
    translation. *)
Definition csv_reader (text : string) : list (list string) :=
  parse_process_char START_RECORD EmptyString [] text.

(** The states the two readers share. *)
Definition reader_state_of (st : state) : reader_state :=
  match st with
  | StartRecord => START_RECORD
  | StartField => START_FIELD
  | InField => IN_FIELD
  | InQuoted => IN_QUOTED_FIELD
  | QuoteInQuoted => QUOTE_IN_QUOTED_FIELD
  end.

End Csv.

(** ** Plotly figures and Streamlit calls *)

Record date := mkDate { year : Z; month : Z; day : Z }.

(** A plotly trace with the arguments the script passes. *)
Inductive gtrace :=
| Candlestick (x open high low close : list cell) (name : string)
| Scatter (x y : list cell) (mode name : string)
          (line_dash stackgroup : option string)
| Bar (x y : list cell) (name : string).

Record Layout := mkLayout {
  layout_title : string; xaxis_title : string; yaxis_title : string
}.

Record Figure := mkFigure { fig_data : list gtrace; fig_layout : option Layout }.

(** [fig.add_trace(t)] and [fig.update_layout(...)] *)
Definition add_trace (fig : Figure) (t : gtrace) : Figure :=
  {| fig_data := fig_data fig ++ [t]; fig_layout := fig_layout fig |}.

Definition update_layout (fig : Figure) (l : Layout) : Figure :=
  {| fig_data := fig_data fig; fig_layout := Some l |}.

(** What the fetch hands back: a flat frame for a request of one symbol, a
    frame grouped by ticker, read here as a map from ticker to its frame,
    for several. *)
Inductive RawData :=
| Single (df : DataFrame)
| Multiple (by_ticker : gmap string DataFrame).

(** The fetch either returns or raises an [Exception]; [message] is the
    text of the exception, [str(e)]. *)
Inductive fetched :=
| Fetched (raw_data : RawData)
| Failed (message : string).

(** Every call the script makes to the outside, in the order it makes
    them.  Keyword arguments that are the same at every call site
    ([use_container_width=True]) are left out. *)
Inductive event :=
| set_page_config (page_title layout : string)
| title (body : string)
| markdown (body : string)
| sidebar_text_input (label value : string)
| sidebar_date_input (label : string) (value : date)
| sidebar_checkbox (label : string) (value : bool)
| spinner (text : string)
| load_stock_data_call (symbols : list string) (start end_ : date)
| error (body : string)
| warning (body : string)
| subheader (body : string)
| dataframe (data : DataFrame)
| plotly_chart (fig : Figure)
| download_button (label data file_name mime : string).

(** ** The script monad: a log of events and how the run ended *)

Inductive outcome (A : Type) :=
| Done (a : A)
| Stopped
| Raised (e : exn).

Arguments Done {A} a.
Arguments Stopped {A}.
Arguments Raised {A} e.

Definition Script (A : Type) : Type := list event * outcome A.

Definition ret {A} (a : A) : Script A := ([], Done a).

Definition bind {A B} (m : Script A) (k : A -> Script B) : Script B :=
  match m with
  | (log, Done a) => let '(log', r) := k a in (log ++ log', r)
  | (log, Stopped) => (log, Stopped)
  | (log, Raised e) => (log, Raised e)
  end.

Definition emit (e : event) : Script unit := ([e], Done tt).

(** [st.stop()] *)
Definition stop {A} : Script A := ([], Stopped).

(** A pandas operation inside the script: an exception it raises is not
    caught anywhere and ends the run. *)
Definition lift {A} (r : result A) : Script A :=
  match r with
  | inl e => ([], Raised e)
  | inr a => ([], Done a)
  end.

Declare Scope script_scope.
Delimit Scope script_scope with script.
Notation "'let*' x := m 'in' k" := (bind m (fun x => k))
  (at level 10, x name, m at level 100, k at level 200) : script_scope.
Notation "m >> k" := (bind m (fun _ => k))
  (at level 100, k at level 200, right associativity) : script_scope.

Definition trace_of {A} (m : Script A) : list event := fst m.
Definition outcome_of {A} (m : Script A) : outcome A := snd m.

(** ** The script *)

(** The values the sidebar widgets return, and the day of the run. *)
Record Inputs := mkInputs {
  symbol_input : string;
  start_date : date;
  end_date : date;
  show_ma : bool;
  today : date
}.

Definition ohlcv : list string := ["Open"; "High"; "Low"; "Close"; "Volume"].

Section App.

(** How pandas prints a number or a timestamp in a CSV file.  Missing
    values print as the empty text and strings as themselves. *)
Variable format_value : cell -> string.

(** The fetch collaborator, [load_stock_data] (lines 22-24): the cached
    yfinance download. *)
Variable load_stock_data : list string -> date -> date -> fetched.

Definition cell_text (c : cell) : string :=
  match c with
  | NaN => EmptyString
  | Str s => s
  | _ => format_value c
  end.

(** [df.to_csv(index=False).encode('utf-8')]: the header, then one
    record per row, without the index. *)
Definition to_csv (df : DataFrame) : string :=
  Csv.writerows (columns df ::
                 List.map (fun r => List.map cell_text (snd r)) (rows df)).

Open Scope script_scope.

(** Lines 8-19: page header and sidebar widgets. *)
Definition page_setup (inp : Inputs) : Script unit :=
  emit (set_page_config "📈 Live Stock Market Dashboard" "wide") >>
  emit (title "📊 Live Stock Market Dashboard") >>
  emit (markdown "View real-time stock prices, candlestick charts, trends, and volume with optional moving averages.") >>
  emit (sidebar_text_input "Enter stock symbols (comma-separated):"
          (Text.join ", " default_symbols)) >>
  emit (sidebar_date_input "Start Date" (mkDate 2023 1 1)) >>
  emit (sidebar_date_input "End Date" (today inp)) >>
  emit (sidebar_checkbox "Show 7-Day Moving Average" true).

(** Lines 37-38: the table of the single-symbol view. *)
Definition shape_single (raw_data : RawData) : result DataFrame :=
  match raw_data with
  | Single raw => reset_index (copy raw)
  | Multiple _ => Err (OutOfModel "grouped frame for one symbol")
  end.

(** Lines 36-82: the single-symbol view. *)
Definition single_view (symbol : string) (raw_data : RawData)
    (show_ma : bool) : Script unit :=
  let* df := lift (shape_single raw_data) in
  emit (subheader "📅 Raw Data Preview") >>
  emit (dataframe (head df)) >>
  emit (subheader ("🕯️ " ++ symbol ++ " Candlestick Chart")) >>
  let* c_x := lift (getitem df "Date") in
  let* c_open := lift (getitem df "Open") in
  let* c_high := lift (getitem df "High") in
  let* c_low := lift (getitem df "Low") in
  let* c_close := lift (getitem df "Close") in
  let fig_candle :=
    update_layout
      (mkFigure [Candlestick c_x c_open c_high c_low c_close symbol] None)
      (mkLayout (symbol ++ " Candlestick Chart") "Date" "Price (USD)") in
  emit (plotly_chart fig_candle) >>
  emit (subheader ("📈 " ++ symbol ++ " Closing Price")) >>
  let* l_x := lift (getitem df "Date") in
  let* l_y := lift (getitem df "Close") in
  let fig_line := add_trace (mkFigure [] None)
                    (Scatter l_x l_y "lines" "Close" None None) in
  let* fig_line :=
    if show_ma then
      let* close := lift (getitem df "Close") in
      let* ma := lift (rolling_mean 7 close) in
      let* m_x := lift (getitem df "Date") in
      ret (add_trace fig_line
             (Scatter m_x ma "lines" "7-Day MA" (Some "dash") None))
    else ret fig_line in
  let fig_line := update_layout fig_line
                    (mkLayout "Closing Price Trend" "Date" "Price (USD)") in
  emit (plotly_chart fig_line) >>
  emit (subheader "📊 Volume Traded") >>
  let* v_x := lift (getitem df "Date") in
  let* v_y := lift (getitem df "Volume") in
  let fig_vol :=
    update_layout (add_trace (mkFigure [] None) (Bar v_x v_y "Volume"))
      (mkLayout "Trading Volume" "Date" "Volume") in
  emit (plotly_chart fig_vol) >>
  let csv := to_csv df in
  emit (download_button "📥 Download Data as CSV" csv
          (symbol ++ "_stock_data.csv") "text/csv").

(** [raw_data[symbol].copy()]: the frame of one ticker in a grouped
    fetch result; a ticker the result does not have is a [KeyError]. *)
Definition ticker_frame (raw_data : RawData) (symbol : string)
  : result DataFrame :=
  match raw_data with
  | Multiple by_ticker =>
      match by_ticker !! symbol with
      | Some f => Ok (copy f)
      | None => Err (KeyError symbol)
      end
  | Single _ => Err (OutOfModel "flat frame for several symbols")
  end.

(** Lines 88-90: one ticker's frame with its symbol and its dates as
    two more columns. *)
Definition tag (symbol : string) (stock_df : DataFrame) : DataFrame :=
  let stock_df := setitem stock_df "Symbol" (fun _ => Str symbol) in
  setitem stock_df "Date" fst.

(** Lines 87-91: the loop that builds the table of the multi-symbol
    view, started at line 86 with the empty frame. *)
Fixpoint shape_loop (raw_data : RawData) (symbols : list string)
    (df : DataFrame) : result DataFrame :=
  match symbols with
  | [] => Ok df
  | symbol :: rest =>
      match ticker_frame raw_data symbol with
      | inl e => Err e
      | inr stock_df =>
          shape_loop raw_data rest (concat df (tag symbol stock_df))
      end
  end.

Definition shape_multi (raw_data : RawData) (symbols : list string)
  : result DataFrame :=
  shape_loop raw_data symbols empty.

(** Lines 99-106 and 113-121: one line per symbol, added to a figure. *)
Fixpoint trace_loop (raw_data : RawData) (column : string)
    (stackgroup : option string) (symbols : list string) (fig : Figure)
  : result Figure :=
  match symbols with
  | [] => Ok fig
  | symbol :: rest =>
      match ticker_frame raw_data symbol with
      | inl e => Err e
      | inr symbol_data =>
          match getitem symbol_data column with
          | inl e => Err e
          | inr y =>
              trace_loop raw_data column stackgroup rest
                (add_trace fig
                   (Scatter (index symbol_data) y "lines" symbol None stackgroup))
          end
      end
  end.

(** Lines 85-127: the multi-symbol view. *)
Definition multi_view (symbols : list string) (raw_data : RawData)
  : Script unit :=
  let* df := lift (shape_multi raw_data symbols) in
  emit (subheader "📅 Raw Data Preview") >>
  let* preview :=
    lift (select df ["Date"; "Symbol"; "Open"; "High"; "Low"; "Close"; "Volume"]) in
  emit (dataframe (head preview)) >>
  emit (subheader "📈 Closing Price Trend Comparison") >>
  let* fig_multi :=
    lift (trace_loop raw_data "Close" None symbols (mkFigure [] None)) in
  let fig_multi := update_layout fig_multi
                     (mkLayout "Closing Price Over Time" "Date" "Price (USD)") in
  emit (plotly_chart fig_multi) >>
  emit (subheader "📊 Volume Comparison") >>
  let* fig_vol :=
    lift (trace_loop raw_data "Volume" (Some "one") symbols (mkFigure [] None)) in
  let fig_vol := update_layout fig_vol
                   (mkLayout "Volume Traded Over Time" "Date" "Volume") in
  emit (plotly_chart fig_vol) >>
  let csv := to_csv df in
  emit (download_button "📥 Download Data as CSV" csv
          "multi_stock_data.csv" "text/csv").

(** Lines 27-33: the fetch inside the spinner; a failure is reported
    once and the script stops. *)
Definition fetch (symbols : list string) (inp : Inputs) : Script RawData :=
  emit (spinner "⏳ Loading data...") >>
  emit (load_stock_data_call symbols (start_date inp) (end_date inp)) >>
  match load_stock_data symbols (start_date inp) (end_date inp) with
  | Fetched raw_data => ret raw_data
  | Failed e => emit (error ("Failed to fetch stock data: " ++ e)) >> stop
  end.

(** Lines 27-129: everything below the sidebar. *)
Definition body (inp : Inputs) : Script unit :=
  let symbols := symbols_of (symbol_input inp) in
  match symbols with
  | [] => emit (warning "👈 Please enter at least one valid stock symbol.")
  | _ :: _ =>
      let* raw_data := fetch symbols inp in
      match symbols with
      | [symbol] => single_view symbol raw_data (show_ma inp)
      | _ => multi_view symbols raw_data
      end
  end.

(** The whole script, top to bottom. *)
Definition app (inp : Inputs) : Script unit :=
  page_setup inp >> body inp.

End App.

(** ** Observing a run *)

Definition is_fetch_call (e : event) : bool :=
  match e with load_stock_data_call _ _ _ => true | _ => false end.

Definition is_error (e : event) : bool :=
  match e with error _ => true | _ => false end.

(** Events that show or export fetched data. *)
Definition is_output (e : event) : bool :=
  match e with
  | dataframe _ | plotly_chart _ | download_button _ _ _ _ => true
  | _ => false
  end.

(** The files a run offers for download: name and content. *)
Fixpoint exports (log : list event) : list (string * string) :=
  match log with
  | [] => []
  | download_button _ data file_name _ :: log' => (file_name, data) :: exports log'
  | _ :: log' => exports log'
  end.

(** The first requested symbol a grouped fetch result lacks. *)
Fixpoint first_absent (by_ticker : gmap string DataFrame)
    (symbols : list string) : option string :=
  match symbols with
  | [] => None
  | s :: rest =>
      match by_ticker !! s with
      | Some _ => first_absent by_ticker rest
      | None => Some s
      end
  end.

(** The same inputs with the moving-average box set to [ma]. *)
Definition with_show_ma (inp : Inputs) (ma : bool) : Inputs :=
  {| symbol_input := symbol_input inp; start_date := start_date inp;
     end_date := end_date inp; show_ma := ma; today := today inp |}.

(** Every cell of the frame is a number or missing. *)
Definition numeric (df : DataFrame) : Prop :=
  Forall (fun r => Forall (fun c => is_Some (as_float c)) (snd r)) (rows df).

(** The view the script draws for a fetch result. *)
Definition view (format_value : cell -> string) (symbols : list string)
    (raw_data : RawData) (ma : bool) : Script unit :=
  match symbols with
  | [symbol] => single_view format_value symbol raw_data ma
  | _ => multi_view format_value symbols raw_data
  end.

(** The rows a grouped fetch result holds for a symbol. *)
Definition series (by_ticker : gmap string DataFrame) (symbol : string)
  : list (cell * list cell) :=
  match by_ticker !! symbol with
  | Some f => rows f
  | None => []
  end.

(** The rows of the requested symbols one symbol after the other, each
    row followed by its symbol and its index label. *)
Definition tagged_rows (by_ticker : gmap string DataFrame)
    (symbols : list string) : list (list cell) :=
  flat_map (fun s => List.map (fun r => snd r ++ [Str s; fst r])
                       (series by_ticker s)) symbols.

(** The number of rows the requested symbols have in the fetch result. *)
Definition total_rows (by_ticker : gmap string DataFrame)
    (symbols : list string) : nat :=
  fold_right Nat.add 0%nat (List.map (fun s => length (series by_ticker s)) symbols).

(** The symbol and the date of every row of the requested symbols, one
    symbol after the other, each symbol's rows in their own order. *)
Definition symbol_column (by_ticker : gmap string DataFrame)
    (symbols : list string) : list cell :=
  flat_map (fun s => List.map (fun _ => Str s) (series by_ticker s)) symbols.

Definition date_column (by_ticker : gmap string DataFrame)
    (symbols : list string) : list cell :=
  flat_map (fun s => List.map fst (series by_ticker s)) symbols.

(** A frame with a fresh index. *)
Definition table (cols : list string) (data : list (list cell)) : DataFrame :=
  {| index_name := None; columns := cols; rows := range_index data |}.

(** Every requested symbol is in the fetch result, with the same columns
    [cols] and one cell per column in every row. *)
Definition uniform (by_ticker : gmap string DataFrame) (cols : list string)
    (symbols : list string) : Prop :=
  forall s, s ∈ symbols ->
    exists f, by_ticker !! s = Some f /\ columns f = cols /\ well_formed f.

(** ** Sample data *)

Definition on_day (n : Z) : cell := Timestamp (n * 86400000000000).

(** One trading day: open, high, low, close, volume. *)
Definition bar (d : Z) (o h l c : float) (v : Z) : cell * list cell :=
  (on_day d, [Float o; Float h; Float l; Float c; Int v]).

Definition frame_of (data : list (cell * list cell)) : DataFrame :=
  {| index_name := Some "Date"; columns := ohlcv; rows := data |}.

Definition aapl : DataFrame :=
  frame_of [bar 19360 130 131 124 125 112117500;
            bar 19361 127 129 125 126 89113600].

Definition msft : DataFrame :=
  frame_of [bar 19360 243 246 237 239.5 25740000].

Definition only_aapl : gmap string DataFrame := {[ "AAPL" := aapl ]}.

Definition aapl_msft : gmap string DataFrame :=
  <[ "MSFT" := msft ]> {[ "AAPL" := aapl ]}.

(** Seven closing prices. *)
Definition week_close : list cell :=
  [Float 125; Float 127; Float 126; Float 129; Float 130; Float 131; Float 130].

(** A close that moves once and then stays. *)
Definition steady_close : list cell :=
  [Float 125; Float 130; Float 130; Float 130; Float 130; Float 130;
   Float 130; Float 130].

(** Seven times the same int64 close, one above 2^53. *)
Definition large_close : list cell :=
  List.repeat (Int 9007199254740993) 7.

(** The real number a finite float stands for. *)
Definition exact_value (x : float) : option Q :=
  match FloatOps.Prim2SF x with
  | SpecFloat.S754_zero _ => Some 0%Q
  | SpecFloat.S754_finite sign m e =>
      Some ((if sign then -1 else 1) * inject_Z (Zpos m) * 2 ^ e)%Q
  | _ => None
  end.

(** A stand-in for the way pandas prints values: integers in decimal, a
    float that is a whole number as that number, any other float as its
    odd significand, the letter p and its binary exponent, a timestamp
    as its count of nanoseconds. *)
Definition decimal (z : Z) : string := NilZero.string_of_int (Z.to_int z).

(** [m * 2^e] with the factors two moved from [m] into the exponent. *)
Fixpoint odd_part (m : positive) (e : Z) : positive * Z :=
  match m with
  | xO p => odd_part p (e + 1)
  | _ => (m, e)
  end.

Definition sample_format (c : cell) : string :=
  match c with
  | NaN => EmptyString
  | Str s => s
  | Int z => decimal z
  | Timestamp ns => decimal ns
  | Float x =>
      match FloatOps.Prim2SF x with
      | SpecFloat.S754_finite sign m e =>
          let '(m, e) := odd_part m e in
          (if sign then "-" else EmptyString) ++
          (if (0 <=? e)%Z then decimal (Zpos m * 2 ^ e)
           else decimal (Zpos m) ++ "p" ++ decimal e)
      | SpecFloat.S754_zero sign => if sign then "-0" else "0"
      | SpecFloat.S754_infinity sign => if sign then "-inf" else "inf"
      | SpecFloat.S754_nan => EmptyString
      end
  end.

(** Fetch collaborators that answer every request with the same data. *)
Definition fetch_aapl (_ : list string) (_ _ : date) : fetched :=
  Fetched (Single aapl).

Definition fetch_aapl_msft (_ : list string) (_ _ : date) : fetched :=
  Fetched (Multiple aapl_msft).

Definition sample_inputs (text : string) (ma : bool) : Inputs :=
  {| symbol_input := text; start_date := mkDate 2023 1 1;
     end_date := mkDate 2023 1 31; show_ma := ma; today := mkDate 2023 1 31 |}.

(** A fetch collaborator that always fails. *)
Definition fetch_fails (_ : list string) (_ _ : date) : fetched :=
  Failed "No data found, symbol may be delisted".

(** ** Properties of texts and logs used further below *)

(** The character occurs in the text. *)
Fixpoint has_char (c : ascii) (s : string) : bool :=
  match s with
  | EmptyString => false
  | String x s' => Ascii.eqb x c || has_char c s'
  end.

(** No column label and no cell text of the frame holds a carriage
    return. *)
Definition no_carriage_return (format_value : cell -> string)
    (df : DataFrame) : Prop :=
  Forall (Forall (fun s => has_char Csv.carriage_return s = false))
    (columns df ::
     List.map (fun r => List.map (cell_text format_value) (snd r)) (rows df)).

(** The Close column of the frame, where there is one, holds numbers and
    missing values only. *)
Definition numeric_close (df : DataFrame) : Prop :=
  forall close, getitem df "Close" = Ok close -> is_Some (to_numeric close).

(** A symbol with a carriage return inside, as [str.strip] leaves it, and
    a fetch result that has it. *)
Definition broken_symbol : string :=
  String "A" (String Csv.carriage_return "B").

Definition with_broken_symbol : gmap string DataFrame :=
  <[ broken_symbol := msft ]> {[ "AAPL" := aapl ]}.

Definition fetch_broken_symbol (_ : list string) (_ _ : date) : fetched :=
  Fetched (Multiple with_broken_symbol).

(** A fetched frame whose second close is a text. *)
Definition text_close : DataFrame :=
  frame_of [bar 19360 130 131 124 125 112117500;
            (on_day 19361, [Float 127; Float 129; Float 125; Str "n/a";
                            Int 89113600])].

Definition fetch_text_close (_ : list string) (_ _ : date) : fetched :=
  Fetched (Single text_close).

(** The character occurs in the [str]. *)
Definition contains (ch : string) (s : PyStr.str) : bool :=
  existsb (String.eqb ch) s.

(** A symbol as line 15 leaves it: not empty, without comma, trimmed and
    upper-cased. *)
Definition normalised (s : PyStr.str) : Prop :=
  PyStr.truthy s = true /\ contains "," s = false
  /\ PyStr.strip s = s /\ PyStr.upper s = s.

(** The text holds commas and white space only. *)
Definition only_separators (s : string) : bool :=
  forallb (fun ch => String.eqb ch "," || PyStr.isspace ch) (PyStr.chars s).

(** The [str] does not start with white space. *)
Definition starts_clean (s : PyStr.str) : Prop :=
  match s with
  | [] => True
  | ch :: _ => PyStr.isspace ch = false
  end.

(** What the proofs need of an entry of the upper-case table: its
    character is not white space, and the characters it becomes are at
    least one, none of them white space or a comma, and none of them
    changed again by [str.upper]. *)
Definition upper_entry_ok (e : string * PyStr.str) : bool :=
  negb (PyStr.isspace (fst e)) && negb (String.eqb (fst e) ",")
  && PyStr.truthy (snd e)
  && forallb (fun v =>
                negb (PyStr.isspace v) && negb (String.eqb v ",")
                && match List.find (fun e' => String.eqb (fst e') v)
                           PyStr.upper_table with
                   | Some _ => false
                   | None => true
                   end) (snd e).

(** A text with characters outside ASCII: a no-break space, lower-case
    letters with accent, the sharp s, and an ideographic space. *)
Definition accented_input : string :=
  PyStr.utf8 0xA0 ++ "aapl ,é" ++ PyStr.utf8 0x3000 ++ ", straße,,ǆ ".

(** Calls that draw something fetched: headings, tables, charts and the
    download button. *)
Definition is_render (e : event) : bool :=
  match e with
  | subheader _ | dataframe _ | plotly_chart _ | download_button _ _ _ _ => true
  | _ => false
  end.

(** The charts and the table previews of a run, in the order drawn. *)
Fixpoint charts (log : list event) : list Figure :=
  match log with
  | [] => []
  | plotly_chart fig :: log' => fig :: charts log'
  | _ :: log' => charts log'
  end.

Fixpoint previews (log : list event) : list DataFrame :=
  match log with
  | [] => []
  | dataframe data :: log' => data :: previews log'
  | _ :: log' => previews log'
  end.

(** The values a grouped fetch result holds for a symbol in a column;
    none when the symbol or the column is not there. *)
Definition column_of (by_ticker : gmap string DataFrame) (symbol column : string)
  : list cell :=
  match by_ticker !! symbol with
  | Some f => match getitem f column with
              | inr vals => vals
              | inl _ => []
              end
  | None => []
  end.

(** One line per symbol, as lines 99-106 and 113-121 add them. *)
Definition symbol_lines (by_ticker : gmap string DataFrame) (column : string)
    (stackgroup : option string) (symbols : list string) : list gtrace :=
  List.map (fun s => Scatter (List.map fst (series by_ticker s))
                       (column_of by_ticker s column) "lines" s None stackgroup)
    symbols.

(** The rows of the requested symbols with date and symbol in front. *)
Definition preview_rows (by_ticker : gmap string DataFrame)
    (symbols : list string) : list (list cell) :=
  flat_map (fun s => List.map (fun r => fst r :: Str s :: snd r)
                       (series by_ticker s)) symbols.

(** A frame without the Volume column. *)
Definition no_volume : DataFrame :=
  {| index_name := Some "Date"; columns := ["Open"; "High"; "Low"; "Close"];
     rows := [(on_day 19360, [Float 130; Float 131; Float 124; Float 125])] |}.

(** The labels of a fresh index of [n] rows: 0, 1, ..., n - 1. *)
Definition range_labels (n : nat) : list cell :=
  List.map (fun i => Int (Z.of_nat i)) (seq 0 n).

(** ** The cache in front of the download (lines 21-24)

    [load_stock_data] is the yfinance download under [st.cache_data]: an
    answer stored for the same symbols and dates is returned without
    calling the download; a new answer is stored; an exception is passed
    on and nothing is stored. *)

Definition request : Type := list string * date * date.

Definition same_date (a b : date) : bool :=
  Z.eqb (year a) (year b) && Z.eqb (month a) (month b) && Z.eqb (day a) (day b).

Definition same_request (a b : request) : bool :=
  bool_decide (fst (fst a) = fst (fst b))
  && same_date (snd (fst a)) (snd (fst b)) && same_date (snd a) (snd b).

Definition Cache : Type := list (request * RawData).

Fixpoint cache_lookup (key : request) (cache : Cache) : option RawData :=
  match cache with
  | [] => None
  | (k, raw_data) :: rest =>
      if same_request k key then Some raw_data else cache_lookup key rest
  end.

(** What a call of the cached function gives: its answer, the cache it
    leaves, and the downloads it made. *)
Record Loaded := mkLoaded {
  answer : fetched;
  cache_after : Cache;
  download_calls : list request
}.

Definition cached_load (yf_download : list string -> date -> date -> fetched)
    (cache : Cache) (symbols : list string) (start end_ : date) : Loaded :=
  match cache_lookup (symbols, start, end_) cache with
  | Some raw_data => mkLoaded (Fetched raw_data) cache []
  | None =>
      match yf_download symbols start end_ with
      | Fetched raw_data =>
          mkLoaded (Fetched raw_data)
            (((symbols, start, end_), raw_data) :: cache)
            [(symbols, start, end_)]
      | Failed message => mkLoaded (Failed message) cache [(symbols, start, end_)]
      end
  end.

(** One run of the script in a session: the run itself, the cache it
    leaves and the downloads it made.  The script calls the cached
    function only when there are symbols. *)
Definition run_cached (format_value : cell -> string)
    (yf_download : list string -> date -> date -> fetched)
    (cache : Cache) (inp : Inputs) : Script unit * Cache * list request :=
  let load := fun symbols start end_ =>
                answer (cached_load yf_download cache symbols start end_) in
  let used := cached_load yf_download cache (symbols_of (symbol_input inp))
                (start_date inp) (end_date inp) in
  match symbols_of (symbol_input inp) with
  | [] => (app format_value load inp, cache, [])
  | _ :: _ => (app format_value load inp, cache_after used, download_calls used)
  end.

(** * Properties *)

(** ** Symbol normalisation *)

Section Characters.

Import PyStr.

Lemma upper_table_ok : forallb upper_entry_ok upper_table = true.
Proof. vm_compute. reflexivity. Qed.

(** A character is either untouched by [str.upper] or an entry of the
    table. *)
Lemma upper_char_cases ch :
  (upper_char ch = [ch]
   /\ List.find (fun e => String.eqb (fst e) ch) upper_table = None)
  \/ (exists e, fst e = ch /\ upper_char ch = snd e /\ upper_entry_ok e = true).
Proof.
  unfold upper_char.
  destruct (List.find _ upper_table) as [e|] eqn:E; [right|by left].
  apply find_some in E as [Hin Heq]. apply String.eqb_eq in Heq.
  exists e. split; [done|]. split; [done|].
  exact (proj1 (forallb_forall _ _) upper_table_ok e Hin).
Qed.

Lemma upper_entry_values e :
  upper_entry_ok e = true ->
  isspace (fst e) = false /\ fst e <> "," /\ snd e <> []
  /\ Forall (fun v => isspace v = false /\ v <> "," /\ upper_char v = [v])
       (snd e).
Proof.
  unfold upper_entry_ok.
  intros [[[Hs Hc]%andb_true_iff Ht]%andb_true_iff Hv]%andb_true_iff.
  split; [by apply negb_true_iff|]. split.
  { apply negb_true_iff in Hc. by apply String.eqb_neq. }
  split; [by destruct (snd e)|].
  apply Forall_forall. intros v Hin%list_elem_of_In.
  pose proof (proj1 (forallb_forall _ _) Hv v Hin) as H.
  apply andb_true_iff in H as [[H1 H2]%andb_true_iff H3].
  split; [by apply negb_true_iff|]. split.
  { apply negb_true_iff in H2. by apply String.eqb_neq. }
  unfold upper_char. by destruct (List.find _ upper_table).
Qed.

Lemma upper_char_nonempty ch : upper_char ch <> [].
Proof.
  destruct (upper_char_cases ch) as [[-> _]|(e & _ & -> & He)]; [done|].
  apply (upper_entry_values e He).
Qed.

Lemma upper_char_space ch : isspace ch = true -> upper_char ch = [ch].
Proof.
  intros Hs. destruct (upper_char_cases ch) as [[-> _]|(e & <- & _ & He)]; [done|].
  destruct (upper_entry_values e He) as (Hk & _). congruence.
Qed.

Lemma upper_char_comma : upper_char "," = [","].
Proof. by vm_compute. Qed.

(** What [str.upper] makes of a character that is neither white space
    nor a comma is neither, and is left alone by [str.upper]. *)
Lemma upper_char_values ch :
  isspace ch = false ->
  Forall (fun v => isspace v = false /\ (ch <> "," -> v <> ",")
                   /\ upper_char v = [v]) (upper_char ch).
Proof.
  intros Hs. destruct (upper_char_cases ch) as [[H Hnone]|(e & <- & -> & He)].
  - rewrite H. constructor; [|constructor]. by rewrite H.
  - destruct (upper_entry_values e He) as (_ & _ & _ & Hv).
    eapply Forall_impl; [exact Hv|]. intros v (H1 & H2 & H3). done.
Qed.

Lemma upper_char_fixed ch : Forall (fun v => upper_char v = [v]) (upper_char ch).
Proof.
  destruct (upper_char_cases ch) as [[H Hnone]|(e & <- & -> & He)].
  - rewrite H. by repeat constructor.
  - destruct (upper_entry_values e He) as (_ & _ & _ & Hv).
    eapply Forall_impl; [exact Hv|]. by intros v (_ & _ & H3).
Qed.

Lemma upper_app a b : upper (a ++ b) = upper a ++ upper b.
Proof.
  induction a as [|ch a IH]; [done|]. cbn [upper Datatypes.app].
  by rewrite IH, app_assoc.
Qed.

Lemma truthy_upper s : truthy (upper s) = truthy s.
Proof.
  destruct s as [|ch s]; [done|]. cbn [upper].
  pose proof (upper_char_nonempty ch). by destruct (upper_char ch).
Qed.

Lemma upper_fixed l : Forall (fun v => upper_char v = [v]) l -> upper l = l.
Proof. induction 1 as [|v l Hv _ IH]; [done|]. cbn [upper]. by rewrite Hv, IH. Qed.

Lemma upper_idem s : upper (upper s) = upper s.
Proof.
  induction s as [|ch s IH]; [done|]. cbn [upper].
  by rewrite upper_app, IH, (upper_fixed _ (upper_char_fixed ch)).
Qed.

Lemma contains_app ch a b : contains ch (a ++ b) = contains ch a || contains ch b.
Proof. apply existsb_app. Qed.

Lemma contains_upper_char ch :
  contains "," (upper_char ch) = String.eqb "," ch.
Proof.
  destruct (String.eqb_spec "," ch) as [<-|Hne]; [by rewrite upper_char_comma|].
  destruct (isspace ch) eqn:Hs.
  - rewrite (upper_char_space ch Hs). cbn [contains existsb].
    rewrite orb_false_r. by apply String.eqb_neq.
  - pose proof (upper_char_values ch Hs) as Hv.
    induction Hv as [|v l (_ & Hv & _) _ IH]; [done|]. cbn [contains existsb].
    fold (contains "," l). rewrite IH, orb_false_r.
    apply String.eqb_neq. intros Heq. apply Hv; congruence.
Qed.

Lemma contains_upper s : contains "," (upper s) = contains "," s.
Proof.
  induction s as [|ch s IH]; [done|]. cbn [upper].
  rewrite contains_app, contains_upper_char, IH. done.
Qed.

Lemma lstrip_clean_app u t :
  u <> [] -> Forall (fun v => isspace v = false) u -> lstrip (u ++ t) = u ++ t.
Proof. intros Hne Hu. destruct Hu as [|v u Hv _]; [done|]. cbn [Datatypes.app lstrip]. by rewrite Hv. Qed.

Lemma lstrip_upper s : lstrip (upper s) = upper (lstrip s).
Proof.
  induction s as [|ch s IH]; [done|]. cbn [upper lstrip].
  destruct (isspace ch) eqn:Hs.
  - rewrite (upper_char_space ch Hs). cbn [Datatypes.app lstrip]. by rewrite Hs.
  - cbn [upper]. apply lstrip_clean_app; [apply upper_char_nonempty|].
    eapply Forall_impl; [exact (upper_char_values ch Hs)|]. by intros v (H & _).
Qed.

Lemma rstrip_cons ch s :
  rstrip (ch :: s)
  = match rstrip s with
    | [] => if isspace ch then [] else [ch]
    | r => ch :: r
    end.
Proof. reflexivity. Qed.

Lemma rstrip_clean_app u t :
  Forall (fun v => isspace v = false) u -> rstrip (u ++ t) = u ++ rstrip t.
Proof.
  induction 1 as [|v u Hv _ IH]; [done|].
  cbn [Datatypes.app]. rewrite rstrip_cons, IH.
  destruct (u ++ rstrip t) eqn:E; [by rewrite Hv|done].
Qed.

Lemma rstrip_upper s : rstrip (upper s) = upper (rstrip s).
Proof.
  induction s as [|ch s IH]; [done|]. cbn [upper]. rewrite (rstrip_cons ch s).
  destruct (isspace ch) eqn:Hs.
  - rewrite (upper_char_space ch Hs). cbn [Datatypes.app].
    rewrite rstrip_cons, IH, Hs.
    pose proof (truthy_upper (rstrip s)) as Ht.
    destruct (rstrip s) as [|x r]; [done|].
    cbn [upper] in *. rewrite (upper_char_space ch Hs). cbn [Datatypes.app].
    by destruct (upper_char x ++ upper r).
  - rewrite rstrip_clean_app, IH.
    + by destruct (rstrip s); cbn [upper]; rewrite ?app_nil_r.
    + eapply Forall_impl; [exact (upper_char_values ch Hs)|]. by intros v (H & _).
Qed.

Lemma strip_upper s : strip (upper s) = upper (strip s).
Proof. unfold strip. by rewrite lstrip_upper, rstrip_upper. Qed.

Lemma lstrip_starts_clean s : starts_clean (lstrip s).
Proof.
  induction s as [|c s IH]; [done|]. cbn [lstrip].
  by destruct (isspace c) eqn:E.
Qed.

Lemma lstrip_clean s : starts_clean s -> lstrip s = s.
Proof. destruct s as [|c s]; [done|]. cbn [starts_clean lstrip]. by intros ->. Qed.

Lemma rstrip_starts_clean s : starts_clean s -> starts_clean (rstrip s).
Proof.
  destruct s as [|c s]; [done|]. cbn [starts_clean]. rewrite rstrip_cons.
  intros Hc. destruct (rstrip s); [by rewrite Hc|done].
Qed.

Lemma rstrip_idem s : rstrip (rstrip s) = rstrip s.
Proof.
  induction s as [|c s IH]; [done|]. rewrite (rstrip_cons c s).
  destruct (rstrip s) as [|d r] eqn:E.
  - destruct (isspace c) eqn:Hc; [done|]. rewrite rstrip_cons. cbn [rstrip].
    by rewrite Hc.
  - by rewrite rstrip_cons, IH.
Qed.

Lemma strip_idem s : strip (strip s) = strip s.
Proof.
  unfold strip.
  rewrite (lstrip_clean (rstrip (lstrip s)))
    by apply rstrip_starts_clean, lstrip_starts_clean.
  apply rstrip_idem.
Qed.

Lemma contains_lstrip c s : contains c s = false -> contains c (lstrip s) = false.
Proof.
  induction s as [|x s IH]; [done|]. cbn [lstrip].
  intros H. destruct (isspace x); [|done].
  cbn [contains existsb] in H. apply orb_false_iff in H as [_ H]. by apply IH.
Qed.

Lemma contains_rstrip c s : contains c s = false -> contains c (rstrip s) = false.
Proof.
  induction s as [|x s IH]; [done|]. rewrite rstrip_cons.
  cbn [contains existsb]. intros [Hx Hs]%orb_false_iff. specialize (IH Hs).
  destruct (rstrip s) as [|d r].
  - destruct (isspace x); [done|]. cbn [contains existsb]. by rewrite Hx.
  - cbn [contains existsb] in *. by rewrite Hx, IH.
Qed.

Lemma contains_strip c s : contains c s = false -> contains c (strip s) = false.
Proof. intros H. by apply contains_rstrip, contains_lstrip. Qed.

(** No piece of a split holds the separator. *)
Lemma split_pieces c s :
  Forall (fun p => contains c p = false) (split c s).
Proof.
  induction s as [|x s IH]; [by repeat constructor|]. cbn [split].
  destruct (String.eqb x c) eqn:E; [by constructor|].
  assert (String.eqb c x = false) as E' by (by rewrite String.eqb_sym).
  destruct (split c s) as [|w ws];
    [by repeat constructor; cbn [contains existsb]; rewrite E'|].
  apply Forall_cons in IH as [Hw Hws]. constructor; [|done].
  cbn [contains existsb]. fold (contains c w). by rewrite E', Hw.
Qed.

Lemma split_nonempty c s : split c s <> [].
Proof.
  induction s as [|x s IH]; [done|]. cbn [split].
  destruct (String.eqb x c); [done|]. by destruct (split c s).
Qed.

Lemma split_whole c a : contains c a = false -> split c a = [a].
Proof.
  induction a as [|x a IH]; [done|]. cbn [contains existsb split].
  intros [Hx Ha]%orb_false_iff. rewrite String.eqb_sym in Hx.
  by rewrite Hx, (IH Ha).
Qed.

Lemma split_app c a t :
  contains c a = false -> split c (a ++ c :: t) = a :: split c t.
Proof.
  induction a as [|x a IH].
  - intros _. cbn [Datatypes.app split]. by rewrite String.eqb_refl.
  - cbn [contains existsb]. intros [Hx Ha]%orb_false_iff.
    rewrite String.eqb_sym in Hx.
    cbn [Datatypes.app split]. by rewrite Hx, (IH Ha).
Qed.

Lemma strip_skip_space c w : isspace c = true -> strip (c :: w) = strip w.
Proof. intros H. unfold strip. cbn [lstrip]. by rewrite H. Qed.

Lemma truthy_strip_cons c w :
  truthy (strip (c :: w)) = negb (isspace c) || truthy (strip w).
Proof.
  destruct (isspace c) eqn:Hc.
  - by rewrite strip_skip_space.
  - unfold strip at 1. cbn [lstrip]. rewrite Hc, rstrip_cons.
    destruct (rstrip w); [by rewrite Hc|done].
Qed.

(** *** The characters of a text *)

Lemma chars_cons c s :
  chars (String c s)
  = match chars s with
    | ch :: rest =>
        if continues s && negb (is_ascii c)
        then String c ch :: rest
        else String c EmptyString :: ch :: rest
    | [] => [String c EmptyString]
    end.
Proof. reflexivity. Qed.

Lemma chars_nonempty c s : chars (String c s) <> [].
Proof.
  rewrite chars_cons. destruct (chars s); [done|].
  by destruct (continues s && negb (is_ascii c)).
Qed.

Lemma string_app_cons (c : ascii) (a b : string) :
  (String c a ++ b)%string = String c (a ++ b).
Proof. reflexivity. Qed.

Lemma encode_chars s : encode (chars s) = s.
Proof.
  induction s as [|c s IH]; [done|]. rewrite chars_cons.
  destruct (chars s) as [|ch rest].
  - cbn in IH. by rewrite <- IH.
  - cbn [encode fold_right] in IH.
    destruct (continues s && negb (is_ascii c)); cbn [encode fold_right];
      rewrite ?string_app_cons; by rewrite <- IH.
Qed.

(** A character below 128 stands by itself. *)
Lemma chars_ascii c s :
  is_ascii c = true -> chars (String c s) = String c EmptyString :: chars s.
Proof.
  intros Hc. rewrite chars_cons, Hc, andb_false_r. by destruct (chars s).
Qed.

(** The characters of two texts put together, when the second does not
    start with a continuation byte. *)
Lemma chars_app (a b : string) :
  continues b = false -> chars (a ++ b) = chars a ++ chars b.
Proof.
  intros Hb. induction a as [|c a IH]; [done|].
  rewrite string_app_cons, !chars_cons, IH.
  destruct a as [|d a].
  - change (EmptyString ++ b)%string with b. rewrite Hb.
    cbn [chars Datatypes.app andb]. by destruct (chars b).
  - pose proof (chars_nonempty d a) as Hne.
    change (continues (String d a ++ b)) with (continues (String d a)).
    destruct (chars (String d a)) as [|ch rest]; [done|].
    cbn [Datatypes.app]. by destruct (continues (String d a) && negb (is_ascii c)).
Qed.

End Characters.

Section SpecWording.

Import PyStr.

(** Reading the entries with an accumulator gives the pieces of
    [str.split]. *)
Lemma entries_split entry text :
  Spec.entries entry text
  = match split "," text with
    | piece :: pieces => (entry ++ piece) :: pieces
    | [] => [entry]
    end.
Proof.
  revert entry. induction text as [|ch text IH]; intros entry.
  - cbn. by rewrite app_nil_r.
  - cbn [Spec.entries split]. destruct (String.eqb ch ",").
    + rewrite app_nil_r. f_equal. rewrite IH.
      pose proof (split_nonempty "," text). by destruct (split "," text).
    + rewrite IH. pose proof (split_nonempty "," text).
      destruct (split "," text); [done|]. by rewrite <- app_assoc.
Qed.

Lemma leading_whitespace_le s : (Spec.leading_whitespace s <= length s)%nat.
Proof.
  induction s as [|ch s IH]; [done|]. cbn [Spec.leading_whitespace length].
  destruct (isspace ch); lia.
Qed.

Lemma lstrip_skipn s : lstrip s = skipn (Spec.leading_whitespace s) s.
Proof.
  induction s as [|ch s IH]; [done|]. cbn [lstrip Spec.leading_whitespace].
  by destruct (isspace ch).
Qed.

Lemma rstrip_snoc t ch :
  rstrip (t ++ [ch]) = if isspace ch then rstrip t else t ++ [ch].
Proof.
  induction t as [|x t IH].
  - cbn [Datatypes.app]. rewrite rstrip_cons. cbn [rstrip]. done.
  - cbn [Datatypes.app]. rewrite !rstrip_cons, IH.
    destruct (isspace ch); [done|]. by destruct t.
Qed.

Lemma rstrip_firstn t :
  rstrip t = firstn (length t - Spec.leading_whitespace (rev t)) t.
Proof.
  induction t as [|ch t IH] using rev_ind; [done|].
  rewrite rstrip_snoc, rev_unit, length_app. cbn [Spec.leading_whitespace length].
  destruct (isspace ch).
  - rewrite IH.
    replace (length t + 1 - S (Spec.leading_whitespace (rev t)))%nat
      with (length t - Spec.leading_whitespace (rev t))%nat by lia.
    rewrite firstn_app.
    replace (length t - Spec.leading_whitespace (rev t) - length t)%nat
      with 0%nat by lia.
    by rewrite app_nil_r.
  - rewrite Nat.sub_0_r. symmetry. apply firstn_all2. rewrite length_app. cbn. lia.
Qed.

(** White space at the start is counted up to the first other
    character. *)
Lemma leading_whitespace_app a b :
  (Spec.leading_whitespace a < length a)%nat ->
  Spec.leading_whitespace (a ++ b) = Spec.leading_whitespace a.
Proof.
  induction a as [|ch a IH]; [cbn; lia|].
  cbn [Datatypes.app Spec.leading_whitespace length].
  destruct (isspace ch); [|done]. intros H. rewrite IH; [done|lia].
Qed.

Lemma leading_whitespace_snoc a ch :
  isspace ch = false ->
  (Spec.leading_whitespace (a ++ [ch]) < length (a ++ [ch]))%nat.
Proof.
  intros Hch. induction a as [|x a IH].
  - cbn [Datatypes.app Spec.leading_whitespace length]. rewrite Hch. lia.
  - cbn [Datatypes.app Spec.leading_whitespace length]. destruct (isspace x); lia.
Qed.

(** Trimming by counting is [str.strip]. *)
Lemma trim_strip s : Spec.trim s = strip s.
Proof.
  unfold Spec.trim, strip. rewrite rstrip_firstn, lstrip_skipn.
  set (n := Spec.leading_whitespace s).
  pose proof (lstrip_starts_clean s) as Hclean. rewrite lstrip_skipn in Hclean.
  fold n in Hclean. rewrite length_skipn.
  destruct (skipn n s) as [|h u] eqn:Hu; [by rewrite !firstn_nil|].
  cbn [starts_clean] in Hclean. f_equal. f_equal.
  replace (rev s) with (rev (h :: u) ++ rev (firstn n s))
    by (by rewrite <- rev_app_distr, <- Hu, firstn_skipn).
  rewrite leading_whitespace_app; [done|].
  cbn [rev]. by apply leading_whitespace_snoc.
Qed.

Lemma upper_case_upper s : Spec.upper_case s = upper s.
Proof.
  unfold Spec.upper_case.
  induction s as [|ch s IH]; [done|]. cbn [List.map List.concat upper].
  by rewrite IH.
Qed.

Lemma is_empty_truthy s : negb (Spec.is_empty s) = truthy s.
Proof. by destruct s. Qed.

(** Filtering before the entries are trimmed and upper-cased, as the
    comprehension does, or after, as the specification says. *)
Lemma comprehension_as_pipeline l :
  List.map (fun sym => upper (strip sym))
    (List.filter (fun sym => truthy (strip sym)) l)
  = List.filter (fun entry => negb (Spec.is_empty entry))
      (List.map Spec.upper_case (List.map Spec.trim l)).
Proof.
  induction l as [|s l IH]; [done|]. cbn [List.map List.filter].
  rewrite trim_strip, upper_case_upper, is_empty_truthy, truthy_upper.
  destruct (truthy (strip s)); cbn [List.map]; by rewrite IH.
Qed.

End SpecWording.

(** C9: for every text typed into the box, the list of line 15 is the
    list the specification describes: the text split at its commas,
    every entry trimmed of white space at both ends and upper-cased, the
    empty entries dropped, the others in their order.  White space and
    upper case are Python's, on every character of Unicode. *)
Theorem symbols_of_refines_spec (symbol_input : string) :
  symbols_of symbol_input = resolve_symbols_spec symbol_input.
Proof.
  unfold symbols_of, resolve_symbols_spec, symbols. f_equal.
  rewrite entries_split.
  pose proof (split_nonempty "," (PyStr.chars symbol_input)) as Hne.
  destruct (PyStr.split "," (PyStr.chars symbol_input)) as [|p ps] eqn:E; [done|].
  cbn [Datatypes.app]. apply comprehension_as_pipeline.
Qed.

Lemma symbols_of_refines_spec_witness :
  resolve_symbols_spec accented_input = ["AAPL"; "É"; "STRASSE"; "Ǆ"].
Proof.
  rewrite <- (symbols_of_refines_spec accented_input). vm_compute. reflexivity.
Defined.

(** The scenario texts: the default, and a text with blanks, lower case
    and empty entries. *)
Example symbols_default :
  symbols_of (Text.join ", " default_symbols) = ["AAPL"; "MSFT"; "GOOGL"].
Proof. vm_compute. reflexivity. Qed.

Example symbols_messy :
  symbols_of " aapl ,, msft,  ,Goog " = ["AAPL"; "MSFT"; "GOOG"].
Proof. vm_compute. reflexivity. Qed.

Example symbols_accented :
  symbols_of accented_input = ["AAPL"; "É"; "STRASSE"; "Ǆ"]
  /\ PyStr.chars accented_input
     = [PyStr.utf8 0xA0; "a"; "a"; "p"; "l"; " "; ","; "é"; PyStr.utf8 0x3000;
        ","; " "; "s"; "t"; "r"; "a"; "ß"; "e"; ","; ","; "ǆ"; " "].
Proof. split; vm_compute; reflexivity. Qed.

(** ** Control flow: empty input and failed fetch *)

Section Control.

Variable format_value : cell -> string.
Variable load_stock_data : list string -> date -> date -> fetched.

Lemma page_setup_quiet inp :
  Forall (fun e => is_fetch_call e = false /\ is_error e = false /\
                   is_output e = false)
    (trace_of (page_setup inp))
  /\ outcome_of (page_setup inp) = Done tt.
Proof. split; [|done]. cbn. repeat constructor. Qed.

Lemma app_trace inp :
  trace_of (app format_value load_stock_data inp)
  = trace_of (page_setup inp)
    ++ trace_of (body format_value load_stock_data inp).
Proof.
  unfold app. cbn.
  by destruct (body format_value load_stock_data inp) as [log r].
Qed.

Lemma app_outcome inp :
  outcome_of (app format_value load_stock_data inp)
  = outcome_of (body format_value load_stock_data inp).
Proof.
  unfold app. cbn.
  by destruct (body format_value load_stock_data inp) as [log r].
Qed.

(** C8: when the normalised symbol list is empty, everything the script
    does below the page header and the sidebar widgets is one warning
    that asks for a symbol; the run ends normally, the fetch is not
    called and no error is shown. *)
Theorem empty_symbols_only_prompt (inp : Inputs) :
  symbols_of (symbol_input inp) = [] ->
  body format_value load_stock_data inp
  = ([warning "👈 Please enter at least one valid stock symbol."], Done tt)
  /\ outcome_of (app format_value load_stock_data inp) = Done tt
  /\ Forall (fun e => is_fetch_call e = false /\ is_error e = false /\
                      is_output e = false)
       (trace_of (app format_value load_stock_data inp)).
Proof.
  intros Hsym.
  assert (Hbody : body format_value load_stock_data inp
                  = ([warning "👈 Please enter at least one valid stock symbol."],
                     Done tt)).
  { unfold body. by rewrite Hsym. }
  split; [exact Hbody|]. split.
  - by rewrite app_outcome, Hbody.
  - rewrite app_trace, Hbody. apply Forall_app. split.
    + apply page_setup_quiet.
    + by repeat constructor.
Qed.

Lemma body_failed (inp : Inputs) (message : string) :
  symbols_of (symbol_input inp) <> [] ->
  load_stock_data (symbols_of (symbol_input inp))
    (start_date inp) (end_date inp) = Failed message ->
  body format_value load_stock_data inp
  = ([spinner "⏳ Loading data...";
      load_stock_data_call (symbols_of (symbol_input inp))
        (start_date inp) (end_date inp);
      error ("Failed to fetch stock data: " ++ message)], Stopped).
Proof.
  intros Hne Hfail. unfold body.
  destruct (symbols_of (symbol_input inp)) as [|s rest] eqn:E; [done|].
  unfold fetch. rewrite Hfail. reflexivity.
Qed.

(** C6: when the fetch raises, the script shows one error message that
    carries the text of the failure and stops: after the spinner and
    the fetch call the log holds that message and nothing else, so no
    table, chart or download button is produced. *)
Theorem failed_fetch_stops (inp : Inputs) (message : string) :
  symbols_of (symbol_input inp) <> [] ->
  load_stock_data (symbols_of (symbol_input inp))
    (start_date inp) (end_date inp) = Failed message ->
  body format_value load_stock_data inp
  = ([spinner "⏳ Loading data...";
      load_stock_data_call (symbols_of (symbol_input inp))
        (start_date inp) (end_date inp);
      error ("Failed to fetch stock data: " ++ message)], Stopped)
  /\ outcome_of (app format_value load_stock_data inp) = Stopped
  /\ length (List.filter is_error
               (trace_of (app format_value load_stock_data inp))) = 1%nat
  /\ List.filter is_output
       (trace_of (app format_value load_stock_data inp)) = [].
Proof.
  intros Hne Hfail. pose proof (body_failed inp message Hne Hfail) as Hbody.
  split; [exact Hbody|]. split; [by rewrite app_outcome, Hbody|].
  rewrite app_trace, Hbody. split; reflexivity.
Qed.

End Control.

(** ** Frames *)

Section Frames.

Lemma col_pos_head c cs : col_pos c (c :: cs) = Some 0%nat.
Proof. cbn. by rewrite String.eqb_refl. Qed.

Lemma col_pos_tail c c' cs :
  c <> c' -> col_pos c' (c :: cs) = S <$> col_pos c' cs.
Proof.
  intros Hne. cbn. destruct (String.eqb_spec c c') as [->|_]; [done|].
  by destruct (col_pos c' cs).
Qed.

Lemma col_pos_None name cols : name ∉ cols -> col_pos name cols = None.
Proof.
  induction cols as [|c cs IH]; [done|].
  rewrite not_elem_of_cons. intros [Hne Hnot].
  rewrite col_pos_tail by congruence. by rewrite IH.
Qed.

Lemma col_pos_Some name cols p :
  col_pos name cols = Some p -> cols !! p = Some name.
Proof.
  revert p. induction cols as [|c cs IH]; intros p; [done|].
  cbn. destruct (String.eqb_spec c name) as [->|Hne].
  - by intros [= <-].
  - destruct (col_pos name cs) as [q|]; [|done].
    intros [= <-]. cbn. by apply IH.
Qed.

Lemma has_column_false name cols : name ∉ cols -> has_column name cols = false.
Proof. intros H. unfold has_column. by rewrite col_pos_None. Qed.

Lemma has_column_true name cols : name ∈ cols -> has_column name cols = true.
Proof.
  induction cols as [|c cs IH]; [by intros ?%elem_of_nil|].
  unfold has_column in *. cbn. destruct (String.eqb_spec c name) as [->|Hne]; [done|].
  rewrite elem_of_cons. intros [->|Hin]; [done|].
  specialize (IH Hin). by destruct (col_pos name cs).
Qed.

Lemma length_range_index_from i data :
  length (range_index_from i data) = length data.
Proof. revert i. induction data as [|r rs IH]; intros i; cbn; [done|]. by rewrite IH. Qed.

Lemma snd_range_index_from i data :
  List.map snd (range_index_from i data) = data.
Proof. revert i. induction data as [|r rs IH]; intros i; cbn; [done|]. by rewrite IH. Qed.

Lemma range_index_from_lookup i data k row :
  data !! k = Some row ->
  range_index_from i data !! k = Some (Int (Z.of_nat (i + k)), row).
Proof.
  revert i k. induction data as [|r rs IH]; intros i k; [done|].
  destruct k as [|k]; cbn [range_index_from].
  - intros [= ->]. cbn. by rewrite Nat.add_0_r.
  - intros H. rewrite lookup_cons. rewrite (IH (S i) k H).
    do 3 f_equal. lia.
Qed.

(** Re-laying a row on its own columns changes nothing. *)
Lemma realign_same cols vals :
  NoDup cols -> length vals = length cols -> realign cols cols vals = vals.
Proof.
  unfold realign. revert vals.
  induction cols as [|c cs IH]; intros vals Hnd Hlen.
  - by destruct vals.
  - destruct vals as [|v vs]; [done|].
    apply NoDup_cons in Hnd as [Hnot Hnd]. cbn [List.map].
    rewrite col_pos_head. cbn [nth]. f_equal.
    etransitivity; [|apply (IH vs Hnd); cbn in Hlen; lia].
    apply map_ext_in. intros c' Hin%list_elem_of_In.
    rewrite col_pos_tail by (intros ->; done).
    by destruct (col_pos c' cs).
Qed.

Lemma Forall_range_index_from (P : list cell -> Prop) i data :
  Forall P data -> Forall (fun r => P (snd r)) (range_index_from i data).
Proof.
  intros H. revert i. induction H as [|row data Hrow _ IH]; intros i; cbn;
    constructor; [done|apply IH].
Qed.

Lemma table_data cols data : List.map snd (rows (table cols data)) = data.
Proof. apply snd_range_index_from. Qed.

Lemma nrows_table cols data : nrows (table cols data) = length data.
Proof. apply length_range_index_from. Qed.

Lemma nrows_concat a b : nrows (concat a b) = (nrows a + nrows b)%nat.
Proof.
  unfold nrows, concat, range_index. cbn.
  by rewrite length_range_index_from, length_app, !length_map.
Qed.

Lemma nrows_setitem df name g : nrows (setitem df name g) = nrows df.
Proof.
  unfold nrows, setitem. destruct (col_pos name (columns df)); cbn;
    by rewrite length_map.
Qed.

Lemma filter_has_column_self cols :
  List.filter (fun c => negb (has_column c cols)) cols = [].
Proof.
  assert (H : forall l, (forall c, c ∈ l -> c ∈ cols) ->
            List.filter (fun c => negb (has_column c cols)) l = []).
  { induction l as [|c l IH]; intros Hsub; [done|]. cbn.
    rewrite has_column_true by (apply Hsub; left). cbn.
    apply IH. intros c' Hc'. apply Hsub. by right. }
  by apply H.
Qed.

Lemma filter_has_column_nil cols :
  List.filter (fun c => negb (has_column c [])) cols = cols.
Proof.
  induction cols as [|c cs IH]; [done|].
  cbn [List.filter]. change (has_column c []) with false. cbn [negb].
  by rewrite IH.
Qed.

End Frames.

(** ** Shaping the multi-symbol table *)

Section Shaping.

Variable by_ticker : gmap string DataFrame.

Lemma first_absent_Some symbols k :
  first_absent by_ticker symbols = Some k ->
  k ∈ symbols /\ by_ticker !! k = None.
Proof.
  induction symbols as [|s rest IH]; [done|]. cbn.
  destruct (by_ticker !! s) eqn:E.
  - intros H. destruct (IH H) as [Hin Hk]. split; [by right|done].
  - intros [= <-]. split; [by left|done].
Qed.

Lemma first_absent_None symbols :
  first_absent by_ticker symbols = None <->
  forall s, s ∈ symbols -> is_Some (by_ticker !! s).
Proof.
  induction symbols as [|s rest IH]; cbn.
  - split; [|done]. by intros _ s ?%elem_of_nil.
  - destruct (by_ticker !! s) eqn:E.
    + rewrite IH. split.
      * intros H s' [->|Hin]%elem_of_cons; [by rewrite E|by apply H].
      * intros H s' Hin. apply H. by right.
    + split; [done|]. intros H.
      destruct (H s) as [f Hf]; [by left|congruence].
Qed.

Lemma shape_loop_absent symbols k df :
  first_absent by_ticker symbols = Some k ->
  shape_loop (Multiple by_ticker) symbols df = Err (KeyError k).
Proof.
  revert df. induction symbols as [|s rest IH]; intros df; [done|]. cbn.
  destruct (by_ticker !! s) eqn:E; [apply IH|]. by intros [= <-].
Qed.

Lemma shape_loop_present symbols df :
  first_absent by_ticker symbols = None ->
  exists df', shape_loop (Multiple by_ticker) symbols df = Ok df'.
Proof.
  revert df. induction symbols as [|s rest IH]; intros df; cbn.
  - by exists df.
  - destruct (by_ticker !! s) eqn:E; [apply IH|done].
Qed.

Lemma shape_loop_nrows symbols df df' :
  shape_loop (Multiple by_ticker) symbols df = Ok df' ->
  nrows df' = (nrows df + total_rows by_ticker symbols)%nat.
Proof.
  revert df. induction symbols as [|s rest IH]; intros df; cbn.
  - intros [= ->]. unfold total_rows. cbn. lia.
  - unfold total_rows, series. cbn. destruct (by_ticker !! s) as [f|] eqn:E; [|done].
    intros H. rewrite (IH _ H), nrows_concat. unfold tag, copy.
    rewrite !nrows_setitem. unfold nrows, total_rows, series. lia.
Qed.

Lemma tagged_rows_cons s f rest :
  by_ticker !! s = Some f ->
  tagged_rows by_ticker (s :: rest)
  = List.map (fun r => snd r ++ [Str s; fst r]) (rows f)
    ++ tagged_rows by_ticker rest.
Proof. intros Hf. unfold tagged_rows, series. cbn. by rewrite Hf. Qed.

Lemma shape_loop_cons s f rest df :
  by_ticker !! s = Some f ->
  shape_loop (Multiple by_ticker) (s :: rest) df
  = shape_loop (Multiple by_ticker) rest (concat df (tag s f)).
Proof. intros Hf. cbn. by rewrite Hf. Qed.

Lemma tag_shared cols s f :
  columns f = cols -> "Symbol" ∉ cols -> "Date" ∉ cols ->
  tag s f = {| index_name := index_name f;
               columns := cols ++ ["Symbol"; "Date"];
               rows := List.map (fun r => (fst r, snd r ++ [Str s; fst r]))
                         (rows f) |}.
Proof.
  intros Hc Hs Hd. unfold tag, setitem at 2. rewrite Hc, (col_pos_None _ _ Hs).
  unfold setitem. cbn [columns rows index_name].
  rewrite col_pos_None.
  - f_equal; [by rewrite <- app_assoc|].
    rewrite map_map. apply map_ext. intros r. cbn. by rewrite <- app_assoc.
  - rewrite elem_of_app, list_elem_of_singleton. intros [?|?]; [done|congruence].
Qed.

Lemma concat_shared cols a b :
  NoDup cols ->
  (columns a = cols \/ (columns a = [] /\ rows a = [])) ->
  columns b = cols ->
  Forall (fun r => length (snd r) = length cols) (rows a) ->
  Forall (fun r => length (snd r) = length cols) (rows b) ->
  concat a b = table cols (List.map snd (rows a) ++ List.map snd (rows b)).
Proof.
  intros Hnd Ha Hb Hwa Hwb. unfold concat, table. rewrite Hb.
  assert (Hcols : columns a ++
            List.filter (fun c => negb (has_column c (columns a))) cols = cols).
  { destruct Ha as [->|[-> _]].
    - by rewrite filter_has_column_self, app_nil_r.
    - by rewrite filter_has_column_nil. }
  rewrite Hcols. do 2 f_equal. f_equal.
  - destruct Ha as [Ha|[_ ->]]; [|done]. rewrite Ha.
    apply map_ext_in. intros r Hin%list_elem_of_In.
    apply realign_same; [done|]. by apply (proj1 (Forall_forall _ _) Hwa).
  - apply map_ext_in. intros r Hin%list_elem_of_In.
    apply realign_same; [done|]. by apply (proj1 (Forall_forall _ _) Hwb).
Qed.

End Shaping.

Lemma col_pos_app_r name (cols l : list string) :
  name ∉ cols ->
  col_pos name (cols ++ l) = (fun p => (length cols + p)%nat) <$> col_pos name l.
Proof.
  induction cols as [|c cs IH]; intros Hnot.
  - cbn. by destruct (col_pos name l).
  - apply not_elem_of_cons in Hnot as [Hne Hnot]. cbn [Datatypes.app].
    rewrite col_pos_tail by congruence. rewrite (IH Hnot).
    by destruct (col_pos name l).
Qed.

Section ShapingUniform.

Variable by_ticker : gmap string DataFrame.
Variable cols : list string.
Hypothesis cols_nodup : NoDup cols.
Hypothesis cols_no_symbol : "Symbol" ∉ cols.
Hypothesis cols_no_date : "Date" ∉ cols.

Local Abbreviation out_cols := (cols ++ ["Symbol"; "Date"]).

Lemma out_cols_nodup : NoDup out_cols.
Proof.
  apply NoDup_app. split; [done|]. split.
  - intros c Hc [->|[->|?%elem_of_nil]%elem_of_cons]%elem_of_cons; done.
  - apply NoDup_cons. split; [|apply NoDup_singleton].
    rewrite list_elem_of_singleton. congruence.
Qed.

Lemma tagged_length s f :
  columns f = cols -> well_formed f ->
  Forall (fun row : list cell => length row = length out_cols)
    (List.map (fun r => snd r ++ [Str s; fst r]) (rows f)).
Proof using Type.
  intros Hc Hwf. apply Forall_map. unfold well_formed in Hwf.
  rewrite Hc in Hwf. eapply Forall_impl; [exact Hwf|].
  intros r Hr. cbn. rewrite !length_app, Hr. done.
Qed.

Lemma tagged_rows_length symbols :
  uniform by_ticker cols symbols ->
  Forall (fun row : list cell => length row = length out_cols)
    (tagged_rows by_ticker symbols).
Proof using Type.
  induction symbols as [|s rest IH]; intros Hu; [constructor|].
  unfold tagged_rows. cbn [flat_map]. apply Forall_app. split.
  - destruct (Hu s) as (f & Hf & Hc & Hwf); [by left|].
    unfold series. rewrite Hf. by apply tagged_length.
  - apply IH. intros s' Hs'. apply Hu. by right.
Qed.

Lemma shape_loop_shared symbols data :
  uniform by_ticker cols symbols ->
  Forall (fun row : list cell => length row = length out_cols) data ->
  shape_loop (Multiple by_ticker) symbols (table out_cols data)
  = Ok (table out_cols (data ++ tagged_rows by_ticker symbols)).
Proof using cols_nodup cols_no_symbol cols_no_date.
  revert data. induction symbols as [|s rest IH]; intros data Hu Hdata.
  - cbn. unfold tagged_rows. cbn. by rewrite app_nil_r.
  - destruct (Hu s) as (f & Hf & Hc & Hwf); [by left|].
    rewrite (shape_loop_cons _ s f _ _ Hf).
    rewrite (tag_shared cols s f Hc cols_no_symbol cols_no_date).
    rewrite (concat_shared out_cols); cbn [columns rows];
      [|apply out_cols_nodup|by left|done| |].
    + rewrite table_data, map_map. cbn [snd].
      rewrite IH.
      * by rewrite (tagged_rows_cons _ s f rest Hf), <- app_assoc.
      * intros s' Hs'. apply Hu. by right.
      * apply Forall_app. split; [done|]. by apply tagged_length.
    + by apply (Forall_range_index_from
                  (fun row => length row = length out_cols)).
    + apply Forall_map. cbn [snd].
      apply (proj1 (Forall_map _ _ _)  (tagged_length s f Hc Hwf)).
Qed.

Lemma shape_multi_shared symbols :
  symbols <> [] ->
  uniform by_ticker cols symbols ->
  shape_multi (Multiple by_ticker) symbols
  = Ok (table out_cols (tagged_rows by_ticker symbols)).
Proof using cols_nodup cols_no_symbol cols_no_date.
  destruct symbols as [|s rest]; [done|]. intros _ Hu.
  destruct (Hu s) as (f & Hf & Hc & Hwf); [by left|].
  unfold shape_multi. rewrite (shape_loop_cons _ s f _ _ Hf).
  rewrite (tag_shared cols s f Hc cols_no_symbol cols_no_date).
  rewrite (concat_shared out_cols); cbn [columns rows];
    [|apply out_cols_nodup|by right|done|constructor|].
  - cbn [empty rows List.map Datatypes.app]. rewrite map_map. cbn [snd].
    rewrite shape_loop_shared.
    + by rewrite (tagged_rows_cons _ s f rest Hf).
    + intros s' Hs'. apply Hu. by right.
    + by apply tagged_length.
  - apply Forall_map. cbn [snd].
    apply (proj1 (Forall_map _ _ _)  (tagged_length s f Hc Hwf)).
Qed.

End ShapingUniform.

Lemma nth_tagged (vals : list cell) (a b : cell) :
  nth (length vals) (vals ++ [a; b]) NaN = a /\
  nth (length vals + 1) (vals ++ [a; b]) NaN = b.
Proof.
  induction vals as [|v vs [IH1 IH2]]; [done|]. cbn. by split.
Qed.

Lemma getitem_table cols data name p :
  col_pos name cols = Some p ->
  getitem (table cols data) name
  = Ok (List.map (fun row => nth p row NaN) data).
Proof.
  intros Hp. unfold getitem. cbn [columns table]. rewrite Hp. f_equal.
  rewrite <- (table_data cols data) at 2. by rewrite map_map.
Qed.

Lemma key_columns_cons (by_ticker : gmap string DataFrame) s f rest :
  by_ticker !! s = Some f ->
  symbol_column by_ticker (s :: rest)
  = List.map (fun _ => Str s) (rows f) ++ symbol_column by_ticker rest
  /\ date_column by_ticker (s :: rest)
     = List.map fst (rows f) ++ date_column by_ticker rest.
Proof.
  intros Hf. unfold symbol_column, date_column, series. cbn. by rewrite Hf.
Qed.

Lemma tagged_columns by_ticker cols symbols :
  uniform by_ticker cols symbols ->
  List.map (fun row => nth (length cols) row NaN) (tagged_rows by_ticker symbols)
  = symbol_column by_ticker symbols
  /\ List.map (fun row => nth (length cols + 1) row NaN)
       (tagged_rows by_ticker symbols)
     = date_column by_ticker symbols.
Proof.
  induction symbols as [|s rest IH]; intros Hu; [done|].
  destruct (Hu s) as (f & Hf & Hc & Hwf); [by left|].
  destruct IH as [IH1 IH2]; [intros s' Hs'; apply Hu; by right|].
  rewrite (tagged_rows_cons _ s f rest Hf), !map_app, IH1, IH2.
  destruct (key_columns_cons by_ticker s f rest Hf) as [-> ->].
  rewrite !map_map. unfold well_formed in Hwf. rewrite Hc in Hwf.
  split; f_equal; apply map_ext_in; intros r Hr%list_elem_of_In;
    rewrite <- (proj1 (Forall_forall _ _) Hwf r Hr); apply nth_tagged.
Qed.

(** ** Sample runs used below *)

Example shape_two_symbols :
  shape_multi (Multiple aapl_msft) ["MSFT"; "AAPL"]
  = Ok (table (ohlcv ++ ["Symbol"; "Date"])
          [[Float 243; Float 246; Float 237; Float 239.5; Int 25740000;
            Str "MSFT"; on_day 19360];
           [Float 130; Float 131; Float 124; Float 125; Int 112117500;
            Str "AAPL"; on_day 19360];
           [Float 127; Float 129; Float 125; Float 126; Int 89113600;
            Str "AAPL"; on_day 19361]]).
Proof. vm_compute. reflexivity. Qed.

(** ** The multi-symbol table: claims *)

Lemma multi_view_raises format_value symbols raw_data e :
  shape_multi raw_data symbols = Err e ->
  multi_view format_value symbols raw_data = ([], Raised e).
Proof. intros H. unfold multi_view. by rewrite H. Qed.

(** C1 (as the code has it): the multi-symbol table is completed exactly
    when every requested symbol is in the fetch result.  A requested
    symbol that the fetch result lacks does not contribute zero rows: the
    lookup of the first such symbol raises a [KeyError], no table is
    built, and the multi-symbol view ends with that exception before it
    shows or exports anything. *)
Theorem absent_symbol_raises (by_ticker : gmap string DataFrame)
    (symbols : list string) :
  ((exists df, shape_multi (Multiple by_ticker) symbols = Ok df) <->
   (forall s, s ∈ symbols -> is_Some (by_ticker !! s)))
  /\ (forall s, s ∈ symbols -> by_ticker !! s = None ->
      exists k, first_absent by_ticker symbols = Some k
        /\ k ∈ symbols /\ by_ticker !! k = None
        /\ shape_multi (Multiple by_ticker) symbols = Err (KeyError k)
        /\ forall format_value,
             multi_view format_value symbols (Multiple by_ticker)
             = ([], Raised (KeyError k))).
Proof.
  assert (Habs : forall k, first_absent by_ticker symbols = Some k ->
            shape_multi (Multiple by_ticker) symbols = Err (KeyError k)).
  { intros k Hk. by apply shape_loop_absent. }
  split.
  - rewrite <- first_absent_None. split.
    + intros [df Hdf]. destruct (first_absent by_ticker symbols) as [k|] eqn:E;
        [|done]. rewrite (Habs k eq_refl) in Hdf. discriminate.
    + intros Hnone. by apply shape_loop_present.
  - intros s Hin Hs.
    destruct (first_absent by_ticker symbols) as [k|] eqn:E.
    + destruct (first_absent_Some _ _ _ E) as [Hk1 Hk2].
      exists k. repeat split; try done; [by apply Habs|].
      intros fmt. apply multi_view_raises. by apply Habs.
    + destruct (proj1 (first_absent_None _ _) E s Hin) as [f Hf]. congruence.
Qed.

Lemma absent_symbol_raises_witness :
  exists k, first_absent only_aapl ["AAPL"; "ZZZZ"] = Some k
    /\ k ∈ ["AAPL"; "ZZZZ"] /\ only_aapl !! k = None
    /\ shape_multi (Multiple only_aapl) ["AAPL"; "ZZZZ"] = Err (KeyError k)
    /\ forall format_value,
         multi_view format_value ["AAPL"; "ZZZZ"] (Multiple only_aapl)
         = ([], Raised (KeyError k)).
Proof.
  apply (proj2 (absent_symbol_raises only_aapl ["AAPL"; "ZZZZ"]) "ZZZZ").
  - apply list_elem_of_In. vm_compute. tauto.
  - vm_compute. reflexivity.
Defined.

(** C1 as stated fails: with ["AAPL"; "ZZZZ"] requested and only AAPL
    fetched, shaping does not complete with the AAPL rows; it raises. *)
Lemma absent_symbol_no_table :
  shape_multi (Multiple only_aapl) ["AAPL"; "ZZZZ"] = Err (KeyError "ZZZZ")
  /\ ~ (exists df, shape_multi (Multiple only_aapl) ["AAPL"; "ZZZZ"] = Ok df
          /\ List.map snd (rows df) = tagged_rows only_aapl ["AAPL"]).
Proof.
  assert (H : shape_multi (Multiple only_aapl) ["AAPL"; "ZZZZ"]
              = Err (KeyError "ZZZZ")) by (vm_compute; reflexivity).
  split; [exact H|]. intros (df & Hdf & _). rewrite H in Hdf. discriminate.
Qed.

(** C5 (as the code has it): when every requested symbol is in the fetch
    result, the multi-symbol table is built and has as many rows as the
    requested symbols have together.  When moreover the frames of the
    requested symbols share their columns, the table has those columns
    followed by Symbol and Date, and its rows are the rows of the first
    requested symbol, then those of the second, and so on, each symbol's
    rows in the order of its own frame, unchanged except for the two
    added cells: the Symbol column reads the symbols group after group
    and the Date column reads each frame's index from top to bottom. *)
Theorem shape_multi_groups (by_ticker : gmap string DataFrame)
    (symbols : list string) :
  (forall s, s ∈ symbols -> is_Some (by_ticker !! s)) ->
  exists df, shape_multi (Multiple by_ticker) symbols = Ok df
    /\ nrows df = total_rows by_ticker symbols
    /\ forall cols,
         symbols <> [] -> NoDup cols -> "Symbol" ∉ cols -> "Date" ∉ cols ->
         uniform by_ticker cols symbols ->
         columns df = cols ++ ["Symbol"; "Date"]
         /\ List.map snd (rows df) = tagged_rows by_ticker symbols
         /\ getitem df "Symbol" = Ok (symbol_column by_ticker symbols)
         /\ getitem df "Date" = Ok (date_column by_ticker symbols).
Proof.
  intros Hall. apply (proj2 (first_absent_None _ _)) in Hall.
  destruct (shape_loop_present by_ticker symbols empty Hall) as [df Hdf].
  exists df. split; [exact Hdf|]. split.
  - by rewrite (shape_loop_nrows _ _ _ _ Hdf).
  - intros cols Hne Hnd Hs Hd Hu.
    pose proof (shape_multi_shared by_ticker cols Hnd Hs Hd symbols Hne Hu) as H.
    unfold shape_multi in H. rewrite Hdf in H. injection H as ->.
    destruct (tagged_columns by_ticker cols symbols Hu) as [H1 H2].
    split; [done|]. split; [apply table_data|]. split.
    + rewrite (getitem_table _ _ _ (length cols)); [by rewrite H1|].
      rewrite col_pos_app_r by done. rewrite col_pos_head. cbn.
      by rewrite Nat.add_0_r.
    + rewrite (getitem_table _ _ _ (length cols + 1)); [by rewrite H2|].
      rewrite col_pos_app_r by done. by rewrite col_pos_tail, col_pos_head.
Qed.

Ltac decide_by_computation := apply (bool_decide_unpack _); vm_compute; exact I.

Ltac absent H :=
  repeat (apply elem_of_cons in H as [H|H]; [discriminate H|]);
  by apply elem_of_nil in H.

Lemma ohlcv_nodup : NoDup ohlcv.
Proof. decide_by_computation. Qed.

Lemma ohlcv_no_symbol : "Symbol" ∉ ohlcv.
Proof. decide_by_computation. Qed.

Lemma ohlcv_no_date : "Date" ∉ ohlcv.
Proof. decide_by_computation. Qed.

Lemma aapl_msft_uniform : uniform aapl_msft ohlcv ["MSFT"; "AAPL"].
Proof.
  intros s [->|[->|Hs%elem_of_nil]%elem_of_cons]%elem_of_cons; [| |done].
  - exists msft. split; [by vm_compute|]. split; [done|]. by repeat constructor.
  - exists aapl. split; [by vm_compute|]. split; [done|]. by repeat constructor.
Qed.

Lemma shape_multi_groups_witness :
  exists df, shape_multi (Multiple aapl_msft) ["MSFT"; "AAPL"] = Ok df
    /\ nrows df = 3%nat
    /\ columns df = ohlcv ++ ["Symbol"; "Date"]
    /\ getitem df "Symbol" = Ok [Str "MSFT"; Str "AAPL"; Str "AAPL"]
    /\ getitem df "Date" = Ok [on_day 19360; on_day 19360; on_day 19361].
Proof.
  destruct (shape_multi_groups aapl_msft ["MSFT"; "AAPL"])
    as (df & Hdf & Hn & Hrows).
  { intros s Hs. destruct (aapl_msft_uniform s Hs) as (f & -> & _). by eexists. }
  destruct (Hrows ohlcv) as (Hc & _ & Hsym & Hdate).
  - discriminate.
  - apply ohlcv_nodup.
  - apply ohlcv_no_symbol.
  - apply ohlcv_no_date.
  - apply aapl_msft_uniform.
  - exists df. split; [exact Hdf|]. split; [exact Hn|]. split; [exact Hc|].
    split; [exact Hsym|exact Hdate].
Defined.

(** C5 as stated fails: with ["MSFT"; "AAPL"] requested and only AAPL
    fetched, the symbols present have two rows together, but there is no
    output table with two rows: there is no table. *)
Lemma missing_symbol_no_row_count :
  total_rows only_aapl ["MSFT"; "AAPL"] = 2%nat
  /\ ~ (exists df, shape_multi (Multiple only_aapl) ["MSFT"; "AAPL"] = Ok df
          /\ nrows df = total_rows only_aapl ["MSFT"; "AAPL"]).
Proof.
  split; [by vm_compute|]. intros (df & Hdf & _).
  assert (H : shape_multi (Multiple only_aapl) ["MSFT"; "AAPL"]
              = Err (KeyError "MSFT")) by (vm_compute; reflexivity).
  rewrite H in Hdf. discriminate.
Qed.

(** ** The single-symbol table *)

Lemma getitem_missing df name :
  name ∉ columns df -> getitem df name = Err (KeyError name).
Proof. intros H. unfold getitem. by rewrite col_pos_None. Qed.

(** C4 (as the code has it): for a request of one symbol whose fetched
    frame has its dates as index, named Date, the table has one row per
    row of the fetched frame, in the same order, and every row starts
    with the date that was its index label, under an explicit Date
    column, followed by the cells it had.  The rows are not tagged with
    the symbol: no Symbol column is added, so a frame that has none
    yields a table that has none. *)
Theorem shape_single_rows (raw : DataFrame) :
  index_name raw = Some "Date" ->
  "Date" ∉ columns raw ->
  exists df, shape_single (Single raw) = Ok df
    /\ nrows df = nrows raw
    /\ columns df = "Date" :: columns raw
    /\ List.map snd (rows df) = List.map (fun r => fst r :: snd r) (rows raw)
    /\ getitem df "Date" = Ok (index raw)
    /\ ("Symbol" ∉ columns raw -> getitem df "Symbol" = Err (KeyError "Symbol")).
Proof.
  intros Hname Hfresh. unfold shape_single, reset_index, copy.
  rewrite Hname, (has_column_false _ _ Hfresh).
  eexists. split; [reflexivity|]. split; [|split; [done|split]].
  - unfold nrows. cbn [rows]. unfold range_index.
    by rewrite length_range_index_from, length_map.
  - cbn [rows]. apply snd_range_index_from.
  - split.
    + unfold getitem. cbn [columns rows]. rewrite col_pos_head. f_equal.
      unfold index, range_index.
      rewrite <- (map_map snd (fun row => nth 0 row NaN)).
      by rewrite snd_range_index_from, map_map.
    + intros Hsym. apply getitem_missing. cbn [columns].
      rewrite not_elem_of_cons. split; [congruence|done].
Qed.

Lemma shape_single_rows_witness :
  exists df, shape_single (Single aapl) = Ok df
    /\ nrows df = nrows aapl
    /\ columns df = "Date" :: columns aapl
    /\ List.map snd (rows df) = List.map (fun r => fst r :: snd r) (rows aapl)
    /\ getitem df "Date" = Ok (index aapl)
    /\ ("Symbol" ∉ columns aapl -> getitem df "Symbol" = Err (KeyError "Symbol")).
Proof.
  apply (shape_single_rows aapl).
  - reflexivity.
  - apply ohlcv_no_date.
Defined.

(** C4 as stated fails: the table shaped for the one-symbol request AAPL
    has no Symbol column, and no row of it holds the symbol. *)
Lemma single_rows_not_tagged :
  ~ (exists df, shape_single (Single aapl) = Ok df
       /\ exists r, r ∈ rows df /\ Str "AAPL" ∈ snd r)
  /\ (exists df, shape_single (Single aapl) = Ok df
       /\ getitem df "Symbol" = Err (KeyError "Symbol")).
Proof.
  split.
  - intros (df & Hdf & r & Hr & Hin). vm_compute in Hdf.
    injection Hdf as <-. cbn in Hr.
    repeat (apply elem_of_cons in Hr as [->|Hr]; [cbn in Hin; absent Hin|]).
    by apply elem_of_nil in Hr.
  - eexists. split; [reflexivity|]. reflexivity.
Qed.

(** ** The seven-day moving average *)

Section MovingAverage.

Lemma to_numeric_length close xs :
  to_numeric close = Some xs -> length xs = length close.
Proof.
  revert xs. induction close as [|c cs IH]; intros xs; cbn.
  - by intros [= <-].
  - destruct (as_float c); [|done]. destruct (to_numeric cs); [|done].
    intros [= <-]. cbn. by rewrite (IH l).
Qed.

Lemma to_numeric_lookup close xs j c :
  to_numeric close = Some xs -> close !! j = Some c ->
  exists x, as_float c = Some x /\ xs !! j = Some (prep_value x).
Proof.
  revert xs j. induction close as [|d cs IH]; intros xs j; [done|]. cbn.
  destruct (as_float d) as [x|] eqn:Hd; [|done].
  destruct (to_numeric cs) as [ys|]; [|done]. intros [= <-].
  destruct j as [|j]; cbn.
  - intros [= <-]. by exists x.
  - intros Hj. by apply IH.
Qed.

Lemma roll_scan_length window values i todo st :
  length (roll_scan window values i todo st) = length todo.
Proof.
  revert i st. induction todo as [|v todo IH]; intros i st; [done|].
  cbn. by rewrite IH.
Qed.

(** The scan visits the states one turn after the other. *)
Lemma roll_scan_lookup window values todo i k :
  todo = skipn i values -> (k < length todo)%nat ->
  roll_scan window values i todo (roll_state_at window values i) !! k
  = Some (roll_state_at window values (S (i + k))).
Proof.
  revert i k. induction todo as [|v todo IH]; intros i k Htodo Hk; [cbn in Hk; lia|].
  assert (Hv : nth i values nan = v).
  { rewrite <- (Nat.add_0_r i), <- nth_skipn, <- Htodo. done. }
  assert (Hrest : todo = skipn (S i) values).
  { replace (S i) with (1 + i)%nat by lia.
    rewrite <- skipn_skipn, <- Htodo. done. }
  cbn [roll_scan]. destruct k as [|k].
  - cbn [lookup list_lookup]. rewrite Nat.add_0_r. cbn [roll_state_at].
    by rewrite Hv.
  - replace (i + S k)%nat with (S i + k)%nat by lia.
    specialize (IH (S i) k Hrest ltac:(cbn in Hk; lia)).
    cbn [roll_state_at] in IH. rewrite Hv in IH. exact IH.
Qed.

Lemma roll_mean_lookup window minp values i :
  (i < length values)%nat ->
  roll_mean window minp values !! i
  = Some (calc_mean minp (roll_state_at window values (S i))).
Proof.
  intros Hi. unfold roll_mean. rewrite list_lookup_fmap.
  change (roll_init (nth 0 values nan)) with (roll_state_at window values 0).
  by rewrite (roll_scan_lookup window values values 0 i eq_refl Hi).
Qed.

Lemma remove_mean_nobs v st :
  nobs (remove_mean v st) = (nobs st - (if notnan v then 1 else 0))%Z.
Proof. unfold remove_mean. destruct (notnan v); cbn; lia. Qed.

Lemma remove_mean_run v st :
  prev_value (remove_mean v st) = prev_value st
  /\ num_consecutive_same_value (remove_mean v st)
     = num_consecutive_same_value st.
Proof. unfold remove_mean. by destruct (notnan v). Qed.

Lemma add_mean_nobs v st :
  nobs (add_mean v st) = (nobs st + (if notnan v then 1 else 0))%Z.
Proof. unfold add_mean. destruct (notnan v); cbn; lia. Qed.

(** The window holds as many observations as entered and did not leave. *)
Lemma roll_state_nobs window values n :
  nobs (roll_state_at window values n)
  = (observed values n - observed values (n - window))%Z.
Proof.
  induction n as [|n IH]; [done|].
  cbn [roll_state_at observed]. unfold roll_step.
  rewrite add_mean_nobs. destruct (window <=? n)%nat eqn:E.
  - apply Nat.leb_le in E. rewrite remove_mean_nobs, IH.
    replace (S n - window)%nat with (S (n - window)) by lia.
    cbn [observed]. lia.
  - apply Nat.leb_gt in E. rewrite IH.
    replace (S n - window)%nat with 0%nat by lia.
    replace (n - window)%nat with 0%nat by lia. lia.
Qed.

Lemma observed_step values m n :
  (m <= n)%nat ->
  (0 <= observed values n - observed values m <= Z.of_nat (n - m))%Z.
Proof.
  induction 1 as [|n Hle IH].
  - rewrite Nat.sub_diag. lia.
  - cbn [observed]. replace (S n - m)%nat with (S (n - m)) by lia.
    destruct (notnan (nth n values nan)); lia.
Qed.

Lemma observed_missing values m n j :
  (m <= j < n)%nat -> notnan (nth j values nan) = false ->
  (observed values n - observed values m < Z.of_nat (n - m))%Z.
Proof.
  intros [Hm Hn] Hj.
  pose proof (observed_step values m j Hm).
  pose proof (observed_step values (S j) n ltac:(lia)).
  assert (observed values (S j) = observed values j) as Hs.
  { cbn [observed]. rewrite Hj. lia. }
  lia.
Qed.

Lemma observed_full values m n :
  (m <= n)%nat ->
  (forall j, (m <= j < n)%nat -> notnan (nth j values nan) = true) ->
  (observed values n - observed values m = Z.of_nat (n - m))%Z.
Proof.
  induction 1 as [|n Hle IH]; intros Hall.
  - rewrite Nat.sub_diag. lia.
  - cbn [observed]. replace (S n - m)%nat with (S (n - m)) by lia.
    rewrite (Hall n) by lia. rewrite Nat2Z.inj_succ.
    specialize (IH ltac:(intros j Hj; apply Hall; lia)). lia.
Qed.

Lemma roll_state_run_nonneg window values n :
  (0 <= num_consecutive_same_value (roll_state_at window values n))%Z.
Proof.
  induction n as [|n IH]; [done|].
  cbn [roll_state_at]. unfold roll_step, add_mean.
  set (st := if (window <=? n)%nat then _ else _).
  assert (num_consecutive_same_value st
          = num_consecutive_same_value (roll_state_at window values n)) as Hst.
  { unfold st. destruct (window <=? n)%nat; [apply remove_mean_run|done]. }
  destruct (notnan (nth n values nan)); [|lia]. cbn.
  destruct (_ =? _)%float; lia.
Qed.

(** The newest [k] values are all the same observation: the state holds
    that value and a run of at least [k]. *)
Lemma roll_state_run window values n k c :
  (1 <= k <= n)%nat -> notnan c = true ->
  (forall j, (n - k <= j < n)%nat -> nth j values nan = c) ->
  prev_value (roll_state_at window values n) = c
  /\ (Z.of_nat k <= num_consecutive_same_value (roll_state_at window values n))%Z.
Proof.
  revert k. induction n as [|n IH]; intros k Hk Hc Hrun; [lia|].
  cbn [roll_state_at]. unfold roll_step, add_mean.
  set (st := if (window <=? n)%nat then _ else _).
  assert (prev_value st = prev_value (roll_state_at window values n)
          /\ num_consecutive_same_value st
             = num_consecutive_same_value (roll_state_at window values n))
    as [Hprev Hnum].
  { unfold st. destruct (window <=? n)%nat; [apply remove_mean_run|done]. }
  rewrite (Hrun n) by lia. rewrite Hc. cbn. split; [done|].
  rewrite Hprev, Hnum.
  pose proof (roll_state_run_nonneg window values n) as Hpos.
  destruct (decide (k = 1%nat)) as [->|Hk1].
  - destruct (_ =? _)%float; lia.
  - destruct (IH (k - 1)%nat ltac:(lia) Hc) as [Hp Hn].
    { intros j Hj. apply Hrun. lia. }
    rewrite Hp. fold (notnan c). rewrite Hc. lia.
Qed.

Lemma calc_mean_short minp st :
  (nobs st < minp)%Z -> calc_mean minp st = nan.
Proof.
  intros H. unfold calc_mean.
  by rewrite (proj2 (Z.leb_gt _ _)) by lia.
Qed.

Lemma calc_mean_run minp st :
  (minp <= nobs st)%Z -> (0 < nobs st)%Z ->
  (nobs st <= num_consecutive_same_value st)%Z ->
  calc_mean minp st = prev_value st.
Proof.
  intros H1 H2 H3. unfold calc_mean.
  rewrite (proj2 (Z.leb_le _ _) H1), (proj2 (Z.ltb_lt _ _) H2).
  by rewrite (proj2 (Z.leb_le _ _) H3).
Qed.

Lemma finite_prepared c :
  is_finite c = true -> prep_value c = c /\ notnan c = true.
Proof.
  unfold is_finite, prep_value, is_nan, notnan.
  destruct (c =? c)%float; [|done]. cbn. by intros ->%negb_true_iff.
Qed.




End MovingAverage.

(** ** Writing a table as CSV and reading it back *)

Section CsvRoundTrip.

Import Csv.

Lemma string_app_assoc (a b c : string) :
  ((a ++ b) ++ c)%string = (a ++ (b ++ c))%string.
Proof.
  induction a as [|x a IH]; [done|]. by rewrite !string_app_cons, IH.
Qed.

Lemma string_app_nil_r (a : string) : (a ++ EmptyString)%string = a.
Proof. induction a as [|x a IH]; [done|]. by rewrite string_app_cons, IH. Qed.

Lemma string_snoc_app (a : string) (c : ascii) (b : string) :
  ((a ++ String c EmptyString) ++ b)%string = (a ++ String c b)%string.
Proof. by rewrite string_app_assoc. Qed.

Lemma special_false c :
  special c = false ->
  Ascii.eqb c Text.comma = false /\ Ascii.eqb c Text.dquote = false
  /\ Ascii.eqb c Text.newline = false.
Proof.
  unfold special. intros H.
  apply orb_false_iff in H as [H Hn]. apply orb_false_iff in H as [Hc Hq].
  done.
Qed.

(** An unquoted field is read character by character. *)
Lemma parse_unquoted s field record rest :
  needs_quote s = false ->
  parse InField field record (s ++ rest) = parse InField (field ++ s) record rest.
Proof.
  revert field. induction s as [|c s IH]; intros field Hq.
  - by rewrite string_app_nil_r.
  - cbn [needs_quote] in Hq. apply orb_false_iff in Hq as [Hc Hs].
    destruct (special_false c Hc) as (Hcomma & _ & Hnl).
    rewrite string_app_cons. cbn [parse]. rewrite Hnl, Hcomma, (IH _ Hs).
    by rewrite string_snoc_app.
Qed.

(** The body of a quoted field is read up to its closing quote, with
    every doubled quote read as one. *)
Lemma parse_quoted s field record rest :
  parse InQuoted field record (escape s ++ String Text.dquote rest)
  = parse QuoteInQuoted (field ++ s) record rest.
Proof.
  revert field. induction s as [|c s IH]; intros field.
  - by rewrite string_app_nil_r.
  - cbn [escape]. destruct (Ascii.eqb c Text.dquote) eqn:E.
    + apply Ascii.eqb_eq in E as ->.
      change (parse InQuoted field record
                (String Text.dquote (String Text.dquote
                   (escape s ++ String Text.dquote rest)))
              = parse QuoteInQuoted (field ++ String Text.dquote s) record rest).
      change (parse InQuoted (field ++ String Text.dquote EmptyString) record
                (escape s ++ String Text.dquote rest)
              = parse QuoteInQuoted (field ++ String Text.dquote s) record rest).
      by rewrite IH, string_snoc_app.
    + rewrite string_app_cons. cbn [parse]. rewrite E, IH.
      by rewrite string_snoc_app.
Qed.

(** What the reader does at a comma and at a line feed, state by state. *)
Lemma parse_open_quote st record rest :
  st = StartRecord \/ st = StartField ->
  parse st EmptyString record (String Text.dquote rest)
  = parse InQuoted EmptyString record rest.
Proof. by intros [-> | ->]. Qed.

Lemma parse_comma st field record rest :
  st = InField \/ st = QuoteInQuoted ->
  parse st field record (String Text.comma rest)
  = parse StartField EmptyString (record ++ [field]) rest.
Proof. by intros [-> | ->]. Qed.

Lemma parse_newline st field record rest :
  st = InField \/ st = QuoteInQuoted ->
  parse st field record (String Text.newline rest)
  = (record ++ [field]) :: parse StartRecord EmptyString [] rest.
Proof. by intros [-> | ->]. Qed.

Lemma parse_empty_comma st record rest :
  st = StartRecord \/ st = StartField ->
  parse st EmptyString record (String Text.comma rest)
  = parse StartField EmptyString (record ++ [EmptyString]) rest.
Proof. by intros [-> | ->]. Qed.

Lemma parse_first_char st c record rest :
  st = StartRecord \/ st = StartField ->
  special c = false ->
  parse st EmptyString record (String c rest)
  = parse InField (String c EmptyString) record rest.
Proof.
  intros Hst Hc. destruct (special_false c Hc) as (Hcomma & Hq & Hnl).
  destruct Hst as [-> | ->]; cbn [parse]; by rewrite Hnl, Hcomma, Hq.
Qed.

(** A field the writer wrote in quotes, up to the character after it. *)
Lemma parse_quoted_field st s record rest :
  st = StartRecord \/ st = StartField ->
  parse st EmptyString record (quoted s ++ rest)
  = parse QuoteInQuoted s record rest.
Proof.
  intros Hst. unfold quoted.
  rewrite string_app_cons, string_app_assoc, string_app_cons.
  rewrite (parse_open_quote st) by done. apply parse_quoted.
Qed.

(** A non-empty field the writer wrote without quotes. *)
Lemma parse_plain_field st c s record rest :
  st = StartRecord \/ st = StartField ->
  needs_quote (String c s) = false ->
  parse st EmptyString record (String c s ++ rest)
  = parse InField (String c s) record rest.
Proof.
  intros Hst Hq. cbn [needs_quote] in Hq.
  apply orb_false_iff in Hq as [Hc Hs].
  rewrite string_app_cons, (parse_first_char st) by done.
  by rewrite parse_unquoted.
Qed.

Lemma parse_field_comma st lone s record rest :
  st = StartRecord \/ st = StartField ->
  parse st EmptyString record (write_field lone s ++ String Text.comma rest)
  = parse StartField EmptyString (record ++ [s]) rest.
Proof.
  intros Hst. unfold write_field.
  destruct (needs_quote s || lone && negb (Text.truthy s)) eqn:E.
  - rewrite parse_quoted_field by done. apply parse_comma. by right.
  - apply orb_false_iff in E as [Hq _]. destruct s as [|c s].
    + by apply parse_empty_comma.
    + rewrite parse_plain_field by done. apply parse_comma. by left.
Qed.

Lemma parse_field_newline st lone s record rest :
  st = StartField \/ (st = StartRecord /\ (s = EmptyString -> lone = true)) ->
  parse st EmptyString record (write_field lone s ++ String Text.newline rest)
  = (record ++ [s]) :: parse StartRecord EmptyString [] rest.
Proof.
  intros Hst.
  assert (Hst' : st = StartRecord \/ st = StartField) by tauto.
  unfold write_field.
  destruct (needs_quote s || lone && negb (Text.truthy s)) eqn:E.
  - rewrite parse_quoted_field by done. apply parse_newline. by right.
  - apply orb_false_iff in E as [Hq Hlone]. destruct s as [|c s].
    + destruct Hst as [-> | [-> Hl]]; [done|].
      rewrite Hl in Hlone by done. discriminate.
    + rewrite parse_plain_field by done. apply parse_newline. by left.
Qed.

Lemma join_cons2 sep (p q : string) ps :
  Text.join sep (p :: q :: ps) = (p ++ sep ++ Text.join sep (q :: ps))%string.
Proof. reflexivity. Qed.

(** The fields of a record after the first one. *)
Lemma parse_fields lone fs record rest :
  fs <> [] ->
  parse StartField EmptyString record
    (Text.join "," (List.map (write_field lone) fs) ++ String Text.newline rest)
  = (record ++ fs) :: parse StartRecord EmptyString [] rest.
Proof.
  revert record. induction fs as [|f fs IH]; intros record Hne; [done|].
  destruct fs as [|g fs].
  - cbn [List.map Text.join]. apply parse_field_newline. by left.
  - cbn [List.map]. rewrite join_cons2, !string_app_assoc.
    change ("," ++ ?x)%string with (String Text.comma x).
    rewrite parse_field_comma by (by right).
    change (write_field lone g :: List.map (write_field lone) fs)
      with (List.map (write_field lone) (g :: fs)).
    rewrite IH by done. by rewrite <- app_assoc.
Qed.

(** One record. *)
Lemma parse_writerow fields rest :
  parse StartRecord EmptyString [] (writerow fields ++ rest)
  = fields :: parse StartRecord EmptyString [] rest.
Proof.
  unfold writerow. rewrite string_app_assoc, string_app_cons.
  change (EmptyString ++ rest)%string with rest.
  destruct fields as [|f [|g fs]].
  - reflexivity.
  - cbn [List.map Text.join length Nat.eqb].
    rewrite parse_field_newline; [done|]. right. by split.
  - cbn [List.map length Nat.eqb]. rewrite join_cons2, !string_app_assoc.
    change ("," ++ ?x)%string with (String Text.comma x).
    rewrite parse_field_comma by (by left).
    change (write_field false g :: List.map (write_field false) fs)
      with (List.map (write_field false) (g :: fs)).
    by rewrite parse_fields.
Qed.

(** Every list of records is read back as written. *)
Lemma reader_writerows records : reader (writerows records) = records.
Proof.
  unfold reader. induction records as [|r rs IH]; [done|].
  cbn [writerows]. by rewrite parse_writerow, IH.
Qed.

Lemma has_char_app c (a b : string) :
  has_char c (a ++ b) = has_char c a || has_char c b.
Proof.
  induction a as [|x a IH]; [done|].
  rewrite string_app_cons. cbn [has_char]. by rewrite IH, orb_assoc.
Qed.

Local Abbreviation no_cr := (fun s => has_char carriage_return s = false).

Lemma escape_no_cr s : no_cr s -> no_cr (escape s).
Proof.
  induction s as [|c s IH]; [done|]. cbn [has_char escape].
  intros [Hc Hs]%orb_false_iff.
  destruct (Ascii.eqb c Text.dquote) eqn:E; cbn [has_char].
  - apply Ascii.eqb_eq in E as ->. by rewrite IH.
  - by rewrite Hc, IH.
Qed.

Lemma write_field_no_cr lone s : no_cr s -> no_cr (write_field lone s).
Proof.
  intros Hs. unfold write_field.
  destruct (needs_quote s || lone && negb (Text.truthy s)); [|done].
  unfold quoted. cbn [has_char]. rewrite has_char_app, (escape_no_cr s Hs).
  reflexivity.
Qed.

Lemma join_no_cr fields :
  Forall no_cr fields -> no_cr (Text.join "," fields).
Proof.
  induction 1 as [|f fs Hf Hfs IH]; [done|].
  destruct fs as [|g fs]; [done|].
  rewrite join_cons2, !has_char_app, Hf, IH. reflexivity.
Qed.

Lemma writerows_no_cr records :
  Forall (Forall no_cr) records -> no_cr (writerows records).
Proof.
  induction 1 as [|r rs Hr Hrs IH]; [done|].
  cbn [writerows]. unfold writerow. rewrite !has_char_app, IH, join_no_cr.
  - reflexivity.
  - apply Forall_map. eapply Forall_impl; [exact Hr|].
    intros f Hf. by apply write_field_no_cr.
Qed.

(** On a text without carriage return Python's reader goes through the
    states of the reader above. *)
Lemma parse_process_char_plain input :
  no_cr input ->
  forall st field record,
    parse_process_char (reader_state_of st) field record input
    = parse st field record input.
Proof.
  induction input as [|c rest IH]; intros Hcr st field record.
  - by destruct st.
  - cbn [has_char] in Hcr. apply orb_false_iff in Hcr as [Hc Hrest].
    pose proof (IH Hrest StartRecord) as IH1.
    pose proof (IH Hrest StartField) as IH2.
    pose proof (IH Hrest InField) as IH3.
    pose proof (IH Hrest InQuoted) as IH4.
    pose proof (IH Hrest QuoteInQuoted) as IH5.
    cbn [reader_state_of] in IH1, IH2, IH3, IH4, IH5.
    destruct st; cbn [reader_state_of parse_process_char parse];
      rewrite ?Hc, ?orb_false_r;
      (destruct (Ascii.eqb_spec c Text.newline) as [->|Hn];
       [change (Ascii.eqb Text.newline Text.comma) with false;
        change (Ascii.eqb Text.newline Text.dquote) with false
       |destruct (Ascii.eqb c Text.comma), (Ascii.eqb c Text.dquote)]);
      by rewrite ?IH1, ?IH2, ?IH3, ?IH4, ?IH5.
Qed.

(** Python's reader reads back what the writer wrote, as long as no
    field holds a carriage return. *)
Lemma csv_reader_writerows records :
  Forall (Forall no_cr) records -> csv_reader (writerows records) = records.
Proof.
  intros H. unfold csv_reader.
  rewrite (parse_process_char_plain _ (writerows_no_cr _ H) StartRecord).
  apply reader_writerows.
Qed.

End CsvRoundTrip.

Example reader_sample :
  Csv.reader (Csv.writerows
                [["a,b"; String "x" (String Text.dquote "y"); EmptyString];
                 [EmptyString]; []; ["p"; String Text.newline "q"]])
  = [["a,b"; String "x" (String Text.dquote "y"); EmptyString];
     [EmptyString]; []; ["p"; String Text.newline "q"]].
Proof. vm_compute. reflexivity. Qed.

(** ** What a run exports *)

Section Exports.

Variable format_value : cell -> string.

Lemma exports_app l1 l2 : exports (l1 ++ l2) = exports l1 ++ exports l2.
Proof.
  induction l1 as [|e l1 IH]; [done|]. destruct e; cbn; by rewrite ?IH.
Qed.

(** The single-symbol view offers its file exactly when the table can be
    shaped, the six columns the charts read exist, and, with the overlay
    switched on, the moving average can be computed. *)
Lemma single_view_exports symbol raw_data ma_flag :
  exports (trace_of (single_view format_value symbol raw_data ma_flag))
  = match shape_single raw_data with
    | inl _ => []
    | inr df =>
        match getitem df "Date", getitem df "Open", getitem df "High",
              getitem df "Low", getitem df "Close", getitem df "Volume" with
        | inr _, inr _, inr _, inr _, inr close, inr _ =>
            match (if ma_flag then rolling_mean 7 close else Ok []) with
            | inr _ => [((symbol ++ "_stock_data.csv")%string,
                         to_csv format_value df)]
            | inl _ => []
            end
        | _, _, _, _, _, _ => []
        end
    end.
Proof.
  unfold single_view.
  destruct (shape_single raw_data) as [e|df]; [done|].
  cbn -[getitem rolling_mean to_csv head].
  destruct (getitem df "Date") as [e|c_x]; [done|].
  cbn -[getitem rolling_mean to_csv head].
  destruct (getitem df "Open") as [e|c_open]; [done|].
  cbn -[getitem rolling_mean to_csv head].
  destruct (getitem df "High") as [e|c_high]; [done|].
  cbn -[getitem rolling_mean to_csv head].
  destruct (getitem df "Low") as [e|c_low]; [done|].
  cbn -[getitem rolling_mean to_csv head].
  destruct (getitem df "Close") as [e|c_close]; [done|].
  cbn -[getitem rolling_mean to_csv head].
  destruct ma_flag.
  - destruct (rolling_mean 7 c_close) as [e|ma];
      cbn -[getitem rolling_mean to_csv head];
      destruct (getitem df "Volume") as [e'|c_vol]; done.
  - cbn -[getitem rolling_mean to_csv head].
    destruct (getitem df "Volume") as [e'|c_vol]; done.
Qed.

Lemma multi_view_exports symbols raw_data :
  exports (trace_of (multi_view format_value symbols raw_data))
  = match shape_multi raw_data symbols with
    | inl _ => []
    | inr df =>
        match select df ["Date"; "Symbol"; "Open"; "High"; "Low"; "Close";
                         "Volume"],
              trace_loop raw_data "Close" None symbols (mkFigure [] None),
              trace_loop raw_data "Volume" (Some "one") symbols
                (mkFigure [] None) with
        | inr _, inr _, inr _ => [("multi_stock_data.csv", to_csv format_value df)]
        | _, _, _ => []
        end
    end.
Proof.
  unfold multi_view.
  destruct (shape_multi raw_data symbols) as [e|df]; [done|].
  cbn -[select trace_loop to_csv head].
  destruct (select df _) as [e|preview]; [done|].
  cbn -[select trace_loop to_csv head].
  destruct (trace_loop raw_data "Close" _ _ _) as [e|fig_multi]; [done|].
  cbn -[select trace_loop to_csv head].
  destruct (trace_loop raw_data "Volume" _ _ _) as [e|fig_vol]; done.
Qed.

Variable load_stock_data : list string -> date -> date -> fetched.

(** After a successful fetch the script goes on with the view. *)
Lemma body_fetched inp raw_data :
  symbols_of (symbol_input inp) <> [] ->
  load_stock_data (symbols_of (symbol_input inp)) (start_date inp) (end_date inp)
  = Fetched raw_data ->
  body format_value load_stock_data inp
  = (spinner "⏳ Loading data..."
     :: load_stock_data_call (symbols_of (symbol_input inp))
          (start_date inp) (end_date inp)
     :: trace_of (view format_value (symbols_of (symbol_input inp)) raw_data
                    (show_ma inp)),
     outcome_of (view format_value (symbols_of (symbol_input inp)) raw_data
                   (show_ma inp))).
Proof.
  intros Hne Hload. unfold body, fetch, view. rewrite Hload.
  destruct (symbols_of (symbol_input inp)) as [|s [|s' rest]]; [done| |].
  - cbn. by destruct (single_view _ _ _ _) as [log [| |]].
  - cbn. by destruct (multi_view _ _ _) as [log [| |]].
Qed.

Lemma app_exports inp raw_data :
  symbols_of (symbol_input inp) <> [] ->
  load_stock_data (symbols_of (symbol_input inp)) (start_date inp) (end_date inp)
  = Fetched raw_data ->
  exports (trace_of (app format_value load_stock_data inp))
  = exports (trace_of (view format_value (symbols_of (symbol_input inp))
                         raw_data (show_ma inp))).
Proof.
  intros Hne Hload.
  rewrite app_trace, exports_app, (body_fetched inp raw_data Hne Hload).
  reflexivity.
Qed.

End Exports.

(** ** The exported file *)

Section ExportedFile.

Variable format_value : cell -> string.

Lemma shape_single_date raw :
  index_name raw = Some "Date" ->
  "Date" ∉ columns raw ->
  shape_single (Single raw)
  = Ok (table ("Date" :: columns raw)
          (List.map (fun r => fst r :: snd r) (rows raw))).
Proof.
  intros Hname Hfresh. unfold shape_single, reset_index, copy.
  by rewrite Hname, (has_column_false _ _ Hfresh).
Qed.

(** Below the date, the table shaped for one symbol has the columns of
    the fetched frame, cell for cell. *)
Lemma getitem_shaped raw name :
  name <> "Date" ->
  getitem (table ("Date" :: columns raw)
             (List.map (fun r => fst r :: snd r) (rows raw))) name
  = getitem raw name.
Proof.
  intros Hne. unfold getitem at 2.
  destruct (col_pos name (columns raw)) as [p|] eqn:E.
  - rewrite (getitem_table _ _ name (S p)).
    + by rewrite map_map.
    + rewrite col_pos_tail by congruence. by rewrite E.
  - unfold getitem. cbn [columns table].
    rewrite col_pos_tail by congruence. by rewrite E.
Qed.

Lemma to_numeric_Some vals :
  Forall (fun c => is_Some (as_float c)) vals ->
  exists xs, to_numeric vals = Some xs.
Proof.
  induction 1 as [|c cs [x Hx] _ [xs IH]]; [by exists []|].
  exists (prep_value x :: xs). cbn. by rewrite Hx, IH.
Qed.

Lemma nth_numeric p vals :
  Forall (fun c => is_Some (as_float c)) vals ->
  is_Some (as_float (nth p vals NaN)).
Proof.
  intros H. revert p. induction H as [|c cs Hc _ IH]; intros [|p]; cbn;
    try done; by eexists.
Qed.

Lemma numeric_column raw name vals :
  numeric raw -> getitem raw name = Ok vals ->
  exists xs, to_numeric vals = Some xs.
Proof.
  intros Hnum. unfold getitem.
  destruct (col_pos name (columns raw)) as [p|]; [|done].
  intros [= <-]. apply to_numeric_Some, Forall_map.
  eapply Forall_impl; [exact Hnum|]. intros r Hr. by apply nth_numeric.
Qed.

Lemma rolling_mean_numeric raw close :
  numeric raw -> getitem raw "Close" = Ok close ->
  exists ma, rolling_mean 7 close = Ok ma.
Proof.
  intros Hnum Hclose.
  destruct (numeric_column raw "Close" close Hnum Hclose) as [xs Hxs].
  unfold rolling_mean. rewrite Hxs. by eexists.
Qed.

(** With numeric closes the overlay never decides whether the
    single-symbol view exports, nor what. *)
Lemma single_view_exports_flag symbol raw ma_flag :
  index_name raw = Some "Date" -> "Date" ∉ columns raw -> numeric raw ->
  exports (trace_of (single_view format_value symbol (Single raw) ma_flag))
  = match getitem raw "Open", getitem raw "High", getitem raw "Low",
          getitem raw "Close", getitem raw "Volume" with
    | inr _, inr _, inr _, inr _, inr _ =>
        [((symbol ++ "_stock_data.csv")%string,
          to_csv format_value
            (table ("Date" :: columns raw)
               (List.map (fun r => fst r :: snd r) (rows raw))))]
    | _, _, _, _, _ => []
    end.
Proof.
  intros Hname Hfresh Hnum.
  rewrite single_view_exports, (shape_single_date raw Hname Hfresh).
  cbv beta iota delta [Ok].
  rewrite (getitem_shaped raw "Open"), (getitem_shaped raw "High"),
    (getitem_shaped raw "Low"), (getitem_shaped raw "Close"),
    (getitem_shaped raw "Volume") by discriminate.
  rewrite (getitem_table _ _ "Date" 0%nat) by apply col_pos_head.
  destruct (getitem raw "Open") as [e|c_open]; [done|].
  destruct (getitem raw "High") as [e|c_high]; [done|].
  destruct (getitem raw "Low") as [e|c_low]; [done|].
  destruct (getitem raw "Close") as [e|c_close] eqn:Hclose; [done|].
  destruct (getitem raw "Volume") as [e|c_vol]; [done|].
  destruct ma_flag; [|done].
  by destruct (rolling_mean_numeric raw c_close Hnum Hclose) as [ma ->].
Qed.

Lemma getitem_ohlcv raw name :
  columns raw = ohlcv -> name ∈ ohlcv ->
  exists vals, getitem raw name = Ok vals.
Proof.
  intros Hc Hin. unfold getitem. rewrite Hc.
  pose proof (has_column_true _ _ Hin) as H. unfold has_column in H.
  destruct (col_pos name ohlcv); [by eexists|done].
Qed.

End ExportedFile.

Section ExportClaims.

Variable format_value : cell -> string.
Variable load_stock_data : list string -> date -> date -> fetched.

Lemma to_csv_table cols data :
  to_csv format_value (table cols data)
  = Csv.writerows (cols :: List.map (List.map (cell_text format_value)) data).
Proof.
  unfold to_csv. cbn [columns table]. do 2 f_equal.
  rewrite <- (table_data cols data) at 2. by rewrite map_map.
Qed.

Lemma trace_loop_ok by_ticker cols column stackgroup symbols fig :
  uniform by_ticker cols symbols -> column ∈ cols ->
  exists fig', trace_loop (Multiple by_ticker) column stackgroup symbols fig
               = Ok fig'.
Proof.
  intros Hu Hin. revert fig.
  induction symbols as [|s rest IH]; intros fig; [by eexists|].
  destruct (Hu s) as (f & Hf & Hc & _); [by left|].
  cbn [trace_loop ticker_frame]. rewrite Hf. cbv beta iota delta [Ok copy].
  pose proof (has_column_true _ _ Hin) as Hcol. unfold has_column in Hcol.
  unfold getitem. rewrite Hc.
  destruct (col_pos column cols) as [p|]; [|done].
  apply IH. intros s' Hs'. apply Hu. by right.
Qed.

(** C3 (as the code has it): the file the script offers is the CSV text
    of the table of the view, under the header row of that table's
    columns.  For one symbol whose fetched frame has the columns Open,
    High, Low, Close and Volume the header is
    Date,Open,High,Low,Close,Volume and the file is named
    SYMBOL_stock_data.csv.  For several symbols with such frames the header
    is Open,High,Low,Close,Volume,Symbol,Date, the fetched columns first
    and the two added columns last, and the file is named
    multi_stock_data.csv. *)
Theorem export_header_and_file_name (inp : Inputs) :
  (forall symbol raw,
     symbols_of (symbol_input inp) = [symbol] ->
     load_stock_data [symbol] (start_date inp) (end_date inp)
     = Fetched (Single raw) ->
     index_name raw = Some "Date" -> columns raw = ohlcv -> numeric raw ->
     exports (trace_of (app format_value load_stock_data inp))
     = [((symbol ++ "_stock_data.csv")%string,
         ("Date,Open,High,Low,Close,Volume" ++
          String Text.newline
            (Csv.writerows
               (List.map (fun r => List.map (cell_text format_value)
                                     (fst r :: snd r)) (rows raw))))%string)])
  /\ (forall by_ticker,
        (2 <= length (symbols_of (symbol_input inp)))%nat ->
        load_stock_data (symbols_of (symbol_input inp))
          (start_date inp) (end_date inp) = Fetched (Multiple by_ticker) ->
        uniform by_ticker ohlcv (symbols_of (symbol_input inp)) ->
        exports (trace_of (app format_value load_stock_data inp))
        = [("multi_stock_data.csv",
            ("Open,High,Low,Close,Volume,Symbol,Date" ++
             String Text.newline
               (Csv.writerows
                  (List.map (List.map (cell_text format_value))
                     (tagged_rows by_ticker
                        (symbols_of (symbol_input inp))))))%string)]).
Proof.
  split.
  - intros symbol raw Hsym Hload Hname Hcols Hnum.
    rewrite (app_exports _ _ inp (Single raw)) by (rewrite Hsym; done).
    rewrite Hsym. unfold view.
    rewrite single_view_exports_flag;
      [|done|rewrite Hcols; apply ohlcv_no_date|done].
    destruct (getitem_ohlcv raw "Open" Hcols) as [? ->]; [decide_by_computation|].
    destruct (getitem_ohlcv raw "High" Hcols) as [? ->]; [decide_by_computation|].
    destruct (getitem_ohlcv raw "Low" Hcols) as [? ->]; [decide_by_computation|].
    destruct (getitem_ohlcv raw "Close" Hcols) as [? ->]; [decide_by_computation|].
    destruct (getitem_ohlcv raw "Volume" Hcols) as [? ->]; [decide_by_computation|].
    cbv beta iota delta [Ok]. rewrite to_csv_table, Hcols, map_map. reflexivity.
  - intros by_ticker Hlen Hload Hu.
    assert (Hne : symbols_of (symbol_input inp) <> []).
    { intros E. rewrite E in Hlen. cbn in Hlen. lia. }
    rewrite (app_exports _ _ inp (Multiple by_ticker) Hne Hload).
    assert (Hview : view format_value (symbols_of (symbol_input inp))
                      (Multiple by_ticker) (show_ma inp)
                    = multi_view format_value (symbols_of (symbol_input inp))
                        (Multiple by_ticker)).
    { unfold view. destruct (symbols_of (symbol_input inp)) as [|s [|s' rest]];
        cbn in Hlen; [lia|lia|done]. }
    rewrite Hview, multi_view_exports.
    rewrite (shape_multi_shared by_ticker ohlcv ohlcv_nodup ohlcv_no_symbol
               ohlcv_no_date) by done.
    cbv beta iota delta [Ok].
    destruct (trace_loop_ok by_ticker ohlcv "Close" None
                (symbols_of (symbol_input inp)) (mkFigure [] None) Hu)
      as [fig_multi ->]; [decide_by_computation|].
    destruct (trace_loop_ok by_ticker ohlcv "Volume" (Some "one")
                (symbols_of (symbol_input inp)) (mkFigure [] None) Hu)
      as [fig_vol ->]; [decide_by_computation|].
    unfold select. cbn [columns table].
    change (first_missing _ _) with (@None string).
    cbv beta iota. by rewrite to_csv_table.
Qed.

End ExportClaims.

Lemma empty_symbols_only_prompt_witness :
  body sample_format fetch_aapl (sample_inputs " , ," true)
  = ([warning "👈 Please enter at least one valid stock symbol."], Done tt)
  /\ outcome_of (app sample_format fetch_aapl (sample_inputs " , ," true))
     = Done tt
  /\ Forall (fun e => is_fetch_call e = false /\ is_error e = false /\
                      is_output e = false)
       (trace_of (app sample_format fetch_aapl (sample_inputs " , ," true))).
Proof.
  apply (empty_symbols_only_prompt sample_format fetch_aapl
           (sample_inputs " , ," true)).
  reflexivity.
Defined.

Lemma failed_fetch_stops_witness :
  body sample_format fetch_fails (sample_inputs "aapl, zzzz" true)
  = ([spinner "⏳ Loading data...";
      load_stock_data_call ["AAPL"; "ZZZZ"] (mkDate 2023 1 1) (mkDate 2023 1 31);
      error "Failed to fetch stock data: No data found, symbol may be delisted"],
     Stopped)
  /\ outcome_of (app sample_format fetch_fails (sample_inputs "aapl, zzzz" true))
     = Stopped
  /\ length (List.filter is_error
               (trace_of (app sample_format fetch_fails
                            (sample_inputs "aapl, zzzz" true)))) = 1%nat
  /\ List.filter is_output
       (trace_of (app sample_format fetch_fails
                    (sample_inputs "aapl, zzzz" true))) = [].
Proof.
  apply (failed_fetch_stops sample_format fetch_fails
           (sample_inputs "aapl, zzzz" true)
           "No data found, symbol may be delisted").
  - discriminate.
  - reflexivity.
Defined.

Lemma numeric_check df :
  forallb (fun r => forallb (fun c => match as_float c with
                                      | Some _ => true
                                      | None => false
                                      end) (snd r)) (rows df) = true ->
  numeric df.
Proof.
  intros H. unfold numeric. apply Forall_forall. intros r Hr%list_elem_of_In.
  apply Forall_forall. intros c Hc%list_elem_of_In.
  pose proof (proj1 (forallb_forall _ _) H r Hr) as H1.
  pose proof (proj1 (forallb_forall _ _) H1 c Hc) as H2.
  cbv beta in H2. destruct (as_float c) as [x|]; [by eexists|discriminate].
Qed.

Lemma export_header_and_file_name_witness :
  exports (trace_of (app sample_format fetch_aapl (sample_inputs "aapl" true)))
  = [("AAPL_stock_data.csv",
      ("Date,Open,High,Low,Close,Volume" ++
       String Text.newline
         (Csv.writerows
            (List.map (fun r => List.map (cell_text sample_format)
                                  (fst r :: snd r)) (rows aapl))))%string)]
  /\ exports (trace_of (app sample_format fetch_aapl_msft
                          (sample_inputs "msft, aapl" true)))
     = [("multi_stock_data.csv",
         ("Open,High,Low,Close,Volume,Symbol,Date" ++
          String Text.newline
            (Csv.writerows
               (List.map (List.map (cell_text sample_format))
                  (tagged_rows aapl_msft ["MSFT"; "AAPL"]))))%string)].
Proof.
  split.
  - apply (proj1 (export_header_and_file_name sample_format fetch_aapl
                    (sample_inputs "aapl" true)) "AAPL" aapl);
      try reflexivity.
    by apply numeric_check.
  - apply (proj2 (export_header_and_file_name sample_format fetch_aapl_msft
                    (sample_inputs "msft, aapl" true)) aapl_msft).
    + vm_compute. lia.
    + reflexivity.
    + apply aapl_msft_uniform.
Defined.

(** C3 as stated fails for several symbols: the header row of the
    exported file starts with Open and ends with Symbol and Date; it is
    not Date,Symbol,Open,High,Low,Close,Volume. *)
Lemma multi_export_header_order :
  exists data,
    exports (trace_of (app sample_format fetch_aapl_msft
                         (sample_inputs "msft, aapl" true)))
    = [("multi_stock_data.csv", data)]
    /\ hd [] (Csv.reader data)
       = ["Open"; "High"; "Low"; "Close"; "Volume"; "Symbol"; "Date"]
    /\ hd [] (Csv.reader data)
       <> ["Date"; "Symbol"; "Open"; "High"; "Low"; "Close"; "Volume"]
    /\ String.prefix "Date,Symbol,Open,High,Low,Close,Volume" data = false.
Proof.
  eexists. split; [vm_compute; reflexivity|].
  split; [vm_compute; reflexivity|]. split; [|vm_compute; reflexivity].
  vm_compute. discriminate.
Qed.

Section OverlayAndRoundTrip.

Variable format_value : cell -> string.
Variable load_stock_data : list string -> date -> date -> fetched.

Lemma has_column_false_inv name cols :
  has_column name cols = false -> name ∉ cols.
Proof.
  intros H Hin. by rewrite (has_column_true _ _ Hin) in H.
Qed.

(** What one symbol's run exports. *)
Lemma single_run_exports inp symbol ma :
  symbols_of (symbol_input inp) = [symbol] ->
  exports (trace_of (app format_value load_stock_data (with_show_ma inp ma)))
  = match load_stock_data [symbol] (start_date inp) (end_date inp) with
    | Fetched raw_data =>
        exports (trace_of (single_view format_value symbol raw_data ma))
    | Failed _ => []
    end.
Proof.
  intros Hsym.
  assert (Hne : symbols_of (symbol_input (with_show_ma inp ma)) <> [])
    by (cbn [with_show_ma symbol_input]; by rewrite Hsym).
  destruct (load_stock_data [symbol] (start_date inp) (end_date inp))
    as [raw_data|message] eqn:Hload.
  - rewrite (app_exports _ _ (with_show_ma inp ma) raw_data Hne)
      by (cbn [with_show_ma symbol_input start_date end_date];
          by rewrite Hsym).
    cbn [with_show_ma symbol_input show_ma]. by rewrite Hsym.
  - rewrite app_trace, exports_app.
    rewrite (body_failed _ _ (with_show_ma inp ma) message Hne)
      by (cbn [with_show_ma symbol_input start_date end_date];
          by rewrite Hsym).
    reflexivity.
Qed.

(** With numbers in the Close column the overlay never decides whether
    the single-symbol view exports, nor what. *)
Lemma single_view_exports_any_flag symbol raw_data ma :
  (forall df, shape_single raw_data = Ok df -> numeric_close df) ->
  exports (trace_of (single_view format_value symbol raw_data ma))
  = exports (trace_of (single_view format_value symbol raw_data false)).
Proof.
  intros Hnum. rewrite !single_view_exports.
  destruct (shape_single raw_data) as [e|df]; [done|].
  specialize (Hnum df eq_refl).
  destruct (getitem df "Date"); [done|].
  destruct (getitem df "Open"); [done|].
  destruct (getitem df "High"); [done|].
  destruct (getitem df "Low"); [done|].
  destruct (getitem df "Close") as [e|close] eqn:Hclose; [done|].
  destruct (getitem df "Volume"); [done|].
  destruct ma; [|done].
  destruct (Hnum close Hclose) as [xs Hxs].
  unfold rolling_mean. by rewrite Hxs.
Qed.



End OverlayAndRoundTrip.

Lemma numeric_close_check df :
  match getitem df "Close" with
  | inr close => match to_numeric close with Some _ => true | None => false end
  | inl _ => true
  end = true ->
  numeric_close df.
Proof.
  intros H close Hclose. rewrite Hclose in H. cbv beta iota delta [Ok] in H.
  destruct (to_numeric close); [by eexists|discriminate].
Qed.



Lemma no_carriage_return_check format_value df :
  forallb (forallb (fun s => negb (has_char Csv.carriage_return s)))
    (columns df ::
     List.map (fun r => List.map (cell_text format_value) (snd r)) (rows df))
  = true ->
  no_carriage_return format_value df.
Proof.
  intros H. unfold no_carriage_return. apply Forall_forall.
  intros r Hr%list_elem_of_In. apply Forall_forall. intros f Hf%list_elem_of_In.
  pose proof (proj1 (forallb_forall _ _) H r Hr) as H1.
  pose proof (proj1 (forallb_forall _ _) H1 f Hf) as H2.
  by apply negb_true_iff in H2.
Qed.



(** * Further properties of the script *)

(** ** The symbol list (line 15) *)

Section SymbolListProperties.

Import PyStr.

Lemma symbols_split l : symbols l = symbols_from (split "," l).
Proof. reflexivity. Qed.

Lemma symbols_cons_normalised a rest :
  normalised a -> symbols_from (a :: rest) = a :: symbols_from rest.
Proof.
  intros (Ht & _ & Hs & Hu). unfold symbols_from. cbn [List.filter].
  rewrite Hs, Ht. cbn [List.map]. by rewrite Hs, Hu.
Qed.

Lemma symbols_leading_space t :
  symbols_from (split "," (" " :: t)) = symbols_from (split "," t).
Proof.
  unfold symbols_from. cbn [split].
  change (String.eqb " " ",") with false. cbv iota.
  pose proof (split_nonempty "," t) as Hne.
  destruct (split "," t) as [|w ws]; [done|].
  cbn [List.filter]. rewrite (strip_skip_space " " w) by done.
  destruct (truthy (strip w)); [|done].
  cbn [List.map]. by rewrite (strip_skip_space " " w).
Qed.

(** Every symbol the script works with is not empty, holds no comma, has
    no white space at either end and is in upper case. *)
Theorem symbols_are_normalised (symbol_input : string) :
  Forall normalised (symbols (chars symbol_input)).
Proof.
  unfold symbols. apply Forall_map, Forall_forall.
  intros p [Hp Ht]%list_elem_of_In%filter_In.
  apply list_elem_of_In in Hp.
  pose proof (proj1 (Forall_forall _ _) (split_pieces "," (chars symbol_input))
                p Hp) as Hcomma.
  unfold normalised. rewrite truthy_upper, contains_upper, strip_upper,
    strip_idem, upper_idem.
  split; [done|]. split; [by apply contains_strip|done].
Qed.

Lemma chars_join_cons a b rest :
  chars (Text.join ", " (a :: b :: rest))
  = chars a ++ "," :: " " :: chars (Text.join ", " (b :: rest)).
Proof.
  change (Text.join ", " (a :: b :: rest))
    with (a ++ String "," (String " " (Text.join ", " (b :: rest))))%string.
  rewrite chars_app by done. by rewrite !chars_ascii by done.
Qed.

(** Symbols that are already in the form the script works with come back
    unchanged, in order, when they are joined with a comma and a space,
    as the sidebar's default text is, and resolved again. *)
Theorem symbols_of_join (l : list string) :
  Forall (fun s => normalised (chars s)) l ->
  symbols_of (Text.join ", " l) = l.
Proof.
  unfold symbols_of.
  induction 1 as [|a rest Ha Hrest IH]; [done|].
  rewrite symbols_split in *. destruct rest as [|b rest].
  - cbn [Text.join]. rewrite split_whole by apply Ha.
    rewrite symbols_cons_normalised by done.
    cbn [List.map symbols_from List.filter]. by rewrite encode_chars.
  - rewrite chars_join_cons, split_app by apply Ha.
    rewrite symbols_cons_normalised by done. cbn [List.map].
    rewrite encode_chars. f_equal.
    rewrite symbols_leading_space. exact IH.
Qed.

Lemma symbols_of_join_witness :
  symbols_of (Text.join ", " default_symbols) = default_symbols.
Proof.
  apply symbols_of_join. unfold default_symbols, normalised.
  repeat constructor.
Defined.

Lemma blank_pieces l :
  forallb (fun p => negb (truthy (strip p))) (split "," l)
  = forallb (fun ch => String.eqb ch "," || isspace ch) l.
Proof.
  induction l as [|c s IH]; [done|]. cbn [split forallb].
  destruct (String.eqb c ",") eqn:E; [by rewrite <- IH|].
  pose proof (split_nonempty "," s) as Hne.
  destruct (split "," s) as [|w ws]; [done|].
  cbn [forallb] in *. rewrite <- IH, truthy_strip_cons.
  cbn [orb]. by destruct (isspace c), (truthy (strip w)).
Qed.

(** The symbol list is empty, and the script only asks for a symbol,
    exactly when the text typed holds nothing but commas and white
    space. *)
Theorem symbols_empty_iff (symbol_input : string) :
  symbols_of symbol_input = [] <-> only_separators symbol_input = true.
Proof.
  unfold only_separators. rewrite <- blank_pieces. unfold symbols_of, symbols.
  generalize (split "," (chars symbol_input)). intros l.
  induction l as [|p l IH]; [done|]. cbn [List.filter forallb].
  destruct (truthy (strip p)); cbn [List.map negb andb]; [done|].
  exact IH.
Qed.

End SymbolListProperties.

(** ** What a run calls, whatever the data *)

Section Calls.

Variable format_value : cell -> string.
Variable load_stock_data : list string -> date -> date -> fetched.

Lemma Forall_bind {A B} (P : event -> Prop) (m : Script A) (k : A -> Script B) :
  Forall P (trace_of m) ->
  (forall a, Forall P (trace_of (k a))) ->
  Forall P (trace_of (bind m k)).
Proof.
  intros Hm Hk. destruct m as [log [a| |e]]; cbn in *; [|done|done].
  specialize (Hk a). destruct (k a) as [log' r]. cbn in *.
  by apply Forall_app.
Qed.

Lemma Forall_lift {A} (P : event -> Prop) (r : result A) :
  Forall P (trace_of (lift r)).
Proof. destruct r; constructor. Qed.

Lemma Forall_emit (P : event -> Prop) e : P e -> Forall P (trace_of (emit e)).
Proof. intros H. by repeat constructor. Qed.

Ltac renders :=
  repeat first
    [ apply Forall_lift
    | apply Forall_emit; reflexivity
    | apply Forall_bind; [|intros ?]
    | progress cbv zeta
    | constructor ].

(** The views only draw: headings, tables, charts, the download button. *)
Lemma single_view_renders symbol raw_data ma :
  Forall (fun e => is_render e = true)
    (trace_of (single_view format_value symbol raw_data ma)).
Proof. unfold single_view. destruct ma; renders. Qed.

Lemma multi_view_renders symbols raw_data :
  Forall (fun e => is_render e = true)
    (trace_of (multi_view format_value symbols raw_data)).
Proof. unfold multi_view. renders. Qed.

Lemma view_renders symbols raw_data ma :
  Forall (fun e => is_render e = true)
    (trace_of (view format_value symbols raw_data ma)).
Proof.
  unfold view. destruct symbols as [|s [|s' rest]];
    auto using single_view_renders, multi_view_renders.
Qed.

Lemma filter_renders (f : event -> bool) log :
  (forall e, is_render e = true -> f e = false) ->
  Forall (fun e => is_render e = true) log ->
  List.filter f log = [].
Proof.
  intros Hf. induction 1 as [|e log He _ IH]; [done|].
  cbn. by rewrite (Hf e He).
Qed.

(** The fetch is called once in a run with symbols, with the resolved
    symbols and the two dates of the sidebar, and not at all in a run
    without; nothing that happens afterwards calls it again. *)
Theorem fetch_called_once (inp : Inputs) :
  List.filter is_fetch_call (trace_of (app format_value load_stock_data inp))
  = match symbols_of (symbol_input inp) with
    | [] => []
    | _ :: _ => [load_stock_data_call (symbols_of (symbol_input inp))
                   (start_date inp) (end_date inp)]
    end.
Proof.
  rewrite app_trace, List.filter_app.
  change (List.filter is_fetch_call (trace_of (page_setup inp))) with (@nil event).
  destruct (symbols_of (symbol_input inp)) as [|s rest] eqn:Hsym.
  - unfold body. by rewrite Hsym.
  - assert (Hne : symbols_of (symbol_input inp) <> []) by by rewrite Hsym.
    rewrite <- Hsym.
    destruct (load_stock_data (symbols_of (symbol_input inp))
                (start_date inp) (end_date inp)) as [raw_data|message] eqn:Hload.
    + rewrite (body_fetched _ _ inp raw_data Hne Hload).
      cbn [app trace_of fst List.filter is_fetch_call].
      rewrite (filter_renders is_fetch_call); [done|by intros []|].
      apply view_renders.
    + by rewrite (body_failed _ _ inp message Hne Hload).
Qed.

(** [st.error] is called for a failed fetch and for nothing else: a run
    whose fetch succeeded shows no error message, also when an exception
    ends it later. *)
Theorem error_only_for_failed_fetch (inp : Inputs) :
  List.filter is_error (trace_of (app format_value load_stock_data inp))
  = match symbols_of (symbol_input inp),
          load_stock_data (symbols_of (symbol_input inp))
            (start_date inp) (end_date inp) with
    | _ :: _, Failed message => [error ("Failed to fetch stock data: " ++ message)]
    | _, _ => []
    end.
Proof.
  rewrite app_trace, List.filter_app.
  change (List.filter is_error (trace_of (page_setup inp))) with (@nil event).
  destruct (symbols_of (symbol_input inp)) as [|s rest] eqn:Hsym.
  - unfold body. by rewrite Hsym.
  - assert (Hne : symbols_of (symbol_input inp) <> []) by by rewrite Hsym.
    rewrite <- Hsym.
    destruct (load_stock_data (symbols_of (symbol_input inp))
                (start_date inp) (end_date inp)) as [raw_data|message] eqn:Hload.
    + rewrite (body_fetched _ _ inp raw_data Hne Hload).
      cbn [app trace_of fst List.filter is_error].
      rewrite (filter_renders is_error); [done|by intros []|].
      apply view_renders.
    + by rewrite (body_failed _ _ inp message Hne Hload).
Qed.

End Calls.

(** ** What the single-symbol view draws (lines 36-82) *)

Section SingleView.

Variable format_value : cell -> string.

Lemma getitem_shaped_date raw :
  getitem (table ("Date" :: columns raw)
             (List.map (fun r => fst r :: snd r) (rows raw))) "Date"
  = Ok (index raw).
Proof.
  rewrite (getitem_table _ _ "Date" 0%nat) by apply col_pos_head.
  by rewrite map_map.
Qed.

(** For a fetched frame indexed by date that has the five price columns
    and holds numbers, the single-symbol view runs to its end and draws
    the first five rows of the table and three charts over the dates of
    the frame: the candlesticks from Open, High, Low and Close, the line
    of Close, followed by the dashed moving average of Close when the box
    is ticked, and the bars of Volume. *)
Theorem single_view_draws (symbol : string) (raw : DataFrame) (ma_flag : bool)
    (o h l c v : list cell) :
  index_name raw = Some "Date" -> "Date" ∉ columns raw -> numeric raw ->
  getitem raw "Open" = Ok o -> getitem raw "High" = Ok h ->
  getitem raw "Low" = Ok l -> getitem raw "Close" = Ok c ->
  getitem raw "Volume" = Ok v ->
  outcome_of (single_view format_value symbol (Single raw) ma_flag) = Done tt
  /\ previews (trace_of (single_view format_value symbol (Single raw) ma_flag))
     = [head (table ("Date" :: columns raw)
                (List.map (fun r => fst r :: snd r) (rows raw)))]
  /\ exists ma, rolling_mean 7 c = Ok ma
       /\ charts (trace_of (single_view format_value symbol (Single raw) ma_flag))
          = [ {| fig_data := [Candlestick (index raw) o h l c symbol];
                 fig_layout := Some (mkLayout (symbol ++ " Candlestick Chart")
                                       "Date" "Price (USD)") |};
              {| fig_data :=
                   Scatter (index raw) c "lines" "Close" None None
                   :: (if ma_flag
                       then [Scatter (index raw) ma "lines" "7-Day MA"
                               (Some "dash") None]
                       else []);
                 fig_layout := Some (mkLayout "Closing Price Trend"
                                       "Date" "Price (USD)") |};
              {| fig_data := [Bar (index raw) v "Volume"];
                 fig_layout := Some (mkLayout "Trading Volume" "Date" "Volume") |} ].
Proof.
  intros Hname Hfresh Hnum Ho Hh Hl Hc Hv.
  destruct (rolling_mean_numeric raw c Hnum Hc) as [ma Hma].
  pose proof (getitem_shaped_date raw) as Hd'.
  pose proof (getitem_shaped raw "Open" ltac:(discriminate)) as Ho'.
  pose proof (getitem_shaped raw "High" ltac:(discriminate)) as Hh'.
  pose proof (getitem_shaped raw "Low" ltac:(discriminate)) as Hl'.
  pose proof (getitem_shaped raw "Close" ltac:(discriminate)) as Hc'.
  pose proof (getitem_shaped raw "Volume" ltac:(discriminate)) as Hv'.
  rewrite Ho in Ho'. rewrite Hh in Hh'. rewrite Hl in Hl'.
  rewrite Hc in Hc'. rewrite Hv in Hv'.
  unfold single_view. rewrite (shape_single_date raw Hname Hfresh).
  remember (table ("Date" :: columns raw)
              (List.map (fun r => fst r :: snd r) (rows raw))) as df eqn:Edf.
  cbn -[getitem rolling_mean to_csv head].
  rewrite Hd', Ho', Hh', Hl', Hc', Hv'.
  cbn -[getitem rolling_mean to_csv head].
  destruct ma_flag.
  - rewrite Hma. cbn -[getitem rolling_mean to_csv head].
    split; [done|]. split; [done|]. by exists ma.
  - cbn -[getitem rolling_mean to_csv head].
    split; [done|]. split; [done|]. by exists ma.
Qed.

End SingleView.

Lemma single_view_draws_witness :
  outcome_of (single_view sample_format "AAPL" (Single aapl) true) = Done tt.
Proof.
  apply (single_view_draws sample_format "AAPL" aapl true
           [Float 130; Float 127] [Float 131; Float 129]
           [Float 124; Float 125] [Float 125; Float 126]
           [Int 112117500; Int 89113600]); try reflexivity.
  - apply ohlcv_no_date.
  - by apply numeric_check.
Defined.

Section SingleViewMissing.

Variable format_value : cell -> string.

Lemma getitem_has raw name :
  has_column name (columns raw) = true -> exists vals, getitem raw name = Ok vals.
Proof.
  unfold has_column, getitem.
  destruct (col_pos name (columns raw)); [by eexists|done].
Qed.

Lemma getitem_hasnt raw name :
  has_column name (columns raw) = false -> getitem raw name = Err (KeyError name).
Proof.
  unfold has_column, getitem. by destruct (col_pos name (columns raw)).
Qed.

(** When the fetched frame of a single symbol lacks one of the five price
    columns, the view ends with a [KeyError] for the first one it lacks,
    in the order Open, High, Low, Close, Volume, and offers no file.  The
    table preview has been drawn by then; no chart has, unless the column
    is Volume: then the candlestick and the line chart are on the page
    when the run fails. *)
Theorem single_view_missing_column (symbol : string) (raw : DataFrame)
    (ma_flag : bool) (k : string) :
  index_name raw = Some "Date" -> "Date" ∉ columns raw -> numeric raw ->
  first_missing ohlcv (columns raw) = Some k ->
  outcome_of (single_view format_value symbol (Single raw) ma_flag)
  = Raised (KeyError k)
  /\ exports (trace_of (single_view format_value symbol (Single raw) ma_flag)) = []
  /\ length (previews (trace_of (single_view format_value symbol (Single raw)
                                   ma_flag))) = 1%nat
  /\ length (charts (trace_of (single_view format_value symbol (Single raw)
                                 ma_flag)))
     = (if String.eqb k "Volume" then 2 else 0)%nat.
Proof.
  intros Hname Hfresh Hnum Hk.
  pose proof (getitem_shaped_date raw) as Hd'.
  pose proof (getitem_shaped raw "Open" ltac:(discriminate)) as Ho'.
  pose proof (getitem_shaped raw "High" ltac:(discriminate)) as Hh'.
  pose proof (getitem_shaped raw "Low" ltac:(discriminate)) as Hl'.
  pose proof (getitem_shaped raw "Close" ltac:(discriminate)) as Hc'.
  pose proof (getitem_shaped raw "Volume" ltac:(discriminate)) as Hv'.
  unfold single_view. rewrite (shape_single_date raw Hname Hfresh).
  remember (table ("Date" :: columns raw)
              (List.map (fun r => fst r :: snd r) (rows raw))) as df eqn:Edf.
  cbn -[getitem rolling_mean to_csv head]. rewrite Hd'.
  cbn -[getitem rolling_mean to_csv head].
  unfold ohlcv in Hk. cbn [first_missing] in Hk.
  destruct (has_column "Open" (columns raw)) eqn:EO;
    [destruct (getitem_has raw "Open" EO) as [o Ho]
    |injection Hk as <-; by rewrite Ho', (getitem_hasnt raw "Open" EO)].
  rewrite Ho', Ho. cbn -[getitem rolling_mean to_csv head].
  destruct (has_column "High" (columns raw)) eqn:EH;
    [destruct (getitem_has raw "High" EH) as [h Hh]
    |injection Hk as <-; by rewrite Hh', (getitem_hasnt raw "High" EH)].
  rewrite Hh', Hh. cbn -[getitem rolling_mean to_csv head].
  destruct (has_column "Low" (columns raw)) eqn:EL;
    [destruct (getitem_has raw "Low" EL) as [l Hl]
    |injection Hk as <-; by rewrite Hl', (getitem_hasnt raw "Low" EL)].
  rewrite Hl', Hl. cbn -[getitem rolling_mean to_csv head].
  destruct (has_column "Close" (columns raw)) eqn:EC;
    [destruct (getitem_has raw "Close" EC) as [c Hc]
    |injection Hk as <-; by rewrite Hc', (getitem_hasnt raw "Close" EC)].
  rewrite Hc', Hc. cbn -[getitem rolling_mean to_csv head].
  destruct (has_column "Volume" (columns raw)) eqn:EV; [done|].
  injection Hk as <-.
  destruct (rolling_mean_numeric raw c Hnum Hc) as [ma Hma].
  destruct ma_flag.
  - rewrite Hma. cbn -[getitem rolling_mean to_csv head].
    by rewrite Hv', (getitem_hasnt raw "Volume" EV).
  - cbn -[getitem rolling_mean to_csv head].
    by rewrite Hv', (getitem_hasnt raw "Volume" EV).
Qed.

End SingleViewMissing.

Lemma single_view_missing_column_witness :
  outcome_of (single_view sample_format "AAPL" (Single no_volume) true)
  = Raised (KeyError "Volume")
  /\ exports (trace_of (single_view sample_format "AAPL" (Single no_volume) true))
     = []
  /\ length (previews (trace_of (single_view sample_format "AAPL"
                                   (Single no_volume) true))) = 1%nat
  /\ length (charts (trace_of (single_view sample_format "AAPL"
                                 (Single no_volume) true))) = 2%nat.
Proof.
  apply (single_view_missing_column sample_format "AAPL" no_volume true "Volume").
  - reflexivity.
  - decide_by_computation.
  - by apply numeric_check.
  - reflexivity.
Defined.

(** ** What the multi-symbol view draws (lines 93-123) *)

Section MultiView.

Variable format_value : cell -> string.
Variable by_ticker : gmap string DataFrame.

Lemma trace_loop_lines column stackgroup symbols fig fig' :
  trace_loop (Multiple by_ticker) column stackgroup symbols fig = Ok fig' ->
  fig' = {| fig_data := fig_data fig
                        ++ symbol_lines by_ticker column stackgroup symbols;
            fig_layout := fig_layout fig |}.
Proof.
  revert fig. induction symbols as [|s rest IH]; intros fig.
  - intros [= <-]. destruct fig. cbn. by rewrite app_nil_r.
  - cbn [trace_loop ticker_frame]. unfold symbol_lines, column_of, series.
    cbn [List.map]. destruct (by_ticker !! s) as [f|]; [|done].
    cbv beta iota delta [Ok copy].
    destruct (getitem f column) as [e|y]; [done|].
    intros H. rewrite (IH _ H). cbn [add_trace fig_data fig_layout].
    by rewrite <- app_assoc.
Qed.

Lemma range_index_from_map (f : list cell -> list cell) i data :
  List.map (fun r => (fst r, f (snd r))) (range_index_from i data)
  = range_index_from i (List.map f data).
Proof.
  revert i. induction data as [|row data IH]; intros i; [done|].
  cbn. by rewrite IH.
Qed.

Lemma realign_preview (vals : list cell) (a b : cell) :
  length vals = 5%nat ->
  realign (ohlcv ++ ["Symbol"; "Date"])
    ["Date"; "Symbol"; "Open"; "High"; "Low"; "Close"; "Volume"]
    (vals ++ [a; b])
  = b :: a :: vals.
Proof.
  intros H. do 5 (destruct vals as [|? vals]; [done|]).
  by destruct vals.
Qed.

Lemma preview_rows_cons s f rest :
  by_ticker !! s = Some f ->
  preview_rows by_ticker (s :: rest)
  = List.map (fun r => fst r :: Str s :: snd r) (rows f)
    ++ preview_rows by_ticker rest.
Proof. intros Hf. unfold preview_rows, series. cbn. by rewrite Hf. Qed.

Lemma preview_of_tagged symbols :
  uniform by_ticker ohlcv symbols ->
  List.map (realign (ohlcv ++ ["Symbol"; "Date"])
              ["Date"; "Symbol"; "Open"; "High"; "Low"; "Close"; "Volume"])
    (tagged_rows by_ticker symbols)
  = preview_rows by_ticker symbols.
Proof.
  induction symbols as [|s rest IH]; intros Hu; [done|].
  destruct (Hu s) as (f & Hf & Hc & Hwf); [by left|].
  rewrite (tagged_rows_cons _ s f rest Hf), map_app, IH
    by (intros s' Hs'; apply Hu; by right).
  rewrite (preview_rows_cons s f rest Hf).
  f_equal. rewrite map_map. apply map_ext_in. intros r Hr%list_elem_of_In.
  apply realign_preview.
  unfold well_formed in Hwf. rewrite Hc in Hwf.
  apply (proj1 (Forall_forall _ _) Hwf r Hr).
Qed.

(** For several symbols whose fetched frames have the five price columns,
    the multi-symbol view runs to its end and draws two charts, each with
    one line per requested symbol, in the order requested and named after
    the symbol, over the dates of that symbol's frame: the closes, and
    the volumes stacked in one group. *)
Theorem multi_view_charts (symbols : list string) :
  symbols <> [] -> uniform by_ticker ohlcv symbols ->
  outcome_of (multi_view format_value symbols (Multiple by_ticker)) = Done tt
  /\ charts (trace_of (multi_view format_value symbols (Multiple by_ticker)))
     = [ {| fig_data := symbol_lines by_ticker "Close" None symbols;
            fig_layout := Some (mkLayout "Closing Price Over Time"
                                  "Date" "Price (USD)") |};
         {| fig_data := symbol_lines by_ticker "Volume" (Some "one") symbols;
            fig_layout := Some (mkLayout "Volume Traded Over Time"
                                  "Date" "Volume") |} ].
Proof.
  intros Hne Hu. unfold multi_view.
  rewrite (shape_multi_shared by_ticker ohlcv ohlcv_nodup ohlcv_no_symbol
             ohlcv_no_date symbols Hne Hu).
  destruct (trace_loop_ok by_ticker ohlcv "Close" None symbols
              (mkFigure [] None) Hu) as [fig_multi Hm]; [decide_by_computation|].
  destruct (trace_loop_ok by_ticker ohlcv "Volume" (Some "one") symbols
              (mkFigure [] None) Hu) as [fig_vol Hv]; [decide_by_computation|].
  pose proof (trace_loop_lines _ _ _ _ _ Hm) as Em.
  pose proof (trace_loop_lines _ _ _ _ _ Hv) as Ev.
  cbn [fig_data fig_layout Datatypes.app] in Em, Ev.
  cbn -[select trace_loop to_csv head].
  unfold select. cbn [columns table].
  change (first_missing _ _) with (@None string).
  cbn -[select trace_loop to_csv head realign].
  rewrite Hm. cbn -[select trace_loop to_csv head realign].
  rewrite Hv. cbn -[select trace_loop to_csv head realign].
  by rewrite Em, Ev.
Qed.

(** The table preview of the multi-symbol view shows the first five rows
    of the table with the columns in the order Date, Symbol, Open, High,
    Low, Close, Volume; the exported file keeps the table's own order. *)
Theorem multi_view_preview (symbols : list string) :
  symbols <> [] -> uniform by_ticker ohlcv symbols ->
  previews (trace_of (multi_view format_value symbols (Multiple by_ticker)))
  = [head (table ["Date"; "Symbol"; "Open"; "High"; "Low"; "Close"; "Volume"]
             (preview_rows by_ticker symbols))].
Proof.
  intros Hne Hu. unfold multi_view.
  rewrite (shape_multi_shared by_ticker ohlcv ohlcv_nodup ohlcv_no_symbol
             ohlcv_no_date symbols Hne Hu).
  destruct (trace_loop_ok by_ticker ohlcv "Close" None symbols
              (mkFigure [] None) Hu) as [fig_multi Hm]; [decide_by_computation|].
  destruct (trace_loop_ok by_ticker ohlcv "Volume" (Some "one") symbols
              (mkFigure [] None) Hu) as [fig_vol Hv]; [decide_by_computation|].
  cbn -[select trace_loop to_csv head].
  unfold select. cbn [columns table].
  change (first_missing _ _) with (@None string).
  cbn -[select trace_loop to_csv head realign].
  rewrite Hm. cbn -[select trace_loop to_csv head realign].
  rewrite Hv. cbn -[select trace_loop to_csv head realign].
  do 2 f_equal. unfold table. f_equal. unfold range_index.
  by rewrite range_index_from_map, preview_of_tagged.
Qed.

End MultiView.

Lemma multi_view_charts_witness :
  outcome_of (multi_view sample_format ["MSFT"; "AAPL"] (Multiple aapl_msft))
  = Done tt
  /\ charts (trace_of (multi_view sample_format ["MSFT"; "AAPL"]
                         (Multiple aapl_msft)))
     = [ {| fig_data := symbol_lines aapl_msft "Close" None ["MSFT"; "AAPL"];
            fig_layout := Some (mkLayout "Closing Price Over Time"
                                  "Date" "Price (USD)") |};
         {| fig_data := symbol_lines aapl_msft "Volume" (Some "one")
                          ["MSFT"; "AAPL"];
            fig_layout := Some (mkLayout "Volume Traded Over Time"
                                  "Date" "Volume") |} ].
Proof.
  apply (multi_view_charts sample_format aapl_msft ["MSFT"; "AAPL"]).
  - discriminate.
  - apply aapl_msft_uniform.
Defined.

Lemma multi_view_preview_witness :
  previews (trace_of (multi_view sample_format ["MSFT"; "AAPL"]
                        (Multiple aapl_msft)))
  = [head (table ["Date"; "Symbol"; "Open"; "High"; "Low"; "Close"; "Volume"]
             (preview_rows aapl_msft ["MSFT"; "AAPL"]))].
Proof.
  apply (multi_view_preview sample_format aapl_msft ["MSFT"; "AAPL"]).
  - discriminate.
  - apply aapl_msft_uniform.
Defined.

(** ** Invariants of the shaped tables (lines 37-38 and 86-91) *)

Section TableInvariants.

Lemma index_range_index_from i data :
  List.map fst (range_index_from i data)
  = List.map (fun k => Int (Z.of_nat k)) (seq i (length data)).
Proof.
  revert i. induction data as [|row data IH]; intros i; [done|].
  cbn. by rewrite IH.
Qed.

Lemma index_table cols data :
  index (table cols data) = range_labels (nrows (table cols data)).
Proof.
  unfold index, range_labels. rewrite nrows_table. cbn [rows table].
  apply index_range_index_from.
Qed.

Lemma realign_length from to_ vals : length (realign from to_ vals) = length to_.
Proof. unfold realign. by rewrite length_map. Qed.

(** Whatever the two frames, their concatenation is rectangular and
    freshly indexed. *)
Lemma concat_invariant a b :
  well_formed (concat a b)
  /\ index (concat a b) = range_labels (nrows (concat a b))
  /\ index_name (concat a b) = None.
Proof.
  split; [|split; [apply (index_table _ _)|done]].
  unfold well_formed, concat. cbn [columns rows].
  apply (Forall_range_index_from
           (fun row => length row = length (columns a ++
              List.filter (fun c => negb (has_column c (columns a))) (columns b)))).
  apply Forall_app. split; apply Forall_map, Forall_forall; intros r _;
    apply realign_length.
Qed.

Lemma shape_loop_invariant (P : DataFrame -> Prop) raw_data symbols df0 df :
  P df0 -> (forall a b, P (concat a b)) ->
  shape_loop raw_data symbols df0 = Ok df -> P df.
Proof.
  intros H0 Hc. revert df0 H0.
  induction symbols as [|s rest IH]; intros df0 H0; cbn [shape_loop].
  - by intros [= <-].
  - destruct (ticker_frame raw_data s) as [e|stock_df]; [done|].
    apply IH, Hc.
Qed.

(** The table of the multi-symbol view is rectangular, every row having
    one cell per column, with missing values where a symbol's frame
    lacks a column another has, and its index is 0, 1, 2, ... whatever
    the indexes of the fetched frames were. *)
Theorem shape_multi_invariant (raw_data : RawData) (symbols : list string)
    (df : DataFrame) :
  shape_multi raw_data symbols = Ok df ->
  well_formed df
  /\ index df = range_labels (nrows df)
  /\ index_name df = None.
Proof.
  apply (shape_loop_invariant
           (fun d => well_formed d /\ index d = range_labels (nrows d)
                     /\ index_name d = None)).
  - split; [constructor|done].
  - apply concat_invariant.
Qed.

(** The table of the single-symbol view has the index 0, 1, 2, ... in
    place of the dates, which are now its first column, and is
    rectangular when the fetched frame is. *)
Theorem shape_single_invariant (raw : DataFrame) (df : DataFrame) :
  shape_single (Single raw) = Ok df ->
  index df = range_labels (nrows df)
  /\ index_name df = None
  /\ nrows df = nrows raw
  /\ (exists name, columns df = name :: columns raw /\ (name ∉ columns raw)
                   /\ getitem df name = Ok (index raw))
  /\ (well_formed raw -> well_formed df).
Proof.
  unfold shape_single, reset_index, copy.
  set (name := match index_name raw with
               | Some n => n
               | None => if has_column "index" (columns raw)
                         then "level_0" else "index"
               end).
  destruct (has_column name (columns raw)) eqn:Hfresh; [done|].
  intros [= <-].
  change {| index_name := None; columns := name :: columns raw;
            rows := range_index (List.map (fun r => fst r :: snd r) (rows raw)) |}
    with (table (name :: columns raw)
            (List.map (fun r => fst r :: snd r) (rows raw))).
  split; [apply index_table|]. split; [done|].
  split; [by rewrite nrows_table, length_map|]. split.
  - exists name. split; [done|]. split; [by apply has_column_false_inv|].
    rewrite (getitem_table _ _ name 0%nat) by apply col_pos_head.
    by rewrite map_map.
  - intros Hwf. unfold well_formed. cbn [columns rows table].
    apply (Forall_range_index_from
             (fun row => length row = length (name :: columns raw))).
    apply Forall_map. eapply Forall_impl; [exact Hwf|].
    intros r Hr. cbn. by rewrite Hr.
Qed.

End TableInvariants.

(** ** The exported text tells tables apart (lines 81 and 126) *)

(** Two tables that export the same text have the same columns in the
    same order and, row by row, cells with the same text. *)
Theorem to_csv_injective (format_value : cell -> string) (df1 df2 : DataFrame) :
  to_csv format_value df1 = to_csv format_value df2 ->
  columns df1 = columns df2
  /\ List.map (fun r => List.map (cell_text format_value) (snd r)) (rows df1)
     = List.map (fun r => List.map (cell_text format_value) (snd r)) (rows df2).
Proof.
  intros H. apply (f_equal Csv.reader) in H. unfold to_csv in H.
  rewrite !reader_writerows in H. by injection H.
Qed.

Lemma to_csv_injective_witness :
  columns {| index_name := None; columns := ["Close"];
             rows := [(Int 0, [Int 5])] |}
  = columns {| index_name := Some "Date"; columns := ["Close"];
               rows := [(on_day 19360, [Str "5"])] |}
  /\ List.map (fun r => List.map (cell_text sample_format) (snd r))
       (rows {| index_name := None; columns := ["Close"];
                rows := [(Int 0, [Int 5])] |})
     = List.map (fun r => List.map (cell_text sample_format) (snd r))
         (rows {| index_name := Some "Date"; columns := ["Close"];
                  rows := [(on_day 19360, [Str "5"])] |}).
Proof.
  apply (to_csv_injective sample_format
           {| index_name := None; columns := ["Close"];
              rows := [(Int 0, [Int 5])] |}
           {| index_name := Some "Date"; columns := ["Close"];
              rows := [(on_day 19360, [Str "5"])] |}).
  reflexivity.
Defined.

(** ** The cache in front of the download (lines 21-24) *)

Section CachedLoad.

Variable format_value : cell -> string.

Lemma same_date_refl d : same_date d d = true.
Proof. unfold same_date. by rewrite !Z.eqb_refl. Qed.

Lemma same_date_eq a b : same_date a b = true -> a = b.
Proof.
  unfold same_date. intros [[Hy Hm]%andb_true_iff Hd]%andb_true_iff.
  apply Z.eqb_eq in Hy, Hm, Hd. destruct a, b. cbn in *. congruence.
Qed.

Lemma same_request_refl key : same_request key key = true.
Proof.
  unfold same_request. by rewrite bool_decide_eq_true_2, !same_date_refl.
Qed.

Lemma same_request_eq a b : same_request a b = true -> a = b.
Proof.
  unfold same_request. intros [[Hs Ha]%andb_true_iff Hb]%andb_true_iff.
  apply bool_decide_eq_true_1 in Hs. apply same_date_eq in Ha, Hb.
  destruct a as [[? ?] ?], b as [[? ?] ?]. cbn in *. congruence.
Qed.

(** The script reads the fetch collaborator at one request only. *)
Lemma app_load_ext load load' (inp : Inputs) :
  load (symbols_of (symbol_input inp)) (start_date inp) (end_date inp)
  = load' (symbols_of (symbol_input inp)) (start_date inp) (end_date inp) ->
  app format_value load inp = app format_value load' inp.
Proof.
  intros H. unfold app, body, fetch.
  destruct (symbols_of (symbol_input inp)) as [|s rest]; [done|].
  by rewrite H.
Qed.

Lemma cached_load_hit yf_download cache symbols start end_ raw_data :
  cache_lookup (symbols, start, end_) cache = Some raw_data ->
  cached_load yf_download cache symbols start end_
  = mkLoaded (Fetched raw_data) cache [].
Proof. intros H. unfold cached_load. by rewrite H. Qed.

Lemma cached_load_stores yf_download cache symbols start end_ raw_data :
  answer (cached_load yf_download cache symbols start end_) = Fetched raw_data ->
  cache_lookup (symbols, start, end_)
    (cache_after (cached_load yf_download cache symbols start end_))
  = Some raw_data.
Proof.
  unfold cached_load.
  destruct (cache_lookup (symbols, start, end_) cache) as [r|] eqn:E.
  - cbn. intros [= <-]. exact E.
  - destruct (yf_download symbols start end_) as [r|message]; [|done].
    cbn. intros [= <-]. by rewrite same_request_refl.
Qed.

(** Once a run has fetched data for its symbols and dates, a later run
    with the same symbols and dates, for instance after the moving-average
    box was ticked, downloads nothing: it is the script run on the stored
    data, whatever the provider would answer by then, and it leaves the
    cache as it found it. *)
Theorem rerun_served_from_cache yf_download yf_download' (cache : Cache)
    (inp inp' : Inputs) (raw_data : RawData) :
  symbols_of (symbol_input inp) <> [] ->
  answer (cached_load yf_download cache (symbols_of (symbol_input inp))
            (start_date inp) (end_date inp)) = Fetched raw_data ->
  symbols_of (symbol_input inp') = symbols_of (symbol_input inp) ->
  start_date inp' = start_date inp -> end_date inp' = end_date inp ->
  run_cached format_value yf_download'
    (snd (fst (run_cached format_value yf_download cache inp))) inp'
  = (app format_value (fun _ _ _ => Fetched raw_data) inp',
     snd (fst (run_cached format_value yf_download cache inp)), []).
Proof.
  intros Hne Hans Hsym Hstart Hend.
  pose proof (cached_load_stores _ _ _ _ _ _ Hans) as Hstored.
  assert (Hcache : snd (fst (run_cached format_value yf_download cache inp))
                   = cache_after (cached_load yf_download cache
                                    (symbols_of (symbol_input inp))
                                    (start_date inp) (end_date inp))).
  { unfold run_cached. by destruct (symbols_of (symbol_input inp)). }
  rewrite Hcache. unfold run_cached at 1. rewrite Hsym, Hstart, Hend.
  rewrite (cached_load_hit yf_download' _ _ _ _ raw_data Hstored).
  cbn [answer cache_after download_calls].
  destruct (symbols_of (symbol_input inp)) as [|s rest] eqn:E; [done|].
  do 2 f_equal. apply app_load_ext. rewrite Hsym, Hstart, Hend.
  by rewrite (cached_load_hit yf_download' _ _ _ _ raw_data Hstored).
Qed.

(** A failed download is not stored: the run that met it leaves the cache
    unchanged, having called the download once, so the next run with the
    same symbols and dates calls the download again. *)
Theorem failed_download_not_cached yf_download (cache : Cache) (inp : Inputs)
    (message : string) :
  symbols_of (symbol_input inp) <> [] ->
  answer (cached_load yf_download cache (symbols_of (symbol_input inp))
            (start_date inp) (end_date inp)) = Failed message ->
  snd (fst (run_cached format_value yf_download cache inp)) = cache
  /\ snd (run_cached format_value yf_download cache inp)
     = [(symbols_of (symbol_input inp), start_date inp, end_date inp)]
  /\ forall yf_download',
       snd (run_cached format_value yf_download' cache inp)
       = [(symbols_of (symbol_input inp), start_date inp, end_date inp)].
Proof.
  intros Hne Hans.
  assert (Hmiss : cache_lookup (symbols_of (symbol_input inp), start_date inp,
                                end_date inp) cache = None).
  { unfold cached_load in Hans.
    by destruct (cache_lookup _ cache). }
  unfold run_cached, cached_load in *. rewrite Hmiss in *.
  destruct (symbols_of (symbol_input inp)) as [|s rest] eqn:E; [done|].
  destruct (yf_download (s :: rest) (start_date inp) (end_date inp));
    [done|].
  split; [done|]. split; [done|]. intros yf_download'.
  by destruct (yf_download' (s :: rest) (start_date inp) (end_date inp)).
Qed.

(** A run downloads at most once and never changes or drops what the
    cache holds for any request. *)
Theorem run_keeps_cache yf_download (cache : Cache) (inp : Inputs) :
  (length (snd (run_cached format_value yf_download cache inp)) <= 1)%nat
  /\ forall key raw_data,
       cache_lookup key cache = Some raw_data ->
       cache_lookup key (snd (fst (run_cached format_value yf_download cache inp)))
       = Some raw_data.
Proof.
  unfold run_cached, cached_load.
  destruct (symbols_of (symbol_input inp)) as [|s rest]; [by split; [cbn; lia|]|].
  destruct (cache_lookup (s :: rest, start_date inp, end_date inp) cache)
    as [r|] eqn:E; [by split; [cbn; lia|]|].
  destruct (yf_download (s :: rest) (start_date inp) (end_date inp))
    as [r|message]; [|by split; [cbn; lia|]].
  split; [cbn; lia|]. intros key raw_data Hkey. cbn.
  destruct (same_request (s :: rest, start_date inp, end_date inp) key) eqn:Hsame;
    [|done].
  apply same_request_eq in Hsame as <-. congruence.
Qed.

End CachedLoad.

Lemma rerun_served_from_cache_witness :
  run_cached sample_format fetch_fails
    (snd (fst (run_cached sample_format fetch_aapl []
                 (sample_inputs "aapl" false))))
    (sample_inputs " AAPL ," true)
  = (app sample_format (fun _ _ _ => Fetched (Single aapl))
       (sample_inputs " AAPL ," true),
     snd (fst (run_cached sample_format fetch_aapl []
                 (sample_inputs "aapl" false))),
     []).
Proof.
  apply (rerun_served_from_cache sample_format fetch_aapl fetch_fails []
           (sample_inputs "aapl" false) (sample_inputs " AAPL ," true)
           (Single aapl)); try reflexivity.
  discriminate.
Defined.

Lemma failed_download_not_cached_witness :
  snd (fst (run_cached sample_format fetch_fails []
              (sample_inputs "aapl" true))) = []
  /\ snd (run_cached sample_format fetch_fails [] (sample_inputs "aapl" true))
     = [(symbols_of "aapl", mkDate 2023 1 1, mkDate 2023 1 31)]
  /\ forall yf_download',
       snd (run_cached sample_format yf_download' [] (sample_inputs "aapl" true))
       = [(symbols_of "aapl", mkDate 2023 1 1, mkDate 2023 1 31)].
Proof.
  apply (failed_download_not_cached sample_format fetch_fails []
           (sample_inputs "aapl" true)
           "No data found, symbol may be delisted").
  - discriminate.
  - reflexivity.
Defined.

Lemma shape_multi_invariant_witness :
  exists df, shape_multi (Multiple aapl_msft) ["MSFT"; "AAPL"] = Ok df
    /\ well_formed df
    /\ index df = [Int 0; Int 1; Int 2]
    /\ index_name df = None.
Proof.
  destruct (shape_multi (Multiple aapl_msft) ["MSFT"; "AAPL"]) as [e|df] eqn:E;
    [by vm_compute in E|].
  destruct (shape_multi_invariant (Multiple aapl_msft) ["MSFT"; "AAPL"] df E)
    as (Hwf & Hidx & Hname).
  exists df. split; [done|]. split; [done|]. split; [|done].
  rewrite Hidx. vm_compute in E. injection E as <-. reflexivity.
Defined.

Lemma shape_single_invariant_witness :
  exists df, shape_single (Single aapl) = Ok df
    /\ index df = [Int 0; Int 1]
    /\ well_formed df.
Proof.
  destruct (shape_single (Single aapl)) as [e|df] eqn:E; [by vm_compute in E|].
  destruct (shape_single_invariant aapl df E) as (Hidx & _ & Hn & _ & Hwf).
  exists df. split; [done|]. split.
  - by rewrite Hidx, Hn.
  - apply Hwf. by repeat constructor.
Defined.
